(** * IudeenProto: the WebSocket protocol adapter of [app/protocols/my_proto.py]

    A shallow embedding of the class [IudeenProto] (an [asyncio.Protocol]
    that bridges a transport, the sans-io [websockets] connection and an
    ASGI application), followed by the properties of its methods.

    The adapter's attributes form the record [Proto]; every method is a
    computation in a state-and-exception monad over [Proto], so that an
    exception leaves the mutations made before it in place, as in Python.
    The two collaborators the file imports but does not define are taken
    as they are used: the [websockets] connection is an interface
    ([Codec]) whose operations are parameters, and the transport is a
    recorder of the calls made on it. *)

From Stdlib Require Import ZArith String List Bool Ascii Lia.
From Stdlib Require Import Strings.Byte.
From stdpp Require Import base option list gmap sets strings.

Set Warnings "-register-all".

Local Open Scope string_scope.
Local Open Scope list_scope.
Local Open Scope Z_scope.

(** ** Python values *)

Definition byte_string : Type := list Byte.byte.

(** The values that travel in ASGI messages and through the queue: the
    scalars, byte strings, lists and string-keyed dicts of the ASGI
    message format.  A Python [str] is kept as its UTF-8 text, a [dict] as
    an association list (first binding wins, as built here no key
    repeats). *)
Inductive PyVal : Type :=
| PyNone
| PyBool (b : bool)
| PyInt (z : Z)
| PyStr (s : string)
| PyBytes (b : byte_string)
| PyByteArray (b : byte_string)
| PyMemoryView (b : byte_string)
| PyList (l : list PyVal)
| PyDict (d : list (string * PyVal)).

(** The exceptions the adapter raises or lets through.  The three
    [RuntimeError]s of [send] are built as [msg % message_type]: the
    template and the value formatted into it are kept apart. *)
Inductive PyExc : Type :=
| RuntimeError (template : string) (arg : PyVal)
| TypeError (msg : string)
| NotImplementedError (msg : string)
| KeyError (key : string)
| AttributeError (attr : string)
| UnicodeEncodeError (codec_name : string)
| LibraryError (name : string).

Inductive Outcome (A : Type) : Type :=
| Ret (a : A)
| Raise (e : PyExc).
Arguments Ret {A} a.
Arguments Raise {A} e.

Fixpoint assoc (key : string) (d : list (string * PyVal)) : option PyVal :=
  match d with
  | [] => None
  | (k, v) :: rest => if String.eqb k key then Some v else assoc key rest
  end.

(** [obj[key]] for a string key: only a dict can be indexed by a string. *)
Definition getitem (obj : PyVal) (key : string) : Outcome PyVal :=
  match obj with
  | PyDict d =>
      match assoc key d with
      | Some v => Ret v
      | None => Raise (KeyError key)
      end
  | PyNone | PyBool _ | PyInt _ =>
      Raise (TypeError "object is not subscriptable")
  | PyStr _ | PyBytes _ | PyByteArray _ | PyMemoryView _ | PyList _ =>
      Raise (TypeError "indices must be integers or slices, not str")
  end.

(** [obj.get(key, default)]; of the values above only a dict has [get]. *)
Definition get_default (obj : PyVal) (key : string) (default : PyVal)
  : Outcome PyVal :=
  match obj with
  | PyDict d =>
      match assoc key d with
      | Some v => Ret v
      | None => Ret default
      end
  | _ => Raise (AttributeError "get")
  end.

(** [v == s] for a string literal [s]. *)
Definition eq_str (v : PyVal) (s : string) : bool :=
  match v with
  | PyStr s' => String.eqb s' s
  | _ => false
  end.

Definition is_None (v : PyVal) : bool :=
  match v with PyNone => true | _ => false end.

(** Truth value, as taken by [x or y]. *)
Definition truthy (v : PyVal) : bool :=
  match v with
  | PyNone => false
  | PyBool b => b
  | PyInt z => negb (z =? 0)
  | PyStr s => negb (String.eqb s EmptyString)
  | PyBytes b | PyByteArray b | PyMemoryView b =>
      match b with [] => false | _ => true end
  | PyList l => match l with [] => false | _ => true end
  | PyDict d => match d with [] => false | _ => true end
  end.

(** [isinstance(v, str)] *)
Definition isinstance_str (v : PyVal) : bool :=
  match v with PyStr _ => true | _ => false end.

(** [isinstance(v, (bytes, bytearray, memoryview))] *)
Definition isinstance_bytes_like (v : PyVal) : bool :=
  match v with
  | PyBytes _ | PyByteArray _ | PyMemoryView _ => true
  | _ => false
  end.

(** [isinstance(v, typing.Mapping)] *)
Definition isinstance_Mapping (v : PyVal) : bool :=
  match v with PyDict _ => true | _ => false end.

(** [isinstance(v, typing.Iterable)] *)
Definition isinstance_Iterable (v : PyVal) : bool :=
  match v with
  | PyStr _ | PyBytes _ | PyByteArray _ | PyMemoryView _
  | PyList _ | PyDict _ => true
  | PyNone | PyBool _ | PyInt _ => false
  end.

Definition buffer_of (v : PyVal) : byte_string :=
  match v with
  | PyBytes b | PyByteArray b | PyMemoryView b => b
  | _ => []
  end.

(** [s.encode("utf-8")]: the text is held in UTF-8 already. *)
Definition encode_utf8 (s : string) : byte_string := list_byte_of_string s.

(** [s.encode("ascii")] fails on any character outside ASCII. *)
Definition is_ascii_byte (b : Byte.byte) : bool := (Byte.to_N b <? 128)%N.

Definition encode_ascii (s : string) : Outcome byte_string :=
  let bs := list_byte_of_string s in
  if forallb is_ascii_byte bs then Ret bs
  else Raise (UnicodeEncodeError "ascii").

(** ** The transport

    The adapter only calls the transport; the model records the calls, in
    order, with the argument as passed.  [write] is handed [bytes] by the
    loops over [data_to_send()] and the whole list by lines 125, 254 and
    299; what a transport does with a list is its own affair
    ([bad_write]): asyncio's selector transports raise TypeError, a
    permissive one takes it.  [close] makes [is_closing()] true. *)

Inductive WriteArg : Type :=
| WBytes (b : byte_string)
| WChunks (l : list byte_string).

Inductive TransportCall : Type :=
| TWrite (data : WriteArg)
| TClose
| TPauseReading
| TResumeReading.

Definition Addr : Type := (string * Z)%type.

Record Transport : Type := {
  sockname : option Addr;
  peername : option Addr;
  ssl : bool;
  closing : bool;
  bad_write : list byte_string -> option PyExc;
  calls : list TransportCall
}.

Definition record_call (c : TransportCall) (tr : Transport) : Transport :=
  {| sockname := sockname tr; peername := peername tr; ssl := ssl tr;
     closing := closing tr; bad_write := bad_write tr;
     calls := calls tr ++ [c] |}.

Definition tr_write (data : WriteArg) (tr : Transport)
  : Transport * Outcome unit :=
  match data with
  | WBytes _ => (record_call (TWrite data) tr, Ret tt)
  | WChunks l =>
      match bad_write tr l with
      | Some e => (tr, Raise e)
      | None => (record_call (TWrite data) tr, Ret tt)
      end
  end.

Definition tr_close (tr : Transport) : Transport :=
  {| sockname := sockname tr; peername := peername tr; ssl := ssl tr;
     closing := true; bad_write := bad_write tr;
     calls := calls tr ++ [TClose] |}.

Definition is_closing (tr : Transport) : bool := closing tr.

(** What asyncio's own transports do with a list: TypeError. *)
Definition asyncio_bad_write (_ : list byte_string) : option PyExc :=
  Some (TypeError "data argument must be a bytes-like object, not 'list'").

Definition permissive_bad_write (_ : list byte_string) : option PyExc := None.

(** uvicorn.protocols.utils *)
Definition get_local_addr (tr : Transport) : option Addr := sockname tr.
Definition get_remote_addr (tr : Transport) : option Addr := peername tr.
Definition is_ssl (tr : Transport) : bool := ssl tr.

(** ** The websockets connection *)

(** [websockets.connection.State], an [IntEnum]. *)
Inductive State : Type := CONNECTING | OPEN | CLOSING | CLOSED.

Definition State_value (s : State) : Z :=
  match s with CONNECTING => 0 | OPEN => 1 | CLOSING => 2 | CLOSED => 3 end.

Definition State_eqb (a b : State) : bool := State_value a =? State_value b.

(** [member.CLOSING]: an attribute looked up on an enum member is the
    member of that name, whatever the member it is looked up on. *)
Definition State_attr_CLOSING (_ : State) : State := CLOSING.

(** Truth value of an [IntEnum] member: that of its integer. *)
Definition State_truthy (s : State) : bool := negb (State_value s =? 0).

(** [websockets.frames] opcodes. *)
Inductive Opcode : Type :=
| OP_CONT | OP_TEXT | OP_BINARY | OP_CLOSE | OP_PING | OP_PONG.

Definition Opcode_value (o : Opcode) : Z :=
  match o with
  | OP_CONT => 0 | OP_TEXT => 1 | OP_BINARY => 2
  | OP_CLOSE => 8 | OP_PING => 9 | OP_PONG => 10
  end.

Definition Opcode_eqb (a b : Opcode) : bool := Opcode_value a =? Opcode_value b.

Record Request : Type := {
  path : string;
  headers : list (string * string)
}.

Record Response : Type := {
  status_code : Z;
  reason_phrase : string;
  response_headers : list (string * string);
  body : byte_string
}.

Record Frame : Type := {
  opcode : Opcode;
  data : byte_string;
  fin : bool
}.

(** What [events_received()] of a server connection yields. *)
Inductive Event : Type :=
| EvRequest (r : Request)
| EvFrame (f : Frame).

(** The h11-style messages that [handle_no_connect] and [handle_ping] pass
    to [self.conn.send]. *)
Inductive OutMsg : Type :=
| H11Response (status : Z) (hdrs : list (byte_string * byte_string))
    (reason : string)
| H11Data (payload : byte_string)
| H11EndOfMessage
| Pong (payload : byte_string).

(** The arguments of the three handlers that [handle_events] does not
    route to: each record holds the attributes its handler reads. *)
Record BytesMessage : Type := {
  bm_data : byte_string;
  message_finished : bool
}.

Record Ping : Type := { ping_payload : byte_string }.
Definition Ping_response (p : Ping) : OutMsg := Pong (ping_payload p).

Record Rejection : Type := { reason : string }.

(** The operations of [websockets.server.ServerConnection] that the
    adapter calls.  Each takes the connection and gives the connection
    back; those that can raise return an [Outcome]. *)
Class Codec : Type := {
  connection : Type;
  new_connection : option Z -> bool -> connection;
  state : connection -> State;
  receive_data : byte_string -> connection -> connection * Outcome unit;
  events_received : connection -> connection * list Event;
  data_to_send : connection -> connection * list byte_string;
  accept : Request -> connection -> connection * Outcome Response;
  send_response : Response -> connection -> connection * Outcome unit;
  reject : Z -> string -> connection -> connection * Outcome Response;
  send_text : byte_string -> connection -> connection * Outcome unit;
  send_binary : byte_string -> connection -> connection * Outcome unit;
  send_close : PyVal -> PyVal -> connection -> connection * Outcome unit;
  conn_send : OutMsg -> connection -> connection * Outcome byte_string
}.

(** [urllib.parse.unquote] *)
Class Urllib : Type := { unquote : string -> string }.

(** [websockets.datastructures.Headers]: a request's headers are held as
    the list read from the wire; the two views the adapter takes of them
    are the library's. *)
Class Datastructures : Type := {
  Headers_items : list (string * string) -> Outcome (list (string * string));
  Headers_get_all : list (string * string) -> string -> list string
}.

(** ** Python string methods used by [handle_connect] *)

Definition lower_ascii (c : ascii) : ascii :=
  let n := nat_of_ascii c in
  if (65 <=? n)%nat && (n <=? 90)%nat then ascii_of_nat (n + 32) else c.

(** [s.lower()], on the ASCII letters. *)
Fixpoint lower (s : string) : string :=
  match s with
  | EmptyString => EmptyString
  | String c rest => String (lower_ascii c) (lower rest)
  end.

(** [s.partition(sep)] for a one-character separator. *)
Fixpoint partition (sep : ascii) (s : string) : string * string * string :=
  match s with
  | EmptyString => (EmptyString, EmptyString, EmptyString)
  | String c rest =>
      if Ascii.eqb c sep then (EmptyString, String sep EmptyString, rest)
      else
        let '(before, found, after) := partition sep rest in
        (String c before, found, after)
  end.

(** [s.split(sep)] for a one-character separator. *)
Fixpoint split (sep : ascii) (s : string) : list string :=
  match s with
  | EmptyString => [EmptyString]
  | String c rest =>
      if Ascii.eqb c sep then EmptyString :: split sep rest
      else
        match split sep rest with
        | [] => [String c EmptyString]
        | tok :: toks => String c tok :: toks
        end
  end.

Definition is_space (c : ascii) : bool :=
  let n := nat_of_ascii c in
  ((9 <=? n)%nat && (n <=? 13)%nat) || ((28 <=? n)%nat && (n <=? 32)%nat).

Fixpoint lstrip (s : string) : string :=
  match s with
  | EmptyString => EmptyString
  | String c rest => if is_space c then lstrip rest else s
  end.

Fixpoint rstrip (s : string) : string :=
  match s with
  | EmptyString => EmptyString
  | String c rest =>
      match rstrip rest with
      | EmptyString => if is_space c then EmptyString else String c EmptyString
      | kept => String c kept
      end
  end.

(** [s.strip()] *)
Definition strip (s : string) : string := rstrip (lstrip s).

(** ** Configuration, scope, log *)

Record Config : Type := {
  loaded : bool;
  config_root_path : string;
  asgi_version : string;
  ws_max_size : option Z;
  ws_per_message_deflate : bool
}.

(** [config.load()] *)
Definition Config_load (c : Config) : Config :=
  {| loaded := true; config_root_path := config_root_path c;
     asgi_version := asgi_version c; ws_max_size := ws_max_size c;
     ws_per_message_deflate := ws_per_message_deflate c |}.

(** The dict built by [handle_connect], key by key. *)
Record Scope : Type := {
  scope_type : string;
  scope_asgi_version : string;
  scope_asgi_spec_version : string;
  scope_http_version : string;
  scope_scheme : option string;
  scope_server : option Addr;
  scope_client : option Addr;
  scope_root_path : string;
  scope_path : string;
  scope_raw_path : byte_string;
  scope_query_string : byte_string;
  scope_headers : list (string * string);
  scope_subprotocols : list string
}.

Definition TRACE_LOG_LEVEL : Z := 5.
Definition INFO : Z := 20.
Definition ERROR : Z := 40.

Inductive LogArg : Type :=
| LAddr (a : option Addr)
| LText (s : string)
| LVal (v : PyVal)
| LExc (e : PyExc).

Record LogRecord : Type := {
  levelno : Z;
  log_msg : string;
  log_args : list LogArg
}.

(** Members of the two server-wide sets. *)
Definition ProtoId : Type := nat.
Definition Task : Type := nat.

(** ** The adapter's state *)

Section Adapter.

Context {codec : Codec} {datastructures : Datastructures} {urllib : Urllib}.

(** The attributes set by [__init__] and the methods, in the order of
    [__init__]; [connections] and [tasks] are the server's shared sets.
    After them, what the methods act on outside the object: the identity
    of [self] in [connections], the logger's level and the records logged,
    what [print] wrote, the tasks the loop has created and those that
    carry [on_task_complete] as their done-callback. *)
Record Proto : Type := {
  config : Config;
  root_path : string;
  connections : gset ProtoId;
  tasks : gset Task;
  transport : option Transport;
  server : option Addr;
  client : option Addr;
  scheme : option string;
  connect_event : option Request;
  queue : list PyVal;
  handshake_complete : bool;
  close_sent : bool;
  conn : connection;
  read_paused : bool;
  writable : bool;
  bytes : byte_string;
  text : PyVal;
  scope : option Scope;
  self_id : ProtoId;
  logger_level : Z;
  log : list LogRecord;
  stdout : list string;
  created : list Task;
  done_callbacks : list Task
}.

Definition set_connections (v : _) (st : Proto) : Proto :=
  {| config := config st; root_path := root_path st; connections := v;
     tasks := tasks st; transport := transport st; server := server st;
     client := client st; scheme := scheme st;
     connect_event := connect_event st; queue := queue st;
     handshake_complete := handshake_complete st;
     close_sent := close_sent st; conn := conn st;
     read_paused := read_paused st; writable := writable st;
     bytes := bytes st; text := text st; scope := scope st;
     self_id := self_id st; logger_level := logger_level st; log := log st;
     stdout := stdout st; created := created st;
     done_callbacks := done_callbacks st |}.

Definition set_tasks (v : _) (st : Proto) : Proto :=
  {| config := config st; root_path := root_path st;
     connections := connections st; tasks := v; transport := transport st;
     server := server st; client := client st; scheme := scheme st;
     connect_event := connect_event st; queue := queue st;
     handshake_complete := handshake_complete st;
     close_sent := close_sent st; conn := conn st;
     read_paused := read_paused st; writable := writable st;
     bytes := bytes st; text := text st; scope := scope st;
     self_id := self_id st; logger_level := logger_level st; log := log st;
     stdout := stdout st; created := created st;
     done_callbacks := done_callbacks st |}.

Definition set_transport (v : _) (st : Proto) : Proto :=
  {| config := config st; root_path := root_path st;
     connections := connections st; tasks := tasks st; transport := v;
     server := server st; client := client st; scheme := scheme st;
     connect_event := connect_event st; queue := queue st;
     handshake_complete := handshake_complete st;
     close_sent := close_sent st; conn := conn st;
     read_paused := read_paused st; writable := writable st;
     bytes := bytes st; text := text st; scope := scope st;
     self_id := self_id st; logger_level := logger_level st; log := log st;
     stdout := stdout st; created := created st;
     done_callbacks := done_callbacks st |}.

Definition set_server (v : _) (st : Proto) : Proto :=
  {| config := config st; root_path := root_path st;
     connections := connections st; tasks := tasks st;
     transport := transport st; server := v; client := client st;
     scheme := scheme st; connect_event := connect_event st;
     queue := queue st; handshake_complete := handshake_complete st;
     close_sent := close_sent st; conn := conn st;
     read_paused := read_paused st; writable := writable st;
     bytes := bytes st; text := text st; scope := scope st;
     self_id := self_id st; logger_level := logger_level st; log := log st;
     stdout := stdout st; created := created st;
     done_callbacks := done_callbacks st |}.

Definition set_client (v : _) (st : Proto) : Proto :=
  {| config := config st; root_path := root_path st;
     connections := connections st; tasks := tasks st;
     transport := transport st; server := server st; client := v;
     scheme := scheme st; connect_event := connect_event st;
     queue := queue st; handshake_complete := handshake_complete st;
     close_sent := close_sent st; conn := conn st;
     read_paused := read_paused st; writable := writable st;
     bytes := bytes st; text := text st; scope := scope st;
     self_id := self_id st; logger_level := logger_level st; log := log st;
     stdout := stdout st; created := created st;
     done_callbacks := done_callbacks st |}.

Definition set_scheme (v : _) (st : Proto) : Proto :=
  {| config := config st; root_path := root_path st;
     connections := connections st; tasks := tasks st;
     transport := transport st; server := server st; client := client st;
     scheme := v; connect_event := connect_event st; queue := queue st;
     handshake_complete := handshake_complete st;
     close_sent := close_sent st; conn := conn st;
     read_paused := read_paused st; writable := writable st;
     bytes := bytes st; text := text st; scope := scope st;
     self_id := self_id st; logger_level := logger_level st; log := log st;
     stdout := stdout st; created := created st;
     done_callbacks := done_callbacks st |}.

Definition set_connect_event (v : _) (st : Proto) : Proto :=
  {| config := config st; root_path := root_path st;
     connections := connections st; tasks := tasks st;
     transport := transport st; server := server st; client := client st;
     scheme := scheme st; connect_event := v; queue := queue st;
     handshake_complete := handshake_complete st;
     close_sent := close_sent st; conn := conn st;
     read_paused := read_paused st; writable := writable st;
     bytes := bytes st; text := text st; scope := scope st;
     self_id := self_id st; logger_level := logger_level st; log := log st;
     stdout := stdout st; created := created st;
     done_callbacks := done_callbacks st |}.

Definition set_queue (v : _) (st : Proto) : Proto :=
  {| config := config st; root_path := root_path st;
     connections := connections st; tasks := tasks st;
     transport := transport st; server := server st; client := client st;
     scheme := scheme st; connect_event := connect_event st; queue := v;
     handshake_complete := handshake_complete st;
     close_sent := close_sent st; conn := conn st;
     read_paused := read_paused st; writable := writable st;
     bytes := bytes st; text := text st; scope := scope st;
     self_id := self_id st; logger_level := logger_level st; log := log st;
     stdout := stdout st; created := created st;
     done_callbacks := done_callbacks st |}.

Definition set_handshake_complete (v : _) (st : Proto) : Proto :=
  {| config := config st; root_path := root_path st;
     connections := connections st; tasks := tasks st;
     transport := transport st; server := server st; client := client st;
     scheme := scheme st; connect_event := connect_event st;
     queue := queue st; handshake_complete := v; close_sent := close_sent st;
     conn := conn st; read_paused := read_paused st; writable := writable st;
     bytes := bytes st; text := text st; scope := scope st;
     self_id := self_id st; logger_level := logger_level st; log := log st;
     stdout := stdout st; created := created st;
     done_callbacks := done_callbacks st |}.

Definition set_close_sent (v : _) (st : Proto) : Proto :=
  {| config := config st; root_path := root_path st;
     connections := connections st; tasks := tasks st;
     transport := transport st; server := server st; client := client st;
     scheme := scheme st; connect_event := connect_event st;
     queue := queue st; handshake_complete := handshake_complete st;
     close_sent := v; conn := conn st; read_paused := read_paused st;
     writable := writable st; bytes := bytes st; text := text st;
     scope := scope st; self_id := self_id st;
     logger_level := logger_level st; log := log st; stdout := stdout st;
     created := created st; done_callbacks := done_callbacks st |}.

Definition set_conn (v : _) (st : Proto) : Proto :=
  {| config := config st; root_path := root_path st;
     connections := connections st; tasks := tasks st;
     transport := transport st; server := server st; client := client st;
     scheme := scheme st; connect_event := connect_event st;
     queue := queue st; handshake_complete := handshake_complete st;
     close_sent := close_sent st; conn := v; read_paused := read_paused st;
     writable := writable st; bytes := bytes st; text := text st;
     scope := scope st; self_id := self_id st;
     logger_level := logger_level st; log := log st; stdout := stdout st;
     created := created st; done_callbacks := done_callbacks st |}.

Definition set_read_paused (v : _) (st : Proto) : Proto :=
  {| config := config st; root_path := root_path st;
     connections := connections st; tasks := tasks st;
     transport := transport st; server := server st; client := client st;
     scheme := scheme st; connect_event := connect_event st;
     queue := queue st; handshake_complete := handshake_complete st;
     close_sent := close_sent st; conn := conn st; read_paused := v;
     writable := writable st; bytes := bytes st; text := text st;
     scope := scope st; self_id := self_id st;
     logger_level := logger_level st; log := log st; stdout := stdout st;
     created := created st; done_callbacks := done_callbacks st |}.

Definition set_writable (v : _) (st : Proto) : Proto :=
  {| config := config st; root_path := root_path st;
     connections := connections st; tasks := tasks st;
     transport := transport st; server := server st; client := client st;
     scheme := scheme st; connect_event := connect_event st;
     queue := queue st; handshake_complete := handshake_complete st;
     close_sent := close_sent st; conn := conn st;
     read_paused := read_paused st; writable := v; bytes := bytes st;
     text := text st; scope := scope st; self_id := self_id st;
     logger_level := logger_level st; log := log st; stdout := stdout st;
     created := created st; done_callbacks := done_callbacks st |}.

Definition set_bytes (v : _) (st : Proto) : Proto :=
  {| config := config st; root_path := root_path st;
     connections := connections st; tasks := tasks st;
     transport := transport st; server := server st; client := client st;
     scheme := scheme st; connect_event := connect_event st;
     queue := queue st; handshake_complete := handshake_complete st;
     close_sent := close_sent st; conn := conn st;
     read_paused := read_paused st; writable := writable st; bytes := v;
     text := text st; scope := scope st; self_id := self_id st;
     logger_level := logger_level st; log := log st; stdout := stdout st;
     created := created st; done_callbacks := done_callbacks st |}.

Definition set_text (v : _) (st : Proto) : Proto :=
  {| config := config st; root_path := root_path st;
     connections := connections st; tasks := tasks st;
     transport := transport st; server := server st; client := client st;
     scheme := scheme st; connect_event := connect_event st;
     queue := queue st; handshake_complete := handshake_complete st;
     close_sent := close_sent st; conn := conn st;
     read_paused := read_paused st; writable := writable st;
     bytes := bytes st; text := v; scope := scope st; self_id := self_id st;
     logger_level := logger_level st; log := log st; stdout := stdout st;
     created := created st; done_callbacks := done_callbacks st |}.

Definition set_scope (v : _) (st : Proto) : Proto :=
  {| config := config st; root_path := root_path st;
     connections := connections st; tasks := tasks st;
     transport := transport st; server := server st; client := client st;
     scheme := scheme st; connect_event := connect_event st;
     queue := queue st; handshake_complete := handshake_complete st;
     close_sent := close_sent st; conn := conn st;
     read_paused := read_paused st; writable := writable st;
     bytes := bytes st; text := text st; scope := v; self_id := self_id st;
     logger_level := logger_level st; log := log st; stdout := stdout st;
     created := created st; done_callbacks := done_callbacks st |}.

Definition set_log (v : _) (st : Proto) : Proto :=
  {| config := config st; root_path := root_path st;
     connections := connections st; tasks := tasks st;
     transport := transport st; server := server st; client := client st;
     scheme := scheme st; connect_event := connect_event st;
     queue := queue st; handshake_complete := handshake_complete st;
     close_sent := close_sent st; conn := conn st;
     read_paused := read_paused st; writable := writable st;
     bytes := bytes st; text := text st; scope := scope st;
     self_id := self_id st; logger_level := logger_level st; log := v;
     stdout := stdout st; created := created st;
     done_callbacks := done_callbacks st |}.

Definition set_stdout (v : _) (st : Proto) : Proto :=
  {| config := config st; root_path := root_path st;
     connections := connections st; tasks := tasks st;
     transport := transport st; server := server st; client := client st;
     scheme := scheme st; connect_event := connect_event st;
     queue := queue st; handshake_complete := handshake_complete st;
     close_sent := close_sent st; conn := conn st;
     read_paused := read_paused st; writable := writable st;
     bytes := bytes st; text := text st; scope := scope st;
     self_id := self_id st; logger_level := logger_level st; log := log st;
     stdout := v; created := created st;
     done_callbacks := done_callbacks st |}.

Definition set_created (v : _) (st : Proto) : Proto :=
  {| config := config st; root_path := root_path st;
     connections := connections st; tasks := tasks st;
     transport := transport st; server := server st; client := client st;
     scheme := scheme st; connect_event := connect_event st;
     queue := queue st; handshake_complete := handshake_complete st;
     close_sent := close_sent st; conn := conn st;
     read_paused := read_paused st; writable := writable st;
     bytes := bytes st; text := text st; scope := scope st;
     self_id := self_id st; logger_level := logger_level st; log := log st;
     stdout := stdout st; created := v;
     done_callbacks := done_callbacks st |}.

Definition set_done_callbacks (v : _) (st : Proto) : Proto :=
  {| config := config st; root_path := root_path st;
     connections := connections st; tasks := tasks st;
     transport := transport st; server := server st; client := client st;
     scheme := scheme st; connect_event := connect_event st;
     queue := queue st; handshake_complete := handshake_complete st;
     close_sent := close_sent st; conn := conn st;
     read_paused := read_paused st; writable := writable st;
     bytes := bytes st; text := text st; scope := scope st;
     self_id := self_id st; logger_level := logger_level st; log := log st;
     stdout := stdout st; created := created st; done_callbacks := v |}.


(** ** State and exceptions *)

Definition M (A : Type) : Type := Proto -> Proto * Outcome A.

Definition ret {A : Type} (a : A) : M A := fun st => (st, Ret a).

Definition raise {A : Type} (e : PyExc) : M A := fun st => (st, Raise e).

Definition bind {A B : Type} (m : M A) (k : A -> M B) : M B :=
  fun st =>
    match m st with
    | (st', Ret a) => k a st'
    | (st', Raise e) => (st', Raise e)
    end.

#[global] Instance M_ret : MRet M := @ret.
#[global] Instance M_bind : MBind M := fun A B k m => bind m k.

Definition gets {A : Type} (f : Proto -> A) : M A := fun st => (st, Ret (f st)).

Definition modify (f : Proto -> Proto) : M unit := fun st => (f st, Ret tt).

(** A value or an exception computed outside the state. *)
Definition lift {A : Type} (o : Outcome A) : M A := fun st => (st, o).

(** [for x in l: body(x)] *)
Fixpoint for_each {A : Type} (l : list A) (body : A -> M unit) : M unit :=
  match l with
  | [] => ret tt
  | x :: rest => bind (body x) (fun _ => for_each rest body)
  end.

(** [try: m] with the outcome handed to the handler. *)
Definition attempt {A : Type} (m : M A) : M (Outcome A) :=
  fun st => let '(st', o) := m st in (st', Ret o).

(** A call on [self.conn]. *)
Definition on_conn {A : Type} (op : connection -> connection * Outcome A) : M A :=
  fun st => let '(c, o) := op (conn st) in (set_conn c st, o).

Definition on_conn_total {A : Type} (op : connection -> connection * A) : M A :=
  fun st => let '(c, a) := op (conn st) in (set_conn c st, Ret a).

(** A call on [self.transport], which is [None] until [connection_made]. *)
Definition on_transport {A : Type} (attr : string)
    (op : Transport -> Transport * Outcome A) : M A :=
  fun st =>
    match transport st with
    | None => (st, Raise (AttributeError attr))
    | Some tr => let '(tr', o) := op tr in (set_transport (Some tr') st, o)
    end.

Definition transport_write (data : WriteArg) : M unit :=
  on_transport "write" (tr_write data).

(** [self.transport.<attr>] looked up on its own: in
    [self.transport.write(<call>)] Python finds the method before it
    evaluates the argument, so a missing transport fails first. *)
Definition transport_attr (attr : string) : M unit :=
  fun st =>
    match transport st with
    | None => (st, Raise (AttributeError attr))
    | Some _ => (st, Ret tt)
    end.

Definition transport_close : M unit :=
  on_transport "close" (fun tr => (tr_close tr, Ret tt)).

Definition transport_is_closing : M bool :=
  fun st =>
    match transport st with
    | None => (st, Raise (AttributeError "is_closing"))
    | Some tr => (st, Ret (is_closing tr))
    end.

Definition transport_pause_reading : M unit :=
  on_transport "pause_reading" (fun tr => (record_call TPauseReading tr, Ret tt)).

Definition transport_resume_reading : M unit :=
  on_transport "resume_reading" (fun tr => (record_call TResumeReading tr, Ret tt)).

(** [self.queue.put_nowait(item)]: the queue is unbounded. *)
Definition queue_put_nowait (item : PyVal) : M unit :=
  modify (fun st => set_queue (queue st ++ [item]) st).

Definition logger_log (level : Z) (msg : string) (args : list LogArg) : M unit :=
  modify (fun st =>
    set_log (log st ++ [{| levelno := level; log_msg := msg; log_args := args |}]) st).

(** [print(line)] *)
Definition print (line : string) : M unit :=
  modify (fun st => set_stdout (stdout st ++ [line]) st).

(** [self.scope], an attribute that exists once [handle_connect] has run. *)
Definition read_scope : M Scope :=
  fun st =>
    match scope st with
    | Some sc => (st, Ret sc)
    | None => (st, Raise (AttributeError "scope"))
    end.


(** ** The methods of [IudeenProto] *)

Definition dquote : string := String (ascii_of_nat 34) EmptyString.
Definition newline : string := String (ascii_of_nat 10) EmptyString.

Definition websocket_disconnect (fields : list (string * PyVal)) : PyVal :=
  PyDict (("type", PyStr "websocket.disconnect") :: fields).

(** [__init__(config, server_state)]: [server_connections] and
    [server_tasks] are [server_state]'s two sets. *)
Definition init (cfg : Config) (server_connections : gset ProtoId)
    (server_tasks : gset Task) (id : ProtoId) (level : Z) : Proto :=
  let cfg := if loaded cfg then cfg else Config_load cfg in
  {| config := cfg;
     root_path := config_root_path cfg;
     connections := server_connections;
     tasks := server_tasks;
     transport := None;
     server := None;
     client := None;
     scheme := None;
     connect_event := None;
     queue := [];
     handshake_complete := false;
     close_sent := false;
     conn := new_connection (ws_max_size cfg) (ws_per_message_deflate cfg);
     read_paused := false;
     writable := true;
     bytes := [];
     text := PyStr EmptyString;
     scope := None;
     self_id := id;
     logger_level := level;
     log := [];
     stdout := [];
     created := [];
     done_callbacks := [] |}.

Definition log_trace (msg : string) : M unit :=
  lvl ← gets logger_level;
  if lvl <=? TRACE_LOG_LEVEL then
    cl ← gets client;
    logger_log TRACE_LOG_LEVEL msg [LAddr cl]
  else ret tt.

Definition connection_made (tr : Transport) : M unit :=
  modify (fun st => set_connections ({[self_id st]} ∪ connections st) st);;
  modify (set_transport (Some tr));;
  modify (set_server (get_local_addr tr));;
  modify (set_client (get_remote_addr tr));;
  modify (set_scheme (Some (if is_ssl tr then "wss" else "ws")));;
  log_trace "%sWebSocket connection made".

(** [self.connections.remove(self)] *)
Definition connections_remove_self : M unit :=
  fun st =>
    if decide (self_id st ∈ connections st)
    then (set_connections (connections st ∖ {[self_id st]}) st, Ret tt)
    else (st, Raise (KeyError "self")).

Definition connection_lost (exc : option PyExc) : M unit :=
  (if exc is Some _ then queue_put_nowait (websocket_disconnect []) else ret tt);;
  connections_remove_self;;
  log_trace "%sWebSocket connection lost";;
  if exc is None then transport_close else ret tt.

Definition eof_received : M unit := ret tt.

(** [loop.create_task(self.run_asgi())] *)
Definition loop_create_task : M Task :=
  fun st =>
    let task := length (created st) in
    (set_created (created st ++ [task]) st, Ret task).

(** [task.add_done_callback(self.on_task_complete)] *)
Definition add_done_callback (task : Task) : M unit :=
  modify (fun st => set_done_callbacks (done_callbacks st ++ [task]) st).

Definition handle_connect (event : Request) : M unit :=
  modify (set_connect_event (Some event));;
  items ← lift (Headers_items (headers event));
  let headers_ := map (fun kv => (lower (fst kv), snd kv)) items in
  let '(raw_path, _, query_string) := partition "?" (path event) in
  let subprotocols :=
    flat_map (fun header => map strip (split "," header))
      (Headers_get_all (headers event) "Sec-WebSocket-Protocol") in
  cfg ← gets config;
  sch ← gets scheme;
  srv ← gets server;
  cl ← gets client;
  rp ← gets root_path;
  raw ← lift (encode_ascii raw_path);
  qs ← lift (encode_ascii query_string);
  modify (set_scope (Some
    {| scope_type := "websocket";
       scope_asgi_version := asgi_version cfg;
       scope_asgi_spec_version := "2.3";
       scope_http_version := "1.1";
       scope_scheme := sch;
       scope_server := srv;
       scope_client := cl;
       scope_root_path := rp;
       scope_path := unquote raw_path;
       scope_raw_path := raw;
       scope_query_string := qs;
       scope_headers := headers_;
       scope_subprotocols := subprotocols |}));;
  response ← on_conn (accept event);
  on_conn (send_response response);;
  queue_put_nowait (PyDict [("type", PyStr "websocket.connect")]);;
  task ← loop_create_task;
  add_done_callback task;;
  modify (fun st => set_tasks ({[task]} ∪ tasks st) st).

Definition handle_no_connect (event : Rejection) : M unit :=
  let headers_ :=
    [(encode_utf8 "content-type", encode_utf8 "text/plain; charset=utf-8");
     (encode_utf8 "connection", encode_utf8 "close")] in
  let msg := H11Response 400 headers_ "Bad Request" in
  output ← on_conn (conn_send msg);
  let msg := H11Data (encode_utf8 (reason event)) in
  more ← on_conn (conn_send msg);
  let output := output ++ more in
  let msg := H11EndOfMessage in
  more ← on_conn (conn_send msg);
  let output := output ++ more in
  transport_write (WBytes output);;
  transport_close.

(** [for data in self.conn.data_to_send(): self.transport.write(data)] *)
Definition flush_each : M unit :=
  chunks ← on_conn_total data_to_send;
  for_each chunks (fun data_ => transport_write (WBytes data_)).

Definition handle_text (event : Frame) : M unit :=
  modify (set_text (PyBytes (data event)));;
  txt ← gets text;
  queue_put_nowait (PyDict [("type", PyStr "websocket.receive"); ("text", txt)]);;
  flush_each.

Definition handle_bytes (event : BytesMessage) : M unit :=
  modify (fun st => set_bytes (bytes st ++ bm_data event) st);;
  if message_finished event then
    buffered ← gets bytes;
    queue_put_nowait
      (PyDict [("type", PyStr "websocket.receive"); ("bytes", PyBytes buffered)]);;
    modify (set_bytes []);;
    paused ← gets read_paused;
    if negb paused then
      modify (set_read_paused true);;
      transport_pause_reading
    else ret tt
  else ret tt.

Definition handle_close (event : Frame) : M unit :=
  st_ ← gets (fun st => state (conn st));
  (if State_truthy (State_attr_CLOSING st_) then flush_each else ret tt);;
  queue_put_nowait (websocket_disconnect [("code", PyInt 1005)]);;
  transport_close.

Definition handle_ping (event : Ping) : M unit :=
  transport_attr "write";;
  out ← on_conn (conn_send (Ping_response event));
  transport_write (WBytes out).

(** The body of the loop of [handle_events]. *)
Definition handle_event (event : Event) : M unit :=
  match event with
  | EvRequest r => handle_connect r
  | EvFrame f =>
      if Opcode_eqb (opcode f) OP_TEXT then handle_text f
      else if Opcode_eqb (opcode f) OP_CLOSE then handle_close f
      else ret tt
  end.

Definition handle_events : M unit :=
  events_to_process ← on_conn_total events_received;
  for_each events_to_process handle_event.

Definition data_received (data_ : byte_string) : M unit :=
  on_conn (receive_data data_);;
  handle_events.

(** [await self.transport.write(...)] awaits the [None] that [write]
    returns, which is a TypeError once the write is done. *)
Definition async_data_received (data_out : byte_string)
    (events_to_process : list Event) : M unit :=
  st_ ← gets (fun st => state (conn st));
  (if State_eqb st_ OPEN && (0 <? Z.of_nat (length data_out)) then
     transport_write (WBytes data_out);;
     raise (TypeError "object NoneType can't be used in 'await' expression")
   else ret tt);;
  if 0 <? Z.of_nat (length events_to_process) then handle_events else ret tt.

Definition pause_writing : M unit := modify (set_writable false).

Definition resume_writing : M unit := modify (set_writable true).

Definition shutdown : M unit :=
  queue_put_nowait (websocket_disconnect [("code", PyInt 1012)]);;
  on_conn (send_close (PyInt 1012) (PyStr EmptyString));;
  transport_attr "write";;
  chunks ← on_conn_total data_to_send;
  transport_write (WChunks chunks);;
  transport_close.

Definition on_task_complete (task : Task) : M unit :=
  modify (fun st => set_tasks (tasks st ∖ {[task]}) st).

Definition send_500_response : M unit := print "500 Error".

(** [run_asgi] from the point where the awaited application call is over:
    [app] is what the call gave, a returned value or the exception that
    ended it.  The calls the application made to [send] and [receive] in
    the meantime are steps of their own.  Reading [self.scope] for the
    call is inside the [try]. *)
Definition run_asgi (app : Outcome PyVal) : M unit :=
  called ← attempt (read_scope;; lift app);
  match called with
  | Raise exc =>
      logger_log ERROR ("Exception in ASGI application" +:+ newline) [LExc exc];;
      complete ← gets handshake_complete;
      (if negb complete then send_500_response else ret tt);;
      transport_close
  | Ret result =>
      complete ← gets handshake_complete;
      if negb complete then
        logger_log ERROR "ASGI callable returned without completing handshake." [];;
        send_500_response;;
        transport_close
      else if negb (is_None result) then
        logger_log ERROR "ASGI callable should return None, but returned '%s'."
          [LVal result];;
        transport_close
      else ret tt
  end.

Definition str_of (v : PyVal) : string :=
  match v with PyStr s => s | _ => EmptyString end.

(** [send] from line 230 on, that is once [await self.writable.wait()]
    has returned; nothing below suspends. *)
Definition send_body (message : PyVal) : M unit :=
  message_type ← lift (getitem message "type");
  complete ← gets handshake_complete;
  if negb complete then
    if eq_str message_type "websocket.accept" then
      sc ← read_scope;
      logger_log INFO
        ("%s - " +:+ dquote +:+ "WebSocket %s" +:+ dquote +:+ " [accepted]")
        [LAddr (scope_client sc); LText (scope_path sc)];;
      modify (set_handshake_complete true);;
      flush_each
    else if eq_str message_type "websocket.close" then
      queue_put_nowait (websocket_disconnect [("code", PyNone)]);;
      sc ← read_scope;
      logger_log INFO
        ("%s - " +:+ dquote +:+ "WebSocket %s" +:+ dquote +:+ " 403")
        [LAddr (scope_client sc); LText (scope_path sc)];;
      modify (set_handshake_complete true);;
      modify (set_close_sent true);;
      msg ← on_conn (reject 403 "Reject");
      on_conn (send_response msg);;
      transport_attr "write";;
      chunks ← on_conn_total data_to_send;
      transport_write (WChunks chunks);;
      transport_close
    else
      raise (RuntimeError
        "Expected ASGI message 'websocket.accept' or 'websocket.close', but got '%s'."
        message_type)
  else
    closed ← gets close_sent;
    if negb closed then
      if eq_str message_type "websocket.send" then
        bytes_data ← lift (get_default message "bytes" PyNone);
        text_data ← lift (get_default message "text" PyNone);
        let data_ := if is_None bytes_data then text_data else bytes_data in
        (if isinstance_str data_ then
           on_conn (send_text (encode_utf8 (str_of data_)))
         else if isinstance_bytes_like data_ then
           on_conn (send_binary (buffer_of data_))
         else if isinstance_Mapping message then
           raise (TypeError "data is a dict-like object")
         else if isinstance_Iterable message then
           raise (NotImplementedError
             "Fragmented websocket messages are not supported.")
         else
           raise (TypeError "Websocket data must be bytes, str."));;
        is_closing_ ← transport_is_closing;
        if negb is_closing_ then flush_each else ret tt
      else if eq_str message_type "websocket.close" then
        modify (set_close_sent true);;
        code ← lift (get_default message "code" (PyInt 1000));
        given ← lift (get_default message "reason" (PyStr EmptyString));
        let reason_ := if truthy given then given else PyStr EmptyString in
        queue_put_nowait (websocket_disconnect [("code", code)]);;
        on_conn (send_close code reason_);;
        is_closing_ ← transport_is_closing;
        if negb is_closing_ then
          transport_attr "write";;
          chunks ← on_conn_total data_to_send;
          transport_write (WChunks chunks);;
          transport_close
        else ret tt
      else
        raise (RuntimeError
          "Expected ASGI message 'websocket.send' or 'websocket.close', but got '%s'."
          message_type)
    else
      raise (RuntimeError
        "Unexpected ASGI message '%s', after sending 'websocket.close'."
        message_type).

(** ** The two coroutines the application calls

    A call either runs to its end at once or parks at its one [await];
    a parked call holds what it will do with the state it wakes up in
    ([None]: it parks again). *)
Inductive Coroutine (A : Type) : Type :=
| Finished (r : Proto * Outcome A)
| Suspended (k : Proto -> option (Proto * Outcome A)).
Arguments Finished {A} r.
Arguments Suspended {A} k.

(** The call [c], woken up in state [st] if it was parked. *)
Definition wake {A : Type} (c : Coroutine A) (st : Proto)
  : option (Proto * Outcome A) :=
  match c with
  | Finished r => Some r
  | Suspended k => k st
  end.

(** [Event.wait()] returns at once when the flag is set; otherwise the
    call parks, and once woken by [set()] goes on without looking at the
    flag again. *)
Definition send (message : PyVal) (st : Proto) : Coroutine unit :=
  if writable st then Finished (send_body message st)
  else Suspended (fun st' => Some (send_body message st')).

(** [receive] from the point where [Queue.get()] has an item to give. *)
Definition receive_body (message : PyVal) (rest : list PyVal) : M PyVal :=
  modify (set_queue rest);;
  paused ← gets read_paused;
  q ← gets queue;
  (if paused && bool_decide (q = []) then
     modify (set_read_paused false);;
     transport_resume_reading
   else ret tt);;
  ret message.

(** [Queue.get()] waits for as long as the queue is empty. *)
Definition receive_poll (st : Proto) : option (Proto * Outcome PyVal) :=
  match queue st with
  | [] => None
  | message :: rest => Some (receive_body message rest st)
  end.

Definition receive (st : Proto) : Coroutine PyVal :=
  match receive_poll st with
  | Some r => Finished r
  | None => Suspended receive_poll
  end.

(** [st] is a state in which a call made in [st0] can be running its
    body: [st0] itself when it did not have to wait. *)
Definition runs_in (st0 st : Proto) : Prop := writable st0 = true -> st = st0.

(** ** Calls and reachable states

    Every method is an entry point: the loop calls the protocol
    interface, the server calls [shutdown], the application calls [send]
    and [receive], and the loop ends the task.  A call that raises leaves
    the state it reached. *)
Inductive Call : Type :=
| Call_connection_made (tr : Transport)
| Call_connection_lost (exc : option PyExc)
| Call_eof_received
| Call_data_received (data_ : byte_string)
| Call_async_data_received (data_out : byte_string) (events : list Event)
| Call_handle_events
| Call_pause_writing
| Call_resume_writing
| Call_shutdown
| Call_on_task_complete (task : Task)
| Call_handle_connect (event : Request)
| Call_handle_no_connect (event : Rejection)
| Call_handle_text (event : Frame)
| Call_handle_bytes (event : BytesMessage)
| Call_handle_close (event : Frame)
| Call_handle_ping (event : Ping)
| Call_send_500_response
| Call_run_asgi (app : Outcome PyVal)
| Call_send (message : PyVal)
| Call_receive.

Definition method (c : Call) : M unit :=
  match c with
  | Call_connection_made tr => connection_made tr
  | Call_connection_lost exc => connection_lost exc
  | Call_eof_received => eof_received
  | Call_data_received d => data_received d
  | Call_async_data_received d evs => async_data_received d evs
  | Call_handle_events => handle_events
  | Call_pause_writing => pause_writing
  | Call_resume_writing => resume_writing
  | Call_shutdown => shutdown
  | Call_on_task_complete t => on_task_complete t
  | Call_handle_connect e => handle_connect e
  | Call_handle_no_connect e => handle_no_connect e
  | Call_handle_text e => handle_text e
  | Call_handle_bytes e => handle_bytes e
  | Call_handle_close e => handle_close e
  | Call_handle_ping e => handle_ping e
  | Call_send_500_response => send_500_response
  | Call_run_asgi app => run_asgi app
  | Call_send message => send_body message
  | Call_receive =>
      fun st =>
        match receive_poll st with
        | Some (st', Ret _) => (st', Ret tt)
        | Some (st', Raise e) => (st', Raise e)
        | None => (st, Ret tt)
        end
  end.

Definition after (c : Call) (st : Proto) : Proto := fst (method c st).

Inductive reachable : Proto -> Prop :=
| reachable_init cfg cs ts id lvl : reachable (init cfg cs ts id lvl)
| reachable_call c st : reachable st -> reachable (after c st).

(** Close is only ever marked sent on a completed handshake. *)
Definition close_sent_after_handshake (st : Proto) : Prop :=
  close_sent st = true -> handshake_complete st = true.

(** ** Assertions on the state *)

(** Starting in a state where [P] holds, [m] ends, normally or by an
    exception, in a state where [Q] holds. *)
Definition hoare {A : Type} (P : Proto -> Prop) (m : M A) (Q : Proto -> Prop)
  : Prop :=
  forall st, P st -> Q (fst (m st)).

(** [I] looks at the two flags only. *)
Definition on_flags (I : Proto -> Prop) : Prop :=
  forall st st',
    handshake_complete st' = handshake_complete st ->
    close_sent st' = close_sent st ->
    I st -> I st'.

(** The transport after the calls [cs], in order. *)
Definition record_calls (cs : list TransportCall) (tr : Transport) : Transport :=
  fold_left (fun t c => record_call c t) cs tr.

Definition write_calls (chunks : list byte_string) : list TransportCall :=
  map (fun chunk => TWrite (WBytes chunk)) chunks.

(** How often the transport was asked to close. *)
Definition is_close (c : TransportCall) : bool :=
  match c with TClose => true | _ => false end.

Definition close_count (tr : Transport) : nat :=
  length (List.filter is_close (calls tr)).

(** ** Events named in the properties *)

Definition disconnect_1012 : PyVal := websocket_disconnect [("code", PyInt 1012)].

Definition websocket_connect : PyVal := PyDict [("type", PyStr "websocket.connect")].

Definition receive_bytes (b : byte_string) : PyVal :=
  PyDict [("type", PyStr "websocket.receive"); ("bytes", PyBytes b)].

(** The bytes of a run of fragments, end to end. *)
Definition payloads (events : list BytesMessage) : byte_string :=
  concat (map bm_data events).

Definition receive_text (b : byte_string) : PyVal :=
  PyDict [("type", PyStr "websocket.receive"); ("text", PyBytes b)].

Definition disconnect_1005 : PyVal := websocket_disconnect [("code", PyInt 1005)].

(** The frames [handle_events] has a branch for. *)
Definition routed (f : Frame) : bool :=
  Opcode_eqb (opcode f) OP_TEXT || Opcode_eqb (opcode f) OP_CLOSE.

(** [I] looks at the queue only. *)
Definition on_queue (I : Proto -> Prop) : Prop :=
  forall st st', queue st' = queue st -> I st -> I st'.

(** [message.get("code", 1000)] and [message.get("reason", "") or ""] for
    a message with the fields [d]. *)
Definition close_code (d : list (string * PyVal)) : PyVal :=
  match assoc "code" d with
  | Some v => v
  | None => PyInt 1000
  end.

Definition close_reason (d : list (string * PyVal)) : PyVal :=
  match assoc "reason" d with
  | Some v => if truthy v then v else PyStr EmptyString
  | None => PyStr EmptyString
  end.

(** The queue of [s] starts with [q]. *)
Definition queue_extends (q : list PyVal) (s : Proto) : Prop :=
  q `prefix_of` queue s.

(** The characters of a string. *)
Definition chars (s : string) : list ascii := list_ascii_of_string s.

(** How often the transport of [st], if it has one, was asked to close. *)
Definition closes (st : Proto) : nat :=
  match transport st with
  | Some tr => close_count tr
  | None => 0%nat
  end.

(** A connection that sends one close frame, as the library's does: a
    [send_close] it takes moves it out of the open state,
    [data_to_send()] leaves the state alone, and a connection that is not
    open refuses [send_close]. *)
Definition sends_one_close : Prop :=
  (forall code reason c c',
     send_close code reason c = (c', Ret tt) -> state c' <> OPEN) ∧
  (forall c, state (fst (data_to_send c)) = state c) ∧
  (forall code reason c,
     state c <> OPEN -> exists c' e, send_close code reason c = (c', Raise e)).

(** The frames of a binary message: its first frame and the continuation
    frames behind it. *)
Definition carries_binary (f : Frame) : bool :=
  Opcode_eqb (opcode f) OP_BINARY || Opcode_eqb (opcode f) OP_CONT.

End Adapter.

Arguments Finished {codec A} r.
Arguments Suspended {codec A} k.

(** ** A stand-in connection

    A small connection with the shape of the library's: it refuses to
    send unless open, keeps what it was asked to send until
    [data_to_send()], frames nothing (a message goes out as its payload),
    takes the first bytes it is given for the path of the request and
    later ones for a text frame, and fails on input after the end.  It
    has no [send] method, as the library's server connection has none.
    The examples at the end run the adapter on it. *)
Module Standin.

Record Conn : Type := {
  cstate : State;
  events : list Event;
  writes : list byte_string
}.

Definition put (b : byte_string) (c : Conn) : Conn :=
  {| cstate := cstate c; events := events c; writes := writes c ++ [b] |}.

Definition guarded (b : byte_string) (next : State) (c : Conn)
  : Conn * Outcome unit :=
  if State_eqb (cstate c) OPEN
  then ({| cstate := next; events := events c; writes := writes c ++ [b] |}, Ret tt)
  else (c, Raise (LibraryError "InvalidState")).

Definition on_receive_data (d : byte_string) (c : Conn)
  : Conn * Outcome unit :=
  if State_eqb (cstate c) CLOSED then (c, Raise (LibraryError "EOFError"))
  else
    let decoded :=
      match d with
      | [] => []
      | _ =>
          if State_eqb (cstate c) CONNECTING
          then [EvRequest {| path := string_of_list_byte d; headers := [] |}]
          else [EvFrame {| opcode := OP_TEXT; data := d; fin := true |}]
      end in
    ({| cstate := cstate c; events := events c ++ decoded; writes := writes c |}, Ret tt).

Definition on_accept (r : Request) (c : Conn) : Conn * Outcome Response :=
  (c, Ret {| status_code := 101; reason_phrase := "Switching Protocols";
             response_headers := []; body := [] |}).

Definition on_send_response (r : Response) (c : Conn)
  : Conn * Outcome unit :=
  ({| cstate := if status_code r =? 101 then OPEN else cstate c;
      events := events c;
      writes := writes c ++ [encode_utf8 (reason_phrase r) ++ body r] |}, Ret tt).

Definition on_reject (status : Z) (text_ : string) (c : Conn)
  : Conn * Outcome Response :=
  (c, Ret {| status_code := status; reason_phrase := "Forbidden";
             response_headers := []; body := encode_utf8 text_ |}).

Definition byte_of_Z (z : Z) : Byte.byte :=
  match Byte.of_N (Z.to_N (z mod 256)) with
  | Some b => b
  | None => Byte.x00
  end.

Definition close_payload (code : PyVal) : byte_string :=
  match code with
  | PyInt z => [Byte.x88; byte_of_Z (z / 256); byte_of_Z z]
  | _ => [Byte.x88]
  end.

#[export] Instance codec : Codec := {|
  connection := Conn;
  new_connection := fun _ _ => {| cstate := CONNECTING; events := []; writes := [] |};
  state := cstate;
  receive_data := on_receive_data;
  events_received := fun c =>
    ({| cstate := cstate c; events := []; writes := writes c |}, events c);
  data_to_send := fun c =>
    ({| cstate := cstate c; events := events c; writes := [] |}, writes c);
  accept := on_accept;
  send_response := on_send_response;
  reject := on_reject;
  send_text := fun b c => guarded b (cstate c) c;
  send_binary := fun b c => guarded b (cstate c) c;
  send_close := fun code _ c => guarded (close_payload code) CLOSING c;
  conn_send := fun _ c => (c, Raise (AttributeError "send"))
|}.

#[export] Instance datastructures : Datastructures := {|
  Headers_items := fun raw => Ret raw;
  Headers_get_all := fun raw key =>
    map snd (List.filter (fun kv => String.eqb (lower (fst kv)) (lower key)) raw)
|}.

#[export] Instance urllib : Urllib := {| unquote := fun s => s |}.

Definition plain_transport (bad : list byte_string -> option PyExc) : Transport :=
  {| sockname := Some ("127.0.0.1", 8000); peername := Some ("127.0.0.1", 51000);
     ssl := false; closing := false; bad_write := bad; calls := [] |}.

(** A transport on its way down before the adapter asked for it. *)
Definition closing_transport : Transport :=
  {| sockname := Some ("127.0.0.1", 8000); peername := Some ("127.0.0.1", 51000);
     ssl := false; closing := true; bad_write := asyncio_bad_write; calls := [] |}.

Definition default_config : Config :=
  {| loaded := true; config_root_path := EmptyString; asgi_version := "3.0";
     ws_max_size := Some 16777216; ws_per_message_deflate := true |}.

Definition fresh : Proto := init default_config ∅ ∅ 0%nat 20.

(** A fresh protocol object, then [connection_made]. *)
Definition connected (tr : Transport) : Proto :=
  after (Call_connection_made tr) fresh.

(** The same after the upgrade request for [/ws] has come in. *)
Definition requested (tr : Transport) : Proto :=
  after (Call_data_received (list_byte_of_string "/ws")) (connected tr).

(** ... after the application has accepted ... *)
Definition accept_message : PyVal := PyDict [("type", PyStr "websocket.accept")].

Definition accepted (tr : Transport) : Proto :=
  after (Call_send accept_message) (requested tr).

(** ... and after it has closed. *)
Definition close_message : PyVal := PyDict [("type", PyStr "websocket.close")].

Definition closed (tr : Transport) : Proto :=
  after (Call_send close_message) (accepted tr).

Definition ping_frame : Frame := {| opcode := OP_PING; data := []; fin := true |}.

(** The open connection holding a ping it has just decoded and the pong
    it has made for it. *)
Definition pinged (tr : Transport) : Proto :=
  set_conn {| cstate := OPEN; events := [EvFrame ping_frame]; writes := [[Byte.x8a; Byte.x00]] |}
    (accepted tr).

(** A connection that has seen the end of its input. *)
Definition ended (tr : Transport) : Proto :=
  set_conn {| cstate := CLOSED; events := []; writes := [] |} (connected tr).

Definition asyncio_transport : Transport := plain_transport asyncio_bad_write.

Definition permissive_transport : Transport := plain_transport permissive_bad_write.

(** The transport a connected state holds. *)
Definition the_transport (s : Proto) : Transport :=
  match transport s with
  | Some tr => tr
  | None => closing_transport
  end.

Definition send_message (fields : list (string * PyVal)) : PyVal :=
  PyDict (("type", PyStr "websocket.send") :: fields).

Definition close_frame : Frame := {| opcode := OP_CLOSE; data := []; fin := true |}.

Definition close_ack : byte_string := [Byte.x88; Byte.x00].

(** The open connection holding its answer to a close frame. *)
Definition answering (tr : Transport) : Proto :=
  set_conn {| cstate := CLOSING; events := []; writes := [close_ack] |} (accepted tr).

Definition fragment (b : Byte.byte) (finished : bool) : BytesMessage :=
  {| bm_data := [b]; message_finished := finished |}.

(** More states and inputs for the examples. *)
Definition idle : Conn := {| cstate := OPEN; events := []; writes := [] |}.

Definition switching : byte_string := list_byte_of_string "Switching Protocols".

(** The open connection with everything received so far taken off the
    queue. *)
Definition drained (tr : Transport) : Proto := set_queue [] (accepted tr).

(** ... and after one whole binary message has come in. *)
Definition paused (tr : Transport) : Proto :=
  after (Call_handle_bytes (fragment Byte.x01 true)) (drained tr).

Definition text_frame (s : string) : Frame :=
  {| opcode := OP_TEXT; data := list_byte_of_string s; fin := true |}.

Definition binary_frame (b : byte_string) : Frame :=
  {| opcode := OP_BINARY; data := b; fin := true |}.

(** The open connection holding decoded events. *)
Definition holding (evs : list Event) (tr : Transport) : Proto :=
  set_conn {| cstate := OPEN; events := evs; writes := [] |} (accepted tr).

Definition chat_request : Request :=
  {| path := "/chat?room=1&q=a?b";
     headers := [("Host", "example"); ("Sec-WebSocket-Protocol", "chat, superchat")] |}.

(** A path with the byte 0xE9 in it. *)
Definition odd_request : Request :=
  {| path := String "/" (String (ascii_of_nat 233) EmptyString); headers := [] |}.

Definition switching_response : Response :=
  {| status_code := 101; reason_phrase := "Switching Protocols";
     response_headers := []; body := [] |}.

Definition ssl_transport : Transport :=
  {| sockname := Some ("10.0.0.1", 443); peername := Some ("10.0.0.2", 40000);
     ssl := true; closing := false; bad_write := asyncio_bad_write; calls := [] |}.

End Standin.

(** ** A connection that has a [send]

    The stand-in again, but with the [send] method that
    [handle_no_connect] and [handle_ping] call: a message goes out as its
    reason, its data, nothing, or a pong header and the payload. *)
Module Replying.

Definition render (m : OutMsg) : byte_string :=
  match m with
  | H11Response _ _ why => encode_utf8 why
  | H11Data payload => payload
  | H11EndOfMessage => []
  | Pong payload => Byte.x8a :: payload
  end.

#[export] Instance codec : Codec := {|
  connection := Standin.Conn;
  new_connection := fun _ _ =>
    {| Standin.cstate := CONNECTING; Standin.events := []; Standin.writes := [] |};
  state := Standin.cstate;
  receive_data := Standin.on_receive_data;
  events_received := fun c =>
    ({| Standin.cstate := Standin.cstate c; Standin.events := [];
        Standin.writes := Standin.writes c |}, Standin.events c);
  data_to_send := fun c =>
    ({| Standin.cstate := Standin.cstate c; Standin.events := Standin.events c;
        Standin.writes := [] |}, Standin.writes c);
  accept := Standin.on_accept;
  send_response := Standin.on_send_response;
  reject := Standin.on_reject;
  send_text := fun b c => Standin.guarded b (Standin.cstate c) c;
  send_binary := fun b c => Standin.guarded b (Standin.cstate c) c;
  send_close := fun code _ c =>
    Standin.guarded (Standin.close_payload code) CLOSING c;
  conn_send := fun m c => (c, Ret (render m))
|}.

(** A fresh protocol object on this connection, then [connection_made]. *)
Definition connected : Proto :=
  fst (connection_made Standin.asyncio_transport
         (init Standin.default_config ∅ ∅ 0%nat 20)).

End Replying.

(** * Properties *)

Section Properties.

Context {codec : Codec} {datastructures : Datastructures} {urllib : Urllib}.

(** ** Running the monad *)

Ltac run :=
  unfold mbind, M_bind, mret, M_ret, bind, ret, raise, gets, modify, lift;
  cbn.

(** A call to [send] runs [send_body] in the state it runs in. *)
Lemma wake_send message st0 st :
  runs_in st0 st -> wake (send message st0) st = Some (send_body message st).
Proof.
  unfold runs_in, send. intros H.
  destruct (writable st0); cbn; [now rewrite H|reflexivity].
Qed.

Lemma getitem_Mapping message key v :
  getitem message key = Ret v -> isinstance_Mapping message = true.
Proof. destruct message; cbn; congruence. Qed.

(** ** Rules for assertions *)

Lemma hoare_weaken {A : Type} (P P' Q Q' : Proto -> Prop) (m : M A) :
  (forall st, P' st -> P st) -> (forall st, Q st -> Q' st) ->
  hoare P m Q -> hoare P' m Q'.
Proof. unfold hoare. auto. Qed.

Lemma hoare_ret {A : Type} (P : Proto -> Prop) (a : A) : hoare P (ret a) P.
Proof. unfold hoare. auto. Qed.

Lemma hoare_raise {A : Type} (P : Proto -> Prop) e : hoare P (@raise _ A e) P.
Proof. unfold hoare. auto. Qed.

Lemma hoare_lift {A : Type} (P : Proto -> Prop) (o : Outcome A) :
  hoare P (lift o) P.
Proof. unfold hoare. auto. Qed.

Lemma hoare_gets {A : Type} (P : Proto -> Prop) (f : Proto -> A) :
  hoare P (gets f) P.
Proof. unfold hoare. auto. Qed.

Lemma hoare_transport_attr (P : Proto -> Prop) attr :
  hoare P (transport_attr attr) P.
Proof.
  unfold hoare, transport_attr. intros st. now destruct (transport st).
Qed.

Lemma hoare_modify (P Q : Proto -> Prop) (f : Proto -> Proto) :
  (forall st, P st -> Q (f st)) -> hoare P (modify f) Q.
Proof. unfold hoare. auto. Qed.

Lemma hoare_bind {A B : Type} (P R Q : Proto -> Prop) (m : M A) (k : A -> M B) :
  hoare P m R -> (forall st, R st -> Q st) -> (forall a, hoare R (k a) Q) ->
  hoare P (m ≫= k) Q.
Proof.
  unfold hoare, mbind, M_bind, bind. intros Hm HRQ Hk st HP.
  specialize (Hm st HP). destruct (m st) as [st' [a|e]]; cbn in *; auto.
Qed.

Lemma hoare_seq {A B : Type} (I : Proto -> Prop) (m : M A) (k : A -> M B) :
  hoare I m I -> (forall a, hoare I (k a) I) -> hoare I (m ≫= k) I.
Proof. intros. now apply hoare_bind with (R := I). Qed.

(** What was read from the state is known in the branch it chooses. *)
Lemma hoare_gets_bind {A B : Type} (P Q : Proto -> Prop) (f : Proto -> A)
    (k : A -> M B) :
  (forall a, hoare (fun st => P st /\ f st = a) (k a) Q) ->
  hoare P (gets f ≫= k) Q.
Proof.
  unfold hoare, mbind, M_bind, bind, gets. intros Hk st HP. cbn.
  now apply (Hk (f st)).
Qed.

Lemma hoare_for_each {A : Type} (I : Proto -> Prop) (l : list A)
    (body : A -> M unit) :
  (forall x, hoare I (body x) I) -> hoare I (for_each l body) I.
Proof.
  intros Hbody. induction l as [|x l IH]; cbn.
  - apply hoare_ret.
  - apply (hoare_seq I (body x)); auto.
Qed.

Lemma hoare_attempt {A : Type} (P Q : Proto -> Prop) (m : M A) :
  hoare P m Q -> hoare P (attempt m) Q.
Proof.
  unfold hoare, attempt. intros H st HP. specialize (H st HP).
  now destruct (m st).
Qed.

Section OnFlags.

Variable I : Proto -> Prop.
Hypothesis HI : on_flags I.

Lemma flags_modify (f : Proto -> Proto) :
  (forall st, handshake_complete (f st) = handshake_complete st) ->
  (forall st, close_sent (f st) = close_sent st) ->
  hoare I (modify f) I.
Proof. intros Hh Hc. apply hoare_modify. intros st. now apply HI. Qed.

Lemma flags_on_conn {A : Type} (op : connection -> connection * Outcome A) :
  hoare I (on_conn op) I.
Proof.
  unfold hoare, on_conn. intros st. destruct (op (conn st)). cbn.
  now apply HI.
Qed.

Lemma flags_on_conn_total {A : Type} (op : connection -> connection * A) :
  hoare I (on_conn_total op) I.
Proof.
  unfold hoare, on_conn_total. intros st. destruct (op (conn st)). cbn.
  now apply HI.
Qed.

Lemma flags_on_transport {A : Type} attr (op : Transport -> Transport * Outcome A) :
  hoare I (on_transport attr op) I.
Proof.
  unfold hoare, on_transport. intros st. destruct (transport st) as [tr|]; cbn; auto.
  destruct (op tr). cbn. now apply HI.
Qed.

Lemma flags_transport_is_closing : hoare I transport_is_closing I.
Proof.
  unfold hoare, transport_is_closing. intros st.
  now destruct (transport st).
Qed.

Lemma flags_read_scope : hoare I read_scope I.
Proof. unfold hoare, read_scope. intros st. now destruct (scope st). Qed.

Lemma flags_loop_create_task : hoare I loop_create_task I.
Proof. unfold hoare, loop_create_task. intros st. cbn. now apply HI. Qed.

Lemma flags_connections_remove_self : hoare I connections_remove_self I.
Proof.
  unfold hoare, connections_remove_self. intros st.
  destruct (decide _); cbn; auto. now apply HI.
Qed.

End OnFlags.

(** One rule at a time, down the text of a method. *)
Ltac flags_step :=
  lazymatch goal with
  | |- forall _, _ => intro
  | |- hoare _ (match ?x with _ => _ end) _ => destruct x
  | |- hoare _ (let _ := _ in _) _ => cbv zeta
  | |- hoare _ ((fun _ => _) _) _ => cbv beta
  | |- hoare _ (mbind _ _) _ => apply hoare_seq
  | |- hoare _ (ret _) _ => apply hoare_ret
  | |- hoare _ (raise _) _ => apply hoare_raise
  | |- hoare _ (lift _) _ => apply hoare_lift
  | |- hoare _ (gets _) _ => apply hoare_gets
  | |- hoare _ (for_each _ _) _ => apply hoare_for_each
  | |- hoare _ (attempt _) _ => apply hoare_attempt
  | |- hoare _ (transport_attr _) _ => apply hoare_transport_attr
  | |- hoare _ (on_conn _) _ => apply flags_on_conn; assumption
  | |- hoare _ (on_conn_total _) _ => apply flags_on_conn_total; assumption
  | |- hoare _ (on_transport _ _) _ => apply flags_on_transport; assumption
  | |- hoare _ transport_is_closing _ =>
      apply flags_transport_is_closing; assumption
  | |- hoare _ read_scope _ => apply flags_read_scope; assumption
  | |- hoare _ loop_create_task _ => apply flags_loop_create_task; assumption
  | |- hoare _ connections_remove_self _ =>
      apply flags_connections_remove_self; assumption
  | |- hoare _ (modify _) _ => apply flags_modify; [assumption|reflexivity..]
  end.

Ltac flags := repeat flags_step.

Section Frames.

Variable I : Proto -> Prop.
Hypothesis HI : on_flags I.


Lemma flags_flush_each : hoare I flush_each I.
Proof. unfold flush_each, transport_write. flags. Qed.

Lemma flags_log_trace msg : hoare I (log_trace msg) I.
Proof. unfold log_trace, logger_log. flags. Qed.

Lemma flags_handle_connect event : hoare I (handle_connect event) I.
Proof.
  unfold handle_connect, queue_put_nowait, add_done_callback. flags.
Qed.

Lemma flags_handle_text event : hoare I (handle_text event) I.
Proof.
  unfold handle_text, queue_put_nowait. flags. apply flags_flush_each.
Qed.

Lemma flags_handle_close event : hoare I (handle_close event) I.
Proof.
  unfold handle_close, queue_put_nowait, transport_close. flags.
  apply flags_flush_each.
Qed.

Lemma flags_handle_events : hoare I handle_events I.
Proof.
  unfold handle_events, handle_event. flags.
  - apply flags_handle_connect.
  - apply flags_handle_text.
  - apply flags_handle_close.
Qed.

Lemma flags_receive : hoare I (method Call_receive) I.
Proof.
  unfold hoare. intros st Hst. cbn. unfold receive_poll.
  destruct (queue st) as [|message rest]; [assumption|].
  assert (H : hoare I (receive_body message rest) I).
  { unfold receive_body, transport_resume_reading. flags. }
  specialize (H st Hst). now destruct (receive_body message rest st) as [? [?|?]].
Qed.

(** Every method but [send] leaves the two flags alone. *)
Lemma flags_method (c : Call) :
  (forall message, c <> Call_send message) -> hoare I (method c) I.
Proof.
  intros Hc. destruct c; try apply flags_receive; cbn [method].
  - unfold connection_made. flags. apply flags_log_trace.
  - unfold connection_lost, queue_put_nowait, transport_close. flags;
      apply flags_log_trace.
  - unfold eof_received. flags.
  - unfold data_received. flags. apply flags_handle_events.
  - unfold async_data_received, transport_write. flags; apply flags_handle_events.
  - apply flags_handle_events.
  - unfold pause_writing. flags.
  - unfold resume_writing. flags.
  - unfold shutdown, queue_put_nowait, transport_write, transport_close. flags.
  - unfold on_task_complete. flags.
  - apply flags_handle_connect.
  - unfold handle_no_connect, transport_write, transport_close. flags.
  - apply flags_handle_text.
  - unfold handle_bytes, queue_put_nowait, transport_pause_reading. flags.
  - apply flags_handle_close.
  - unfold handle_ping, transport_write. flags.
  - unfold send_500_response, print. flags.
  - unfold run_asgi, logger_log, send_500_response, print, transport_close. flags.
  - now contradiction (Hc message).
Qed.

End Frames.

(** ** The order of the two flags *)

Lemma on_flags_order : on_flags close_sent_after_handshake.
Proof.
  unfold on_flags, close_sent_after_handshake. intros st st' Hh Hc.
  rewrite Hh, Hc. auto.
Qed.

Lemma on_flags_complete : on_flags (fun st => handshake_complete st = true).
Proof. unfold on_flags. intros st st' Hh _. now rewrite Hh. Qed.

(** [send] marks close sent after, or together with, the handshake. *)
Lemma send_body_order message :
  hoare close_sent_after_handshake (send_body message) close_sent_after_handshake.
Proof.
  set (I := close_sent_after_handshake).
  set (H := fun st : Proto => handshake_complete st = true).
  assert (HI : on_flags I) by apply on_flags_order.
  assert (HH : on_flags H) by apply on_flags_complete.
  assert (HHI : forall st, H st -> I st) by (unfold H, I, close_sent_after_handshake; auto).
  assert (Hset : forall (J : Proto -> Prop), hoare J (modify (set_handshake_complete true)) H)
    by (intros J; apply hoare_modify; reflexivity).
  assert (Hflush : hoare H flush_each H) by now apply flags_flush_each.
  unfold send_body, queue_put_nowait, logger_log, transport_write, transport_close.
  apply hoare_seq; [apply hoare_lift|intros message_type].
  apply hoare_gets_bind. intros [|]; cbn [negb].
  - (* handshake complete: it stays so *)
    apply hoare_weaken with (P := H) (Q := H); [now intros st [_ ?]|exact HHI|].
    flags; try exact Hflush; apply hoare_modify; auto.
  - apply hoare_weaken with (P := I) (Q := I); [now intros st [? _]|auto|].
    destruct (eq_str message_type "websocket.accept").
    + do 2 (apply hoare_seq; [flags|intros ?]).
      apply hoare_bind with (R := H); [apply Hset|exact HHI|intros _].
      apply hoare_weaken with (P := H) (Q := H); auto.
    + destruct (eq_str message_type "websocket.close"); [|apply hoare_raise].
      do 3 (apply hoare_seq; [flags|intros ?]).
      apply hoare_bind with (R := H); [apply Hset|exact HHI|intros _].
      apply hoare_weaken with (P := H) (Q := H); auto.
      flags. apply hoare_modify; auto.
Qed.

Lemma method_order (c : Call) :
  hoare close_sent_after_handshake (method c) close_sent_after_handshake.
Proof.
  destruct c; try (apply flags_method; [apply on_flags_order|congruence]).
  apply send_body_order.
Qed.

Lemma reachable_order st : reachable st -> close_sent_after_handshake st.
Proof.
  induction 1 as [cfg cs ts id lvl|c st _ IH].
  - unfold close_sent_after_handshake. cbn. discriminate.
  - now apply method_order.
Qed.

(** ** C1: what [send] refuses *)

(** C1. A call to [send] whose message has a type: while the handshake is
    not complete, a type other than ['websocket.accept'] and
    ['websocket.close'] makes it raise the RuntimeError that expects one of
    the two; once close has been sent, every type makes it raise the
    after-close RuntimeError.  In both cases the state is left exactly as
    it was: nothing is put on the queue and nothing is written. *)
Theorem send_refuses_out_of_state (st0 st : Proto) (message ty : PyVal) :
  reachable st ->
  runs_in st0 st ->
  getitem message "type" = Ret ty ->
  (handshake_complete st = false ->
   eq_str ty "websocket.accept" = false ->
   eq_str ty "websocket.close" = false ->
   wake (send message st0) st
   = Some (st, Raise (RuntimeError
       "Expected ASGI message 'websocket.accept' or 'websocket.close', but got '%s'."
       ty)))
  ∧
  (close_sent st = true ->
   wake (send message st0) st
   = Some (st, Raise (RuntimeError
       "Unexpected ASGI message '%s', after sending 'websocket.close'." ty))).
Proof.
  intros Hreach Hrun Hty. rewrite (wake_send _ _ _ Hrun).
  split.
  - intros Hhc Ha Hc. f_equal. unfold send_body. run.
    rewrite Hty. cbn. rewrite Hhc. cbn. now rewrite Ha, Hc.
  - intros Hcs. f_equal.
    pose proof (reachable_order st Hreach Hcs) as Hhc.
    unfold send_body. run. rewrite Hty. cbn. rewrite Hhc. cbn. now rewrite Hcs.
Qed.

(** ** C6 and C8: the payload of a [websocket.send] *)

(** C6. In the open state (handshake complete, close not sent) a
    ['websocket.send'] message whose ["text"] and ["bytes"] are both unset
    (absent or [None]) makes the call fail with a TypeError; the state is
    left as it was, so nothing is written to the transport. *)
Theorem send_without_payload_raises_TypeError (st0 st : Proto) (message : PyVal) :
  runs_in st0 st ->
  handshake_complete st = true ->
  close_sent st = false ->
  getitem message "type" = Ret (PyStr "websocket.send") ->
  get_default message "bytes" PyNone = Ret PyNone ->
  get_default message "text" PyNone = Ret PyNone ->
  wake (send message st0) st
  = Some (st, Raise (TypeError "data is a dict-like object")).
Proof.
  intros Hrun Hhc Hcs Hty Hb Ht.
  rewrite (wake_send _ _ _ Hrun). f_equal.
  unfold send_body. run. rewrite Hty. cbn. rewrite Hhc. cbn. rewrite Hcs. cbn.
  rewrite Hb. cbn. rewrite Ht. cbn.
  now rewrite (getitem_Mapping _ _ _ Hty).
Qed.

(** C8. The shape checks of ['websocket.send'] look at the message, not at
    the payload.  A message that is not a mapping never gets to them: it
    fails at [message["type"]].  For a message that gets there in the open
    state with a payload that is neither [str] nor bytes-like ([None], a
    dict, a list, ...), the dict-like TypeError is the branch taken; the
    NotImplementedError for fragmented messages and the last TypeError are
    never reached. *)
Theorem send_shape_checks_stop_at_mapping (st0 st : Proto) (message : PyVal) :
  runs_in st0 st ->
  (isinstance_Mapping message = false ->
   exists e, getitem message "type" = Raise (TypeError e) ∧
             wake (send message st0) st = Some (st, Raise (TypeError e)))
  ∧
  (forall bytes_data text_data,
     handshake_complete st = true ->
     close_sent st = false ->
     getitem message "type" = Ret (PyStr "websocket.send") ->
     get_default message "bytes" PyNone = Ret bytes_data ->
     get_default message "text" PyNone = Ret text_data ->
     let payload := if is_None bytes_data then text_data else bytes_data in
     isinstance_str payload = false ->
     isinstance_bytes_like payload = false ->
     wake (send message st0) st
     = Some (st, Raise (TypeError "data is a dict-like object"))).
Proof.
  intros Hrun. rewrite (wake_send _ _ _ Hrun). split.
  - intros Hm. unfold send_body. run.
    destruct message; try discriminate; cbn; eauto.
  - intros bytes_data text_data Hhc Hcs Hty Hb Ht payload Hs Hbl. f_equal.
    unfold send_body. run. rewrite Hty. cbn. rewrite Hhc. cbn. rewrite Hcs. cbn.
    rewrite Hb. cbn. rewrite Ht. cbn. fold payload. rewrite Hs, Hbl.
    now rewrite (getitem_Mapping _ _ _ Hty).
Qed.

(** ** Writing what the connection has to send *)

Lemma set_transport_same st tr :
  transport st = Some tr -> set_transport (Some tr) st = st.
Proof. destruct st; cbn; intros ->; reflexivity. Qed.

Lemma calls_record_calls cs tr : calls (record_calls cs tr) = calls tr ++ cs.
Proof.
  revert tr. induction cs as [|c cs IH]; intros tr; cbn.
  - now rewrite app_nil_r.
  - unfold record_calls in IH. rewrite IH. cbn. now rewrite <- app_assoc.
Qed.

Lemma write_each chunks : forall st tr,
  transport st = Some tr ->
  for_each chunks (fun chunk => transport_write (WBytes chunk)) st
  = (set_transport (Some (record_calls (write_calls chunks) tr)) st, Ret tt).
Proof.
  induction chunks as [|chunk chunks IH]; intros st tr Htr; cbn.
  - unfold ret. now rewrite set_transport_same.
  - unfold bind, transport_write, on_transport at 1. rewrite Htr. cbn.
    now rewrite (IH _ (record_call (TWrite (WBytes chunk)) tr)).
Qed.

Lemma flush_each_spec st tr c chunks :
  transport st = Some tr ->
  data_to_send (conn st) = (c, chunks) ->
  flush_each st
  = (set_transport (Some (record_calls (write_calls chunks) tr)) (set_conn c st),
     Ret tt).
Proof.
  intros Htr Hd. unfold flush_each, on_conn_total. run. rewrite Hd.
  now rewrite (write_each chunks _ tr).
Qed.

(** ** C10: a close frame *)

(** C10. Whatever the state of the connection, [handle_close] writes every
    chunk the connection has pending to the transport (its guard,
    [self.conn.state.CLOSING], is true in every state), puts a
    ['websocket.disconnect'] event with code 1005 on the queue, and closes
    the transport, the writes coming before the close. *)
Theorem handle_close_flushes_disconnects_closes
    (st : Proto) (tr : Transport) (event : Frame) c chunks :
  transport st = Some tr ->
  data_to_send (conn st) = (c, chunks) ->
  (forall s, State_truthy (State_attr_CLOSING s) = true) ∧
  exists st' tr',
    handle_close event st = (st', Ret tt) ∧
    conn st' = c ∧
    transport st' = Some tr' ∧
    calls tr' = calls tr ++ write_calls chunks ++ [TClose] ∧
    closing tr' = true ∧
    queue st' = queue st ++ [websocket_disconnect [("code", PyInt 1005)]].
Proof.
  intros Htr Hd. split; [reflexivity|].
  unfold handle_close. run.
  rewrite (flush_each_spec st tr c chunks Htr Hd). cbn.
  unfold transport_close, on_transport. cbn.
  eexists _, _. do 3 (split; [reflexivity|]). cbn.
  rewrite calls_record_calls. now rewrite <- app_assoc.
Qed.

(** ** C9: sending on a transport that is closing *)

Lemma get_default_dict d key default :
  exists v, get_default (PyDict d) key default = Ret v.
Proof. cbn. destruct (assoc key d); eauto. Qed.

(** Whatever the payload and whatever the connection does with it, a
    ['websocket.send'] on a closing transport leaves transport and queue
    as they were. *)
Lemma send_data_on_closing_transport (st : Proto) (tr : Transport) (message : PyVal) :
  handshake_complete st = true ->
  close_sent st = false ->
  transport st = Some tr ->
  is_closing tr = true ->
  getitem message "type" = Ret (PyStr "websocket.send") ->
  transport (fst (send_body message st)) = Some tr ∧
  queue (fst (send_body message st)) = queue st.
Proof.
  intros Hhc Hcs Htr Hclosing Hty.
  destruct message as [| | | | | | | |d]; try discriminate.
  destruct (get_default_dict d "bytes" PyNone) as [bytes_data Hb].
  destruct (get_default_dict d "text" PyNone) as [text_data Ht].
  unfold send_body, mbind, M_bind, bind, gets, lift, raise, ret, on_conn,
    transport_is_closing.
  rewrite Hty. cbn -[get_default]. rewrite Hhc. cbn -[get_default].
  rewrite Hcs. cbn -[get_default]. rewrite Hb, Ht.
  set (payload := if is_None bytes_data then text_data else bytes_data).
  destruct (isinstance_str payload).
  - destruct (send_text _ _) as [c [[]|e]]; cbn; rewrite ?Htr, ?Hclosing; auto.
  - destruct (isinstance_bytes_like payload).
    + destruct (send_binary _ _) as [c [[]|e]]; cbn; rewrite ?Htr, ?Hclosing; auto.
    + cbn. auto.
Qed.


(** C9, as the code has it.  In the open state, on a transport that
    reports it is closing, a ['websocket.send'] never changes the
    transport or the queue.  Its payload is handed to the connection
    ([send_text] for a [str], [send_binary] for bytes) and the call ends
    as the connection's method does: normally when the connection takes
    the payload, by the connection's exception when it refuses it; either
    way only the connection has changed.  The frame is not dropped: what
    the connection holds for [data_to_send()] stays there, and the next
    flush, which does not ask whether the transport is closing, hands it
    to [transport.write].  A ['websocket.close'] marks close sent, puts
    the ['websocket.disconnect'] event with its code on the queue and
    asks the connection for the close frame, and neither writes to the
    transport nor closes it. *)
Theorem send_on_closing_transport (st0 st : Proto) (tr : Transport) (message : PyVal) :
  runs_in st0 st ->
  handshake_complete st = true ->
  close_sent st = false ->
  transport st = Some tr ->
  is_closing tr = true ->
  (getitem message "type" = Ret (PyStr "websocket.send") ->
   exists r,
     wake (send message st0) st = Some r ∧
     transport (fst r) = Some tr ∧
     queue (fst r) = queue st)
  ∧
  (forall bytes_data text_data c o,
     getitem message "type" = Ret (PyStr "websocket.send") ->
     get_default message "bytes" PyNone = Ret bytes_data ->
     get_default message "text" PyNone = Ret text_data ->
     let payload := if is_None bytes_data then text_data else bytes_data in
     (isinstance_str payload = true ->
      send_text (encode_utf8 (str_of payload)) (conn st) = (c, o) ->
      wake (send message st0) st = Some (set_conn c st, o))
     ∧
     (isinstance_str payload = false ->
      isinstance_bytes_like payload = true ->
      send_binary (buffer_of payload) (conn st) = (c, o) ->
      wake (send message st0) st = Some (set_conn c st, o)))
  ∧
  (forall c c' chunks,
     data_to_send c = (c', chunks) ->
     exists st' tr',
       flush_each (set_conn c st) = (st', Ret tt) ∧
       conn st' = c' ∧
       transport st' = Some tr' ∧
       calls tr' = calls tr ++ write_calls chunks)
  ∧
  (forall code given c o,
     getitem message "type" = Ret (PyStr "websocket.close") ->
     get_default message "code" (PyInt 1000) = Ret code ->
     get_default message "reason" (PyStr EmptyString) = Ret given ->
     send_close code (if truthy given then given else PyStr EmptyString) (conn st)
     = (c, o) ->
     wake (send message st0) st
     = Some (set_conn c
               (set_queue (queue st ++ [websocket_disconnect [("code", code)]])
                  (set_close_sent true st)),
             o)).
Proof.
  intros Hrun Hhc Hcs Htr Hclosing. rewrite (wake_send _ _ _ Hrun).
  split; [|split; [|split]].
  - intros Hty. eexists. split; [reflexivity|].
    now apply send_data_on_closing_transport.
  - intros bytes_data text_data c o Hty Hb Ht payload. split.
    + intros Hs Hsend. f_equal.
      unfold send_body. run. rewrite Hty. cbn. rewrite Hhc. cbn. rewrite Hcs. cbn.
      rewrite Hb. cbn. rewrite Ht. cbn. fold payload. rewrite Hs.
      unfold on_conn. rewrite Hsend. cbn.
      destruct o as [[]|e]; [|reflexivity].
      unfold transport_is_closing. cbn. rewrite Htr, Hclosing. reflexivity.
    + intros Hs Hbl Hsend. f_equal.
      unfold send_body. run. rewrite Hty. cbn. rewrite Hhc. cbn. rewrite Hcs. cbn.
      rewrite Hb. cbn. rewrite Ht. cbn. fold payload. rewrite Hs, Hbl.
      unfold on_conn. rewrite Hsend. cbn.
      destruct o as [[]|e]; [|reflexivity].
      unfold transport_is_closing. cbn. rewrite Htr, Hclosing. reflexivity.
  - intros c c' chunks Hd.
    rewrite (flush_each_spec (set_conn c st) tr c' chunks);
      [|now destruct st|now destruct st].
    eexists _, _. do 3 (split; [reflexivity|]).
    apply calls_record_calls.
  - intros code given c o Hty Hcode Hgiven Hsend. f_equal.
    unfold send_body. run. rewrite Hty. cbn. rewrite Hhc. cbn. rewrite Hcs. cbn.
    rewrite Hcode. cbn. rewrite Hgiven. cbn.
    unfold on_conn. cbn. rewrite Hsend.
    destruct o as [[]|e]; [|reflexivity].
    unfold transport_is_closing. cbn. rewrite Htr, Hclosing. reflexivity.
Qed.

(** ** C2: [shutdown], called again *)

(** The event goes on the queue first, whatever happens next. *)
Lemma shutdown_queue st : queue (fst (shutdown st)) = queue st ++ [disconnect_1012].
Proof.
  unfold shutdown, queue_put_nowait, on_conn, on_conn_total, transport_attr,
    transport_write, transport_close, on_transport. run.
  destruct (send_close _ _ _) as [c1 [[]|e]]; [|reflexivity].
  cbn. destruct (transport st) as [tr|] eqn:Htr; [|reflexivity]. cbn.
  destruct (data_to_send c1) as [c2 chunks]. cbn. rewrite Htr.
  destruct (bad_write tr chunks); reflexivity.
Qed.

Lemma close_count_tr_close tr : close_count (tr_close tr) = S (close_count tr).
Proof.
  unfold close_count, tr_close. cbn. rewrite List.filter_app, length_app. cbn. lia.
Qed.

Lemma close_count_record_call_write w tr :
  close_count (record_call (TWrite w) tr) = close_count tr.
Proof.
  unfold close_count, record_call. cbn. rewrite List.filter_app, length_app. cbn. lia.
Qed.

(** A [shutdown] the connection refuses stops there. *)
Lemma shutdown_refused st c e :
  send_close (PyInt 1012) (PyStr EmptyString) (conn st) = (c, Raise e) ->
  shutdown st
  = (set_conn c (set_queue (queue st ++ [disconnect_1012]) st), Raise e).
Proof.
  intros Hclose. unfold shutdown, queue_put_nowait, on_conn. run.
  now rewrite Hclose.
Qed.

(** One call asks the transport to close at most once. *)
Lemma shutdown_closes_at_most_once st :
  (closes (fst (shutdown st)) <= S (closes st))%nat.
Proof.
  unfold closes, shutdown, queue_put_nowait, on_conn, on_conn_total,
    transport_attr, transport_write, transport_close, on_transport. run.
  destruct (send_close _ _ _) as [c1 [[]|e]]; cbn; [|destruct (transport st); lia].
  destruct (transport st) as [tr|] eqn:Htr; cbn; [|rewrite Htr; lia].
  destruct (data_to_send c1) as [c2 chunks]. cbn. rewrite Htr.
  destruct (bad_write tr chunks); cbn -[close_count tr_close record_call]; [lia|].
  rewrite close_count_tr_close, close_count_record_call_write. lia.
Qed.

(** After a [shutdown] whose close frame the connection took, the
    connection is no longer open. *)
Lemma shutdown_leaves_open_state st c1 :
  sends_one_close ->
  send_close (PyInt 1012) (PyStr EmptyString) (conn st) = (c1, Ret tt) ->
  state (conn (fst (shutdown st))) <> OPEN.
Proof.
  intros (Hmoves & Hkeeps & _) Hclose. specialize (Hmoves _ _ _ _ Hclose).
  unfold shutdown, queue_put_nowait, on_conn, on_conn_total, transport_attr,
    transport_write, transport_close, on_transport. run.
  rewrite Hclose. cbn.
  destruct (transport st) as [tr|] eqn:Htr; cbn; [|assumption].
  specialize (Hkeeps c1). destruct (data_to_send c1) as [c2 chunks]. cbn in *.
  rewrite <- Hkeeps in Hmoves. rewrite Htr.
  destruct (bad_write tr chunks); cbn; assumption.
Qed.

(** C2, as the code has it.  [shutdown] has no guard: every call starts
    by putting one more ['websocket.disconnect'] event with code 1012 on
    the queue, whatever the state and whatever happens next, so two calls
    leave two.  The transport is not closed twice, on a connection that
    sends one close frame: one call closes it at most once, and when the
    connection took the close frame of the first call it refuses that of
    the second, which raises before it reaches the transport and leaves
    it as the first call left it. *)
Theorem shutdown_twice_queues_twice_closes_once (st : Proto) :
  let once := fst (shutdown st) in
  let twice := fst (shutdown once) in
  queue once = queue st ++ [disconnect_1012] ∧
  queue twice = queue st ++ [disconnect_1012; disconnect_1012] ∧
  (closes once <= S (closes st))%nat ∧
  (sends_one_close ->
   (closes twice <= S (closes st))%nat ∧
   (forall c1,
      send_close (PyInt 1012) (PyStr EmptyString) (conn st) = (c1, Ret tt) ->
      transport twice = transport once ∧
      exists e, snd (shutdown once) = Raise e)).
Proof.
  cbv zeta. split; [apply shutdown_queue|].
  split; [rewrite !shutdown_queue; now rewrite <- app_assoc|].
  split; [apply shutdown_closes_at_most_once|].
  intros Hone.
  assert (Hsecond : forall c1,
    send_close (PyInt 1012) (PyStr EmptyString) (conn st) = (c1, Ret tt) ->
    transport (fst (shutdown (fst (shutdown st)))) = transport (fst (shutdown st)) ∧
    exists e, snd (shutdown (fst (shutdown st))) = Raise e).
  { intros c1 Hclose.
    pose proof (shutdown_leaves_open_state st c1 Hone Hclose) as Hstate.
    destruct Hone as (_ & _ & Hrefuses).
    destruct (Hrefuses (PyInt 1012) (PyStr EmptyString) _ Hstate) as (c' & e & Hc').
    rewrite (shutdown_refused _ _ _ Hc'). cbn. eauto. }
  split; [|exact Hsecond].
  destruct (send_close (PyInt 1012) (PyStr EmptyString) (conn st))
    as [c1 [[]|e]] eqn:Hclose.
  - destruct (Hsecond c1 eq_refl) as [Htr _].
    unfold closes at 1. rewrite Htr. apply shutdown_closes_at_most_once.
  - etransitivity; [apply shutdown_closes_at_most_once|].
    rewrite (shutdown_refused _ _ _ Hclose). unfold closes. cbn. lia.
Qed.

(** ** [handle_bytes]: binary fragments *)

Lemma handle_bytes_partial event st :
  message_finished event = false ->
  handle_bytes event st = (set_bytes (bytes st ++ bm_data event) st, Ret tt).
Proof. intros H. unfold handle_bytes. run. now rewrite H. Qed.

Lemma handle_bytes_partials events : forall st,
  Forall (fun e => message_finished e = false) events ->
  exists st',
    for_each events handle_bytes st = (st', Ret tt) ∧
    bytes st' = bytes st ++ payloads events ∧
    queue st' = queue st ∧
    transport st' = transport st ∧
    read_paused st' = read_paused st.
Proof.
  induction events as [|e events IH]; intros st Hall.
  - exists st. cbn. unfold payloads. cbn. now rewrite app_nil_r.
  - inversion Hall as [|? ? He Hrest]; subst.
    destruct (IH (set_bytes (bytes st ++ bm_data e) st) Hrest)
      as (st' & Hrun & Hb & Hq & Ht & Hp).
    exists st'. cbn. unfold bind. rewrite (handle_bytes_partial e st He), Hrun.
    split; [reflexivity|]. rewrite Hb, Hq, Ht, Hp. cbn.
    unfold payloads. cbn. now rewrite <- app_assoc.
Qed.

Lemma for_each_app {A : Type} (l1 l2 : list A) (body : A -> M unit) st st' :
  for_each l1 body st = (st', Ret tt) ->
  for_each (l1 ++ l2) body st = for_each l2 body st'.
Proof.
  revert st. induction l1 as [|x l1 IH]; intros st; cbn.
  - unfold ret. now intros [= ->].
  - unfold bind. destruct (body x st) as [st1 [[]|e]]; [apply IH|discriminate].
Qed.

(** X28. [handle_bytes], which nothing calls, adds each fragment to the
    buffer; while the message is unfinished nothing is put on the queue and
    the transport is not touched, so reading is not paused on account of
    the buffered part.  The fragment that finishes the message puts a
    single ['websocket.receive'] event with all the bytes on the queue,
    empties the buffer, and only then asks the transport to pause reading
    unless reading is paused already. *)
Theorem handle_bytes_reassembles
    (st : Proto) (tr : Transport) (fragments : list BytesMessage)
    (final : BytesMessage) :
  transport st = Some tr ->
  Forall (fun e => message_finished e = false) fragments ->
  message_finished final = true ->
  (exists st1,
     for_each fragments handle_bytes st = (st1, Ret tt) ∧
     bytes st1 = bytes st ++ payloads fragments ∧
     queue st1 = queue st ∧
     transport st1 = Some tr ∧
     read_paused st1 = read_paused st)
  ∧
  (exists st2 tr2,
     for_each (fragments ++ [final]) handle_bytes st = (st2, Ret tt) ∧
     queue st2
     = queue st ++ [receive_bytes (bytes st ++ payloads fragments ++ bm_data final)] ∧
     bytes st2 = [] ∧
     read_paused st2 = true ∧
     transport st2 = Some tr2 ∧
     calls tr2 = calls tr ++ (if read_paused st then [] else [TPauseReading])).
Proof.
  intros Htr Hall Hfin.
  destruct (handle_bytes_partials fragments st Hall) as (st1 & Hrun & Hb & Hq & Ht & Hp).
  split.
  - exists st1. now rewrite Ht in *.
  - rewrite (for_each_app _ _ _ _ _ Hrun). cbn.
    unfold bind, handle_bytes, queue_put_nowait, transport_pause_reading,
      on_transport. run. rewrite Hfin. cbn. rewrite Hp, Hb, Hq.
    destruct (read_paused st); cbn.
    + eexists _, tr. split; [reflexivity|]. cbn.
      rewrite Ht, Htr, <- app_assoc, app_nil_r. auto.
    + rewrite Ht, Htr. cbn. eexists _, _. split; [reflexivity|]. cbn.
      rewrite <- app_assoc. repeat split; reflexivity.
Qed.

(** ** C3: a binary message among the events *)

(** Frames without a branch in the loop are passed over. *)
Lemma for_each_unrouted (frames : list Frame) (st : Proto) :
  Forall (fun f => routed f = false) frames ->
  for_each (map EvFrame frames) handle_event st = (st, Ret tt).
Proof.
  induction 1 as [|f frames Hf _ IH]; cbn; [reflexivity|].
  unfold routed in Hf. apply orb_false_iff in Hf as [Ht Hc].
  unfold bind. now rewrite Ht, Hc.
Qed.

Lemma carries_binary_unrouted (f : Frame) :
  carries_binary f = true -> routed f = false.
Proof. unfold carries_binary, routed. now destruct (opcode f). Qed.

(** C3, at a binary message.  When the connection hands over the frames
    of a binary message, whole or in fragments, the loop of
    [handle_events] has no branch for them: [handle_bytes] is not run, so
    nothing is added to the buffer, no ['websocket.receive'] event is put
    on the queue, not even for the frame that ends the message, and the
    transport is not asked to pause reading.  Only the connection
    changes: its events were taken.  So it is from [data_received], for
    input the connection decodes to such frames. *)
Theorem handle_events_drops_binary
    (st : Proto) (c : connection) (frames : list Frame) :
  Forall (fun f => carries_binary f = true) frames ->
  (events_received (conn st) = (c, map EvFrame frames) ->
   handle_events st = (set_conn c st, Ret tt))
  ∧
  (forall data_ c0,
     receive_data data_ (conn st) = (c0, Ret tt) ->
     events_received c0 = (c, map EvFrame frames) ->
     exists st',
       data_received data_ st = (st', Ret tt) ∧
       conn st' = c ∧
       bytes st' = bytes st ∧
       queue st' = queue st ∧
       read_paused st' = read_paused st ∧
       transport st' = transport st).
Proof.
  intros Hall.
  assert (Hun : Forall (fun f => routed f = false) frames).
  { eapply Forall_impl; [exact Hall|]. apply carries_binary_unrouted. }
  split.
  - intros Hev. unfold handle_events, on_conn_total. run. rewrite Hev.
    now apply for_each_unrouted.
  - intros data_ c0 Hrecv Hev.
    unfold data_received, handle_events, on_conn, on_conn_total. run.
    rewrite Hrecv. cbn. rewrite Hev.
    rewrite (for_each_unrouted frames _ Hun).
    eexists. split; [reflexivity|]. cbn. auto.
Qed.

(** ** C4: a ping among the events *)

(** C4, at a ping.  When the connection hands [handle_events] a ping
    frame, the loop has no branch for it: only the connection changes (its
    events were taken); [handle_ping] is not run, the connection is not
    asked for its pending data and nothing is written to the transport.
    The queue is untouched. *)
Theorem handle_events_skips_ping (st : Proto) (c : connection) (f : Frame) :
  events_received (conn st) = (c, [EvFrame f]) ->
  opcode f = OP_PING ->
  handle_events st = (set_conn c st, Ret tt).
Proof.
  intros Hev Hop. unfold handle_events, on_conn_total. run.
  rewrite Hev. cbn. unfold bind. cbn. now rewrite Hop.
Qed.

(** ** C5: a request that is not a valid upgrade *)

(** C5, at the three things a connection can do with such a request.  If
    [receive_data] raises, the exception leaves [data_received] and
    nothing else happens; if it yields no event, nothing happens; if it
    yields the request as an event, [handle_connect] runs as for any
    request, whatever response [accept] builds: the ['websocket.connect']
    event is queued and the application task is created, and the transport
    is neither written to nor closed.  In no case is [handle_no_connect]
    run. *)
Theorem data_received_never_answers_400
    (st : Proto) (data_ : byte_string) (c0 : connection) :
  (forall e,
     receive_data data_ (conn st) = (c0, Raise e) ->
     data_received data_ st = (set_conn c0 st, Raise e))
  ∧
  (forall c1,
     receive_data data_ (conn st) = (c0, Ret tt) ->
     events_received c0 = (c1, []) ->
     data_received data_ st = (set_conn c1 st, Ret tt))
  ∧
  (forall c1 c2 c3 r items raw_path sep query_string raw qs response,
     receive_data data_ (conn st) = (c0, Ret tt) ->
     events_received c0 = (c1, [EvRequest r]) ->
     Headers_items (headers r) = Ret items ->
     partition "?" (path r) = (raw_path, sep, query_string) ->
     encode_ascii raw_path = Ret raw ->
     encode_ascii query_string = Ret qs ->
     accept r c1 = (c2, Ret response) ->
     send_response response c2 = (c3, Ret tt) ->
     exists st',
       data_received data_ st = (st', Ret tt) ∧
       transport st' = transport st ∧
       queue st' = queue st ++ [websocket_connect] ∧
       created st' = created st ++ [length (created st)] ∧
       tasks st' = {[length (created st)]} ∪ tasks st).
Proof.
  split; [|split].
  - intros e Hrecv. unfold data_received, on_conn. run. now rewrite Hrecv.
  - intros c1 Hrecv Hev. unfold data_received, handle_events, on_conn, on_conn_total.
    run. rewrite Hrecv. cbn. now rewrite Hev.
  - intros c1 c2 c3 r items raw_path sep query_string raw qs response
      Hrecv Hev Hitems Hpart Hraw Hqs Hacc Hresp.
    unfold data_received, handle_events, on_conn, on_conn_total.
    run. rewrite Hrecv. cbn. rewrite Hev. cbn.
    unfold bind, handle_connect, on_conn, queue_put_nowait, loop_create_task,
      add_done_callback. run.
    rewrite Hitems. cbn. rewrite Hpart. cbn. rewrite Hraw. cbn. rewrite Hqs. cbn.
    rewrite Hacc. cbn. rewrite Hresp. cbn.
    eexists. split; [reflexivity|]. cbn. auto.
Qed.

(** ** C7: the end of the application task *)

(** C7, at an application that raises before the handshake is complete.
    [run_asgi] logs the exception, [send_500_response] prints a line on
    standard output, and the transport is closed: the one call recorded on
    the transport is the close, no response is written to it. *)
Theorem run_asgi_failure_writes_nothing
    (st : Proto) (tr : Transport) (sc : Scope) (exc : PyExc) :
  transport st = Some tr ->
  scope st = Some sc ->
  handshake_complete st = false ->
  exists st',
    run_asgi (Raise exc) st = (st', Ret tt) ∧
    transport st' = Some (tr_close tr) ∧
    calls (tr_close tr) = calls tr ++ [TClose] ∧
    stdout st' = stdout st ++ ["500 Error"] ∧
    queue st' = queue st.
Proof.
  intros Htr Hsc Hhc.
  unfold run_asgi, attempt, read_scope, logger_log, send_500_response, print,
    transport_close, on_transport. run.
  rewrite Hsc. cbn. rewrite Hhc. cbn. rewrite Htr. cbn.
  eexists. split; [reflexivity|]. cbn. auto.
Qed.

(** The rest of C7 holds.  After a completed handshake an application
    that raises gets the transport closed, with nothing printed. *)
Lemma run_asgi_failure_after_handshake
    (st : Proto) (tr : Transport) (sc : Scope) (exc : PyExc) :
  transport st = Some tr ->
  scope st = Some sc ->
  handshake_complete st = true ->
  exists st',
    run_asgi (Raise exc) st = (st', Ret tt) ∧
    transport st' = Some (tr_close tr) ∧
    stdout st' = stdout st.
Proof.
  intros Htr Hsc Hhc.
  unfold run_asgi, attempt, read_scope, logger_log, send_500_response, print,
    transport_close, on_transport. run.
  rewrite Hsc. cbn. rewrite Hhc. cbn. rewrite Htr. cbn.
  eexists. split; [reflexivity|]. cbn. auto.
Qed.

(** The done-callback takes the task out of the shared set, and taking it
    out again changes nothing. *)
Lemma on_task_complete_removes (st : Proto) (task : Task) :
  let st' := fst (on_task_complete task st) in
  (task ∉ tasks st') ∧
  (forall other, other <> task -> other ∈ tasks st' <-> other ∈ tasks st) ∧
  tasks (fst (on_task_complete task st')) = tasks st'.
Proof.
  cbn. split; [|split].
  - rewrite elem_of_difference, elem_of_singleton. tauto.
  - intros other Hne. rewrite elem_of_difference, elem_of_singleton. tauto.
  - apply set_eq. intros x. rewrite !elem_of_difference, elem_of_singleton. tauto.
Qed.

(** * More of the adapter *)

Lemma closing_record_calls cs tr : closing (record_calls cs tr) = closing tr.
Proof.
  revert tr. induction cs as [|c cs IH]; intros tr; cbn; [reflexivity|].
  unfold record_calls in IH. now rewrite IH.
Qed.

Lemma getitem_dict message key v :
  getitem message key = Ret v -> exists d, message = PyDict d ∧ assoc key d = Some v.
Proof.
  destruct message; cbn; try discriminate. intros H. eexists. split; [reflexivity|].
  destruct (assoc key d); congruence.
Qed.

(** ** [send]: the handshake *)

(** X1. While the handshake is not complete, ['websocket.accept'] marks it
    complete and writes every chunk the connection has pending, one write
    per chunk in order, whether or not the transport is closing; the
    queue and the close flag are untouched. *)
Theorem send_accept_completes_handshake
    (st0 st : Proto) (tr : Transport) (sc : Scope) (message : PyVal) c chunks :
  runs_in st0 st ->
  handshake_complete st = false ->
  getitem message "type" = Ret (PyStr "websocket.accept") ->
  scope st = Some sc ->
  transport st = Some tr ->
  data_to_send (conn st) = (c, chunks) ->
  exists st' tr',
    wake (send message st0) st = Some (st', Ret tt) ∧
    handshake_complete st' = true ∧
    close_sent st' = close_sent st ∧
    queue st' = queue st ∧
    conn st' = c ∧
    transport st' = Some tr' ∧
    calls tr' = calls tr ++ write_calls chunks ∧
    closing tr' = closing tr.
Proof.
  intros Hrun Hhc Hty Hsc Htr Hd. rewrite (wake_send _ _ _ Hrun).
  unfold send_body, read_scope, logger_log. run.
  rewrite Hty. cbn. rewrite Hhc. cbn. rewrite Hsc. cbn.
  erewrite flush_each_spec; [|exact Htr|exact Hd].
  eexists _, _. do 6 (split; [reflexivity|]). cbn.
  now rewrite calls_record_calls, closing_record_calls.
Qed.

(** X2. While the handshake is not complete, ['websocket.close'] refuses
    the connection: a ['websocket.disconnect'] event whose code is [None]
    goes on the queue, both flags are set, the connection is asked for a
    403 response with the text "Reject", and what it then has pending is
    taken out and handed to [transport.write] as one list.  On a
    transport that takes the list, that is one write, followed by the
    close.  On a transport that refuses it, the transport's exception
    leaves [send] with all of the above done, nothing written and the
    transport not closed. *)
Theorem send_close_rejects_handshake
    (st0 st : Proto) (tr : Transport) (sc : Scope) (message : PyVal)
    c1 c2 c3 response chunks :
  runs_in st0 st ->
  handshake_complete st = false ->
  getitem message "type" = Ret (PyStr "websocket.close") ->
  scope st = Some sc ->
  transport st = Some tr ->
  reject 403 "Reject" (conn st) = (c1, Ret response) ->
  send_response response c1 = (c2, Ret tt) ->
  data_to_send c2 = (c3, chunks) ->
  exists st' o,
    wake (send message st0) st = Some (st', o) ∧
    handshake_complete st' = true ∧
    close_sent st' = true ∧
    queue st' = queue st ++ [websocket_disconnect [("code", PyNone)]] ∧
    conn st' = c3 ∧
    match bad_write tr chunks with
    | None =>
        o = Ret tt ∧
        exists tr',
          transport st' = Some tr' ∧
          calls tr' = calls tr ++ [TWrite (WChunks chunks); TClose] ∧
          closing tr' = true
    | Some e => o = Raise e ∧ transport st' = Some tr
    end.
Proof.
  intros Hrun Hhc Hty Hsc Htr Hrej Hresp Hd. rewrite (wake_send _ _ _ Hrun).
  unfold send_body, read_scope, logger_log, queue_put_nowait, on_conn,
    on_conn_total, transport_attr, transport_write, transport_close,
    on_transport. run.
  rewrite Hty. cbn. rewrite Hhc. cbn. rewrite Hsc. cbn.
  rewrite Hrej. cbn. rewrite Hresp. cbn. rewrite Htr. cbn. rewrite Hd. cbn.
  rewrite Htr. cbn.
  destruct (bad_write tr chunks) as [e|]; cbn.
  - eexists _, _. do 5 (split; [reflexivity|]). cbn. auto.
  - eexists _, _. do 5 (split; [reflexivity|]). cbn.
    split; [reflexivity|]. eexists. split; [reflexivity|]. cbn.
    now rewrite <- app_assoc.
Qed.

(** ** [send]: the open state *)

(** X3. In the open state, on a transport that is not closing, a
    ['websocket.send'] hands its payload to the connection, a [str] as
    its UTF-8 bytes to [send_text] and a bytes-like value to
    [send_binary], and then writes every chunk the connection has
    pending, one write per chunk in order; queue and flags are untouched.
    If the connection refuses the payload its exception leaves [send] and
    nothing is written. *)
Theorem send_data_is_encoded_then_flushed
    (st0 st : Proto) (tr : Transport) (message bytes_data text_data : PyVal) :
  runs_in st0 st ->
  handshake_complete st = true ->
  close_sent st = false ->
  transport st = Some tr ->
  is_closing tr = false ->
  getitem message "type" = Ret (PyStr "websocket.send") ->
  get_default message "bytes" PyNone = Ret bytes_data ->
  get_default message "text" PyNone = Ret text_data ->
  let payload := if is_None bytes_data then text_data else bytes_data in
  let encode :=
    if isinstance_str payload then send_text (encode_utf8 (str_of payload))
    else send_binary (buffer_of payload) in
  isinstance_str payload || isinstance_bytes_like payload = true ->
  (forall c1 c2 chunks,
     encode (conn st) = (c1, Ret tt) ->
     data_to_send c1 = (c2, chunks) ->
     exists st' tr',
       wake (send message st0) st = Some (st', Ret tt) ∧
       conn st' = c2 ∧
       transport st' = Some tr' ∧
       calls tr' = calls tr ++ write_calls chunks ∧
       queue st' = queue st ∧
       handshake_complete st' = true ∧
       close_sent st' = false)
  ∧
  (forall c1 e,
     encode (conn st) = (c1, Raise e) ->
     wake (send message st0) st = Some (set_conn c1 st, Raise e)).
Proof.
  intros Hrun Hhc Hcs Htr Hclosing Hty Hb Ht payload encode Hshape.
  rewrite (wake_send _ _ _ Hrun).
  assert (Hbody : send_body message st
      = match on_conn encode st with
        | (st1, Ret _) => flush_each st1
        | (st1, Raise e) => (st1, Raise e)
        end).
  { unfold send_body. run. rewrite Hty. cbn. rewrite Hhc. cbn. rewrite Hcs. cbn.
    rewrite Hb. cbn. rewrite Ht. cbn. fold payload. subst encode.
    destruct (isinstance_str payload); cbn in Hshape |- *.
    - destruct (on_conn _ st) as [st1 [[]|e]] eqn:Hc; [|reflexivity].
      unfold transport_is_closing.
      assert (transport st1 = Some tr) as ->.
      { unfold on_conn in Hc. destruct (send_text _ _) as [c' o].
        injection Hc as <- _. exact Htr. }
      now rewrite Hclosing.
    - rewrite Hshape.
      destruct (on_conn _ st) as [st1 [[]|e]] eqn:Hc; [|reflexivity].
      unfold transport_is_closing.
      assert (transport st1 = Some tr) as ->.
      { unfold on_conn in Hc. destruct (send_binary _ _) as [c' o].
        injection Hc as <- _. exact Htr. }
      now rewrite Hclosing. }
  rewrite Hbody. unfold on_conn. split.
  - intros c1 c2 chunks Henc Hd. rewrite Henc.
    erewrite flush_each_spec; [|exact Htr|exact Hd].
    eexists _, _. do 3 (split; [reflexivity|]). cbn.
    rewrite calls_record_calls. auto.
  - intros c1 e Henc. now rewrite Henc.
Qed.

(** X4. When ["bytes"] is set, ["text"] is not looked at: two
    ['websocket.send'] messages with the same ["bytes"] (an empty byte
    string counts as set) do the same in every state, whatever their
    ["text"]. *)
Theorem send_prefers_bytes (st0 st : Proto) (m1 m2 bytes_data : PyVal) :
  getitem m1 "type" = Ret (PyStr "websocket.send") ->
  getitem m2 "type" = Ret (PyStr "websocket.send") ->
  get_default m1 "bytes" PyNone = Ret bytes_data ->
  get_default m2 "bytes" PyNone = Ret bytes_data ->
  is_None bytes_data = false ->
  wake (send m1 st0) st = wake (send m2 st0) st.
Proof.
  intros Hty1 Hty2 Hb1 Hb2 Hsome.
  assert (Hbody : forall s, send_body m1 s = send_body m2 s).
  { intros s.
    destruct (getitem_dict _ _ _ Hty1) as (d1 & -> & _).
    destruct (getitem_dict _ _ _ Hty2) as (d2 & -> & _).
    destruct (get_default_dict d1 "text" PyNone) as [t1 Ht1].
    destruct (get_default_dict d2 "text" PyNone) as [t2 Ht2].
    unfold send_body, mbind, M_bind, bind, gets, lift.
    rewrite Hty1, Hty2. cbn -[get_default].
    destruct (handshake_complete s); cbn -[get_default]; [|reflexivity].
    destruct (close_sent s); cbn -[get_default]; [reflexivity|].
    rewrite Hb1, Hb2, Ht1, Ht2, Hsome. reflexivity. }
  unfold send, wake. destruct (writable st0); now rewrite Hbody.
Qed.

(** X5. In the open state, on a transport that is not closing,
    ['websocket.close'] sets the close flag, puts a
    ['websocket.disconnect'] event with the message's code on the queue,
    asks the connection for a close frame with that code and the
    message's reason, and hands what the connection then has pending to
    [transport.write] as one list.  On a transport that takes the list,
    that is one write, followed by the close of the transport.  On a
    transport that refuses it, the transport's exception leaves [send]
    with the flag set, the event queued and the frame taken out of the
    connection, nothing written and the transport not closed.  The code
    is 1000 only when the message has no ["code"] key: a ["code"] of
    [None] is passed on as [None]; the reason is the empty string when it
    is absent or falsy. *)
Theorem send_close_closes
    (st0 st : Proto) (tr : Transport) (d : list (string * PyVal)) c1 c2 chunks :
  runs_in st0 st ->
  handshake_complete st = true ->
  close_sent st = false ->
  transport st = Some tr ->
  is_closing tr = false ->
  assoc "type" d = Some (PyStr "websocket.close") ->
  send_close (close_code d) (close_reason d) (conn st) = (c1, Ret tt) ->
  data_to_send c1 = (c2, chunks) ->
  (assoc "code" d = None -> close_code d = PyInt 1000) ∧
  (assoc "code" d = Some PyNone -> close_code d = PyNone) ∧
  (assoc "reason" d = Some PyNone -> close_reason d = PyStr EmptyString) ∧
  exists st' o,
    wake (send (PyDict d) st0) st = Some (st', o) ∧
    close_sent st' = true ∧
    handshake_complete st' = true ∧
    queue st' = queue st ++ [websocket_disconnect [("code", close_code d)]] ∧
    conn st' = c2 ∧
    match bad_write tr chunks with
    | None =>
        o = Ret tt ∧
        exists tr',
          transport st' = Some tr' ∧
          calls tr' = calls tr ++ [TWrite (WChunks chunks); TClose] ∧
          closing tr' = true
    | Some e => o = Raise e ∧ transport st' = Some tr
    end.
Proof.
  intros Hrun Hhc Hcs Htr Hclosing Hty Hclose Hd.
  unfold close_code, close_reason in *.
  split; [now intros ->|]. split; [now intros ->|]. split; [now intros ->|].
  rewrite (wake_send _ _ _ Hrun).
  unfold send_body, queue_put_nowait, on_conn, on_conn_total, transport_attr,
    transport_write, transport_close, on_transport, transport_is_closing. run.
  rewrite Hty. cbn. rewrite Hhc. cbn. rewrite Hcs. cbn.
  destruct (assoc "code" d) as [code|]; destruct (assoc "reason" d) as [given|];
    cbn; rewrite Hclose; cbn; rewrite Htr, Hclosing; cbn; rewrite Htr; cbn;
    rewrite Hd; cbn; rewrite Htr; cbn;
    (destruct (bad_write tr chunks) as [e|]; cbn;
     [eexists _, _; do 5 (split; [first [reflexivity|exact Hhc]|]); cbn; auto
     |eexists _, _; do 5 (split; [first [reflexivity|exact Hhc]|]); cbn;
      split; [reflexivity|]; eexists; split; [reflexivity|]; cbn;
      now rewrite <- app_assoc]).
Qed.

(** X6. Whatever [send] refuses, it refuses before doing anything.  A
    message without a ["type"] key fails with KeyError in every state; in
    the open state a type other than ['websocket.send'] and
    ['websocket.close'], a second ['websocket.accept'] for one, fails with
    the RuntimeError that expects one of the two.  The state is left as it
    was. *)
Theorem send_refuses_before_acting (st0 st : Proto) (message : PyVal) :
  runs_in st0 st ->
  (forall e,
     getitem message "type" = Raise e ->
     wake (send message st0) st = Some (st, Raise e))
  ∧
  (forall d,
     message = PyDict d -> assoc "type" d = None ->
     wake (send message st0) st = Some (st, Raise (KeyError "type")))
  ∧
  (forall ty,
     getitem message "type" = Ret ty ->
     handshake_complete st = true ->
     close_sent st = false ->
     eq_str ty "websocket.send" = false ->
     eq_str ty "websocket.close" = false ->
     wake (send message st0) st
     = Some (st, Raise (RuntimeError
         "Expected ASGI message 'websocket.send' or 'websocket.close', but got '%s'."
         ty))).
Proof.
  intros Hrun. rewrite (wake_send _ _ _ Hrun).
  split; [|split].
  - intros e He. unfold send_body. run. now rewrite He.
  - intros d -> Hd. unfold send_body. run. now rewrite Hd.
  - intros ty Hty Hhc Hcs Hs Hc. unfold send_body. run.
    rewrite Hty. cbn. rewrite Hhc. cbn. rewrite Hcs. cbn. now rewrite Hs, Hc.
Qed.

(** X7. Three places hand [transport.write] the list that
    [data_to_send()] returns, not bytes.  On a transport that refuses the
    list, [shutdown] and the open-state ['websocket.close'] raise the
    transport's exception after the disconnect event is on the queue and
    the close frame has been taken out of the connection: nothing is
    written and the transport is not closed. *)
Theorem refused_list_write_leaves_transport_open
    (st : Proto) (tr : Transport) (e : PyExc) c1 c2 chunks :
  transport st = Some tr ->
  data_to_send c1 = (c2, chunks) ->
  bad_write tr chunks = Some e ->
  (send_close (PyInt 1012) (PyStr EmptyString) (conn st) = (c1, Ret tt) ->
   exists st',
     shutdown st = (st', Raise e) ∧
     transport st' = Some tr ∧
     conn st' = c2 ∧
     queue st' = queue st ++ [disconnect_1012])
  ∧
  (forall st0 d,
     runs_in st0 st ->
     handshake_complete st = true ->
     close_sent st = false ->
     is_closing tr = false ->
     assoc "type" d = Some (PyStr "websocket.close") ->
     send_close (close_code d) (close_reason d) (conn st) = (c1, Ret tt) ->
     exists st',
       wake (send (PyDict d) st0) st = Some (st', Raise e) ∧
       transport st' = Some tr ∧
       conn st' = c2 ∧
       close_sent st' = true ∧
       queue st' = queue st ++ [websocket_disconnect [("code", close_code d)]]).
Proof.
  intros Htr Hd Hbad. split.
  - intros Hclose.
    unfold shutdown, queue_put_nowait, on_conn, on_conn_total, transport_attr,
      transport_write, transport_close, on_transport. run.
    rewrite Hclose. cbn. rewrite Htr. cbn. rewrite Hd. cbn. rewrite Htr. cbn.
    rewrite Hbad. cbn.
    eexists. split; [reflexivity|]. cbn. auto.
  - intros st0 d Hrun Hhc Hcs Hclosing Hty Hclose.
    rewrite (wake_send _ _ _ Hrun). unfold close_code, close_reason in *.
    unfold send_body, queue_put_nowait, on_conn, on_conn_total, transport_attr,
      transport_write, transport_close, on_transport, transport_is_closing. run.
    rewrite Hty. cbn. rewrite Hhc. cbn. rewrite Hcs. cbn.
    destruct (assoc "code" d) as [code|]; destruct (assoc "reason" d) as [given|];
      cbn; rewrite Hclose; cbn; rewrite Htr, Hclosing; cbn; rewrite Htr; cbn;
      rewrite Hd; cbn; rewrite Htr; cbn; rewrite Hbad; cbn;
      (eexists; split; [reflexivity|]; cbn; auto).
Qed.

(** ** [receive] *)

(** X8. [receive] on a queue that has items returns the oldest and leaves
    the others in order.  It asks the transport to resume reading, and
    clears [read_paused], exactly when reading was paused and it has just
    taken the last item; otherwise it changes nothing but the queue. *)
Theorem receive_takes_the_oldest (st : Proto) (message : PyVal) (rest : list PyVal) :
  queue st = message :: rest ->
  (rest <> [] ∨ read_paused st = false ->
   receive st = Finished (set_queue rest st, Ret message))
  ∧
  (forall tr,
     rest = [] -> read_paused st = true -> transport st = Some tr ->
     exists st',
       receive st = Finished (st', Ret message) ∧
       queue st' = [] ∧
       read_paused st' = false ∧
       transport st' = Some (record_call TResumeReading tr)).
Proof.
  intros Hq. unfold receive, receive_poll. rewrite Hq.
  unfold receive_body, transport_resume_reading, on_transport. run. split.
  - intros [Hrest|Hp].
    + destruct rest; [contradiction|]. now rewrite andb_false_r.
    + now rewrite Hp.
  - intros tr -> Hp Htr. rewrite Hp. cbn. rewrite Htr. cbn.
    eexists. split; [reflexivity|]. cbn. auto.
Qed.

(** X9. A [receive] parked on an empty queue parks again for as long as
    the queue is empty, and when the connection is lost with an error it
    returns the ['websocket.disconnect'] event that [connection_lost] put
    there, an event without a code, even when [connection_lost] itself
    went on to fail. *)
Theorem parked_receive_gets_the_disconnect (st : Proto) (exc : PyExc) :
  queue st = [] ->
  read_paused st = false ->
  exists k st',
    receive st = Suspended k ∧
    (forall s, queue s = [] -> k s = None) ∧
    k (after (Call_connection_lost (Some exc)) st)
    = Some (st', Ret (websocket_disconnect [])) ∧
    queue st' = [].
Proof.
  intros Hq Hp.
  set (st1 := after (Call_connection_lost (Some exc)) st).
  assert (H1 : queue st1 = [websocket_disconnect []] ∧ read_paused st1 = false).
  { subst st1.
    unfold after, method, connection_lost, queue_put_nowait, connections_remove_self,
      log_trace, logger_log. run. rewrite Hq.
    destruct (decide _); cbn; [destruct (logger_level st <=? _); cbn|]; auto. }
  destruct H1 as [Hq1 Hp1].
  exists receive_poll, (set_queue [] st1).
  unfold receive, receive_poll at 1. rewrite Hq.
  split; [reflexivity|]. split; [|split; [|reflexivity]].
  - intros s Hs. unfold receive_poll. now rewrite Hs.
  - unfold receive_poll. rewrite Hq1. unfold receive_body. run. now rewrite Hp1.
Qed.

(** X10. Pausing and resuming pair up: when a finished binary message is
    handled on an empty queue with reading not paused, reading is paused,
    and the [receive] that takes that message resumes it, so the transport
    sees one pause followed by one resume and [read_paused] is false
    again. *)
Theorem pause_is_undone_by_receive
    (st : Proto) (tr : Transport) (event : BytesMessage) :
  queue st = [] ->
  read_paused st = false ->
  transport st = Some tr ->
  message_finished event = true ->
  exists st1 st2 tr2,
    handle_bytes event st = (st1, Ret tt) ∧
    read_paused st1 = true ∧
    receive st1 = Finished (st2, Ret (receive_bytes (bytes st ++ bm_data event))) ∧
    queue st2 = [] ∧
    read_paused st2 = false ∧
    transport st2 = Some tr2 ∧
    calls tr2 = calls tr ++ [TPauseReading; TResumeReading].
Proof.
  intros Hq Hp Htr Hfin.
  unfold handle_bytes, queue_put_nowait, transport_pause_reading, on_transport. run.
  rewrite Hfin. cbn. rewrite Hp. cbn. rewrite Htr. cbn.
  eexists _, _, _. split; [reflexivity|]. split; [reflexivity|].
  unfold receive, receive_poll. cbn. rewrite Hq. cbn.
  unfold receive_body, transport_resume_reading, on_transport. run.
  do 4 (split; [reflexivity|]). cbn. now rewrite <- app_assoc.
Qed.

(** ** The protocol interface *)

(** X11. [connection_lost] with an error puts a ['websocket.disconnect']
    event without a code on the queue, takes the protocol out of the
    server's connections and does not close the transport; without an
    error it leaves the queue alone and closes the transport.  When the
    protocol is not among the connections it fails with KeyError, after
    the event has been queued. *)
Theorem connection_lost_by_cause (st : Proto) :
  (forall exc,
     self_id st ∈ connections st ->
     exists st',
       connection_lost (Some exc) st = (st', Ret tt) ∧
       queue st' = queue st ++ [websocket_disconnect []] ∧
       connections st' = connections st ∖ {[self_id st]} ∧
       transport st' = transport st)
  ∧
  (forall tr,
     self_id st ∈ connections st ->
     transport st = Some tr ->
     exists st',
       connection_lost None st = (st', Ret tt) ∧
       queue st' = queue st ∧
       connections st' = connections st ∖ {[self_id st]} ∧
       transport st' = Some (tr_close tr))
  ∧
  (forall exc,
     self_id st ∉ connections st ->
     exists st',
       connection_lost (Some exc) st = (st', Raise (KeyError "self")) ∧
       queue st' = queue st ++ [websocket_disconnect []] ∧
       connections st' = connections st ∧
       transport st' = transport st).
Proof.
  split; [|split].
  - intros exc Hin.
    unfold connection_lost, queue_put_nowait, connections_remove_self,
      log_trace, logger_log. run.
    destruct (decide _); [|contradiction]. cbn.
    destruct (logger_level st <=? _); cbn; eexists; split; reflexivity || (cbn; auto).
  - intros tr Hin Htr.
    unfold connection_lost, queue_put_nowait, connections_remove_self,
      log_trace, logger_log, transport_close, on_transport. run.
    destruct (decide _); [|contradiction]. cbn.
    destruct (logger_level st <=? _); cbn; rewrite Htr; cbn;
      eexists; split; reflexivity || (cbn; auto).
  - intros exc Hout.
    unfold connection_lost, queue_put_nowait, connections_remove_self. run.
    destruct (decide _); [contradiction|]. cbn.
    eexists; split; reflexivity || (cbn; auto).
Qed.

(** X12. Made, then lost: after [connection_made], [connection_lost]
    never fails, whatever its cause, and the server's connections are
    what they were, without this protocol. *)
Theorem connection_made_then_lost (st : Proto) (tr : Transport) (exc : option PyExc) :
  let st1 := after (Call_connection_made tr) st in
  snd (connection_lost exc st1) = Ret tt ∧
  connections (fst (connection_lost exc st1)) = connections st ∖ {[self_id st]}.
Proof.
  cbv zeta.
  unfold after, method, connection_made, connection_lost, queue_put_nowait,
    connections_remove_self, log_trace, logger_log, transport_close, on_transport.
  run.
  assert (Heq : ({[self_id st]} ∪ connections st) ∖ {[self_id st]}
                = connections st ∖ {[self_id st]}).
  { apply set_eq. intros x.
    rewrite !elem_of_difference, elem_of_union, elem_of_singleton. tauto. }
  destruct (logger_level st <=? _); cbn;
    destruct exc; cbn;
    (destruct (decide _) as [|Hn];
       [|exfalso; apply Hn; apply elem_of_union_l, elem_of_singleton; reflexivity]);
    cbn; destruct (logger_level st <=? _); cbn; auto.
Qed.


(** X14. [async_data_received] awaits what [transport.write] returns,
    which is [None]: when the connection is open and there is data to
    send, the data is written and the call then fails with TypeError
    without handling any event.  Otherwise it writes nothing and handles
    the events if it was given any. *)
Theorem async_data_received_fails_after_writing
    (st : Proto) (data_out : byte_string) (events : list Event) :
  (forall tr,
     state (conn st) = OPEN -> data_out <> [] -> transport st = Some tr ->
     async_data_received data_out events st
     = (set_transport (Some (record_call (TWrite (WBytes data_out)) tr)) st,
        Raise (TypeError "object NoneType can't be used in 'await' expression")))
  ∧
  (state (conn st) <> OPEN ∨ data_out = [] ->
   async_data_received data_out events st
   = match events with
     | [] => (st, Ret tt)
     | _ => handle_events st
     end).
Proof.
  unfold async_data_received, transport_write, on_transport. run. split.
  - intros tr Hopen Hdata Htr. rewrite Hopen.
    assert (Hlen : (0 <? Z.of_nat (length data_out)) = true).
    { apply Z.ltb_lt. destruct data_out; [contradiction|]. cbn [length]. lia. }
    rewrite Hlen. cbn. now rewrite Htr.
  - intros Hno.
    assert (Hguard : (State_eqb (state (conn st)) OPEN
                      && (0 <? Z.of_nat (length data_out))) = false).
    { destruct Hno as [Hst| ->]; [|now rewrite andb_false_r].
      destruct (state (conn st)); cbn; congruence. }
    rewrite Hguard. cbn. destruct events; reflexivity.
Qed.

(** X15. [handle_no_connect], when it is run, asks the connection three
    times, for the head of a 400 response with the two fixed headers,
    for the reason as UTF-8 body, and for the end of the message, writes
    the three answers to the transport as one byte string and closes the
    transport; the queue is untouched.  If the connection fails at the
    first of them, nothing is written and the transport stays open. *)
Theorem handle_no_connect_writes_once_then_closes
    (st : Proto) (tr : Transport) (event : Rejection) :
  transport st = Some tr ->
  let head :=
    H11Response 400
      [(encode_utf8 "content-type", encode_utf8 "text/plain; charset=utf-8");
       (encode_utf8 "connection", encode_utf8 "close")]
      "Bad Request" in
  (forall c1 c2 c3 out1 out2 out3,
     conn_send head (conn st) = (c1, Ret out1) ->
     conn_send (H11Data (encode_utf8 (reason event))) c1 = (c2, Ret out2) ->
     conn_send H11EndOfMessage c2 = (c3, Ret out3) ->
     exists st' tr',
       handle_no_connect event st = (st', Ret tt) ∧
       conn st' = c3 ∧
       queue st' = queue st ∧
       transport st' = Some tr' ∧
       calls tr' = calls tr ++ [TWrite (WBytes (out1 ++ out2 ++ out3)); TClose] ∧
       closing tr' = true)
  ∧
  (forall c1 e,
     conn_send head (conn st) = (c1, Raise e) ->
     handle_no_connect event st = (set_conn c1 st, Raise e)).
Proof.
  intros Htr head. subst head.
  unfold handle_no_connect, on_conn, transport_write, transport_close, on_transport,
    mbind, M_bind, bind.
  cbv zeta. split.
  - intros c1 c2 c3 out1 out2 out3 H1 H2 H3.
    rewrite H1. cbn -[encode_utf8]. rewrite H2. cbn -[encode_utf8].
    rewrite H3. cbn -[encode_utf8]. rewrite Htr. cbn -[encode_utf8].
    eexists _, _. do 4 (split; [reflexivity|]). cbn.
    now rewrite <- !app_assoc.
  - intros c1 e H1. now rewrite H1.
Qed.

(** X16. [handle_ping], when it is run, writes what the connection gives
    for the ping's response in one write and touches neither the queue
    nor the flags; if the connection fails, nothing is written. *)
Theorem handle_ping_writes_the_response (st : Proto) (tr : Transport) (event : Ping) :
  transport st = Some tr ->
  (forall c1 out,
     conn_send (Ping_response event) (conn st) = (c1, Ret out) ->
     handle_ping event st
     = (set_transport (Some (record_call (TWrite (WBytes out)) tr)) (set_conn c1 st),
        Ret tt))
  ∧
  (forall c1 e,
     conn_send (Ping_response event) (conn st) = (c1, Raise e) ->
     handle_ping event st = (set_conn c1 st, Raise e)).
Proof.
  intros Htr.
  unfold handle_ping, on_conn, transport_attr, transport_write, on_transport. run.
  rewrite Htr. cbn. split.
  - intros c1 out H1. rewrite H1. cbn. now rewrite Htr.
  - intros c1 e H1. now rewrite H1.
Qed.


(** ** [handle_events] *)

Lemma handle_text_run (st : Proto) (tr : Transport) (f : Frame) :
  transport st = Some tr ->
  exists st' tr',
    handle_text f st = (st', Ret tt) ∧
    queue st' = queue st ++ [receive_text (data f)] ∧
    transport st' = Some tr' ∧
    closing tr' = closing tr ∧
    handshake_complete st' = handshake_complete st ∧
    close_sent st' = close_sent st.
Proof.
  intros Htr. unfold handle_text, queue_put_nowait. run.
  destruct (data_to_send (conn st)) as [c chunks] eqn:Hd.
  erewrite flush_each_spec; [|exact Htr|exact Hd].
  eexists _, _. do 3 (split; [reflexivity|]). cbn.
  now rewrite closing_record_calls.
Qed.

Lemma handle_close_run (st : Proto) (tr : Transport) (f : Frame) :
  transport st = Some tr ->
  exists st' tr',
    handle_close f st = (st', Ret tt) ∧
    queue st' = queue st ++ [disconnect_1005] ∧
    transport st' = Some tr' ∧
    closing tr' = true.
Proof.
  intros Htr. unfold handle_close, queue_put_nowait, transport_close, on_transport.
  run. destruct (data_to_send (conn st)) as [c chunks] eqn:Hd.
  erewrite flush_each_spec; [|exact Htr|exact Hd]. cbn.
  eexists _, _. do 3 (split; [reflexivity|]). reflexivity.
Qed.

Lemma text_frames_run (frames : list Frame) : forall (st : Proto) (tr : Transport),
  transport st = Some tr ->
  Forall (fun f => opcode f = OP_TEXT) frames ->
  exists st' tr',
    for_each (map EvFrame frames) handle_event st = (st', Ret tt) ∧
    queue st' = queue st ++ map (fun f => receive_text (data f)) frames ∧
    transport st' = Some tr' ∧
    handshake_complete st' = handshake_complete st ∧
    close_sent st' = close_sent st.
Proof.
  induction frames as [|f frames IH]; intros st tr Htr Hall.
  - exists st, tr. cbn. rewrite app_nil_r. auto.
  - inversion Hall as [|? ? Hf Hrest]; subst.
    destruct (handle_text_run st tr f Htr) as (st1 & tr1 & Hrun & Hq & Htr1 & _ & Hh & Hc).
    destruct (IH st1 tr1 Htr1 Hrest) as (st2 & tr2 & Hrun2 & Hq2 & Htr2 & Hh2 & Hc2).
    exists st2, tr2. cbn. unfold bind. rewrite Hf. cbn. rewrite Hrun, Hrun2.
    split; [reflexivity|]. rewrite Hq2, Hq, Hh2, Hc2, <- app_assoc. auto.
Qed.

(** X17. Text frames reach the queue in the order the connection hands
    them over, one ['websocket.receive'] event each, carrying the frame's
    data under ["text"].  [handle_events] does this in every state: the
    flags are neither consulted nor changed, so frames that come after a
    close has been sent are queued like any other. *)
Theorem text_frames_are_queued_in_order
    (st : Proto) (tr : Transport) (c : connection) (frames : list Frame) :
  transport st = Some tr ->
  events_received (conn st) = (c, map EvFrame frames) ->
  Forall (fun f => opcode f = OP_TEXT) frames ->
  exists st',
    handle_events st = (st', Ret tt) ∧
    queue st' = queue st ++ map (fun f => receive_text (data f)) frames ∧
    handshake_complete st' = handshake_complete st ∧
    close_sent st' = close_sent st.
Proof.
  intros Htr Hev Hall. unfold handle_events, on_conn_total. run. rewrite Hev.
  destruct (text_frames_run frames (set_conn c st) tr Htr Hall)
    as (st' & tr' & Hrun & Hq & _ & Hh & Hc).
  exists st'. auto.
Qed.

(** X18. Frames that are neither text nor close are dropped: when every
    event is such a frame (binary, continuation, ping, pong),
    [handle_events] takes the events from the connection and does nothing
    else, so a binary message a client sends never reaches the
    application. *)
Theorem unrouted_frames_are_dropped
    (st : Proto) (c : connection) (frames : list Frame) :
  events_received (conn st) = (c, map EvFrame frames) ->
  Forall (fun f => routed f = false) frames ->
  handle_events st = (set_conn c st, Ret tt).
Proof.
  intros Hev Hall. unfold handle_events, on_conn_total. run. rewrite Hev.
  generalize (set_conn c st). clear Hev.
  induction frames as [|f frames IH]; intros s; cbn; [reflexivity|].
  inversion Hall as [|? ? Hf Hrest]; subst.
  unfold routed in Hf. apply orb_false_iff in Hf as [Ht Hc].
  unfold bind. rewrite Ht, Hc. cbn. now apply IH.
Qed.

(** X19. The loop goes on after a close frame: a text frame that follows
    a close frame in the same batch is put on the queue after the
    ['websocket.disconnect'] event, and its flush is written to the
    transport that was just closed. *)
Theorem events_after_close_are_still_queued
    (st : Proto) (tr : Transport) (c : connection) (closing_frame text_frame : Frame) :
  transport st = Some tr ->
  events_received (conn st) = (c, [EvFrame closing_frame; EvFrame text_frame]) ->
  opcode closing_frame = OP_CLOSE ->
  opcode text_frame = OP_TEXT ->
  exists st' tr',
    handle_events st = (st', Ret tt) ∧
    queue st' = queue st ++ [disconnect_1005; receive_text (data text_frame)] ∧
    transport st' = Some tr' ∧
    closing tr' = true.
Proof.
  intros Htr Hev Hc Ht. unfold handle_events, on_conn_total. run. rewrite Hev.
  destruct (handle_close_run (set_conn c st) tr closing_frame Htr)
    as (st1 & tr1 & Hrun1 & Hq1 & Htr1 & Hcl1).
  destruct (handle_text_run st1 tr1 text_frame Htr1)
    as (st2 & tr2 & Hrun2 & Hq2 & Htr2 & Hcl2 & _).
  exists st2, tr2. cbn. unfold bind. rewrite Hc, Ht. cbn.
  rewrite Hrun1, Hrun2. split; [reflexivity|].
  rewrite Hq2, Hq1, <- app_assoc, Hcl2. auto.
Qed.

(** ** The flags over all methods *)

Lemma send_body_keeps (I : Proto -> Prop) (message : PyVal) :
  on_flags I ->
  (forall st, I st -> I (set_handshake_complete true st)) ->
  (forall st, I st -> I (set_close_sent true st)) ->
  hoare I (send_body message) I.
Proof.
  intros HI Hh Hc.
  assert (Hflush : hoare I flush_each I) by now apply flags_flush_each.
  unfold send_body, queue_put_nowait, logger_log, transport_write, transport_close.
  flags; try exact Hflush; apply hoare_modify; auto.
Qed.

(** X20. The two flags only ever go up: no method, called in any state
    with any argument, takes [handshake_complete] or [close_sent] back
    from true to false. *)
Theorem flags_never_fall (c : Call) (st : Proto) :
  (handshake_complete st = true -> handshake_complete (after c st) = true) ∧
  (close_sent st = true -> close_sent (after c st) = true).
Proof.
  assert (H1 : on_flags (fun s => handshake_complete s = true))
    by (intros s s' Hh _; now rewrite Hh).
  assert (H2 : on_flags (fun s => close_sent s = true))
    by (intros s s' _ Hc; now rewrite Hc).
  unfold after. split; intros Hst.
  - destruct c;
      match goal with
      | |- context [Call_send ?m] => now apply (send_body_keeps _ m H1)
      | |- context [method ?c st] =>
          apply (flags_method _ H1 c); [congruence|exact Hst]
      end.
  - destruct c;
      match goal with
      | |- context [Call_send ?m] => now apply (send_body_keeps _ m H2)
      | |- context [method ?c st] =>
          apply (flags_method _ H2 c); [congruence|exact Hst]
      end.
Qed.

(** X21. Only [send] moves the flags: every other method, the handlers
    of close frames, [connection_lost], [shutdown] and [run_asgi]
    included, leaves [handshake_complete] and [close_sent] as they
    were. *)
Theorem only_send_moves_the_flags (c : Call) (st : Proto) :
  (forall message, c <> Call_send message) ->
  handshake_complete (after c st) = handshake_complete st ∧
  close_sent (after c st) = close_sent st.
Proof.
  intros Hc.
  set (I := fun s : Proto =>
    handshake_complete s = handshake_complete st ∧ close_sent s = close_sent st).
  assert (HI : on_flags I).
  { intros s s' Hh Hcs [? ?]. unfold I. rewrite Hh, Hcs. auto. }
  apply (flags_method I HI c Hc st). unfold I. auto.
Qed.

(** ** The queue over all methods *)

Section OnQueue.

Variable I : Proto -> Prop.
Hypothesis HI : on_queue I.

Lemma queue_modify (f : Proto -> Proto) :
  (forall st, queue (f st) = queue st) -> hoare I (modify f) I.
Proof. intros Hq. apply hoare_modify. intros st. now apply HI. Qed.

Lemma queue_on_conn {A : Type} (op : connection -> connection * Outcome A) :
  hoare I (on_conn op) I.
Proof.
  unfold hoare, on_conn. intros st. destruct (op (conn st)). cbn. now apply HI.
Qed.

Lemma queue_on_conn_total {A : Type} (op : connection -> connection * A) :
  hoare I (on_conn_total op) I.
Proof.
  unfold hoare, on_conn_total. intros st. destruct (op (conn st)). cbn.
  now apply HI.
Qed.

Lemma queue_on_transport {A : Type} attr (op : Transport -> Transport * Outcome A) :
  hoare I (on_transport attr op) I.
Proof.
  unfold hoare, on_transport. intros st. destruct (transport st) as [tr|]; cbn; auto.
  destruct (op tr). cbn. now apply HI.
Qed.

Lemma queue_transport_is_closing : hoare I transport_is_closing I.
Proof.
  unfold hoare, transport_is_closing. intros st. now destruct (transport st).
Qed.

Lemma queue_read_scope : hoare I read_scope I.
Proof. unfold hoare, read_scope. intros st. now destruct (scope st). Qed.

Lemma queue_loop_create_task : hoare I loop_create_task I.
Proof. unfold hoare, loop_create_task. intros st. cbn. now apply HI. Qed.

Lemma queue_connections_remove_self : hoare I connections_remove_self I.
Proof.
  unfold hoare, connections_remove_self. intros st.
  destruct (decide _); cbn; auto. now apply HI.
Qed.

End OnQueue.

Lemma on_queue_extends q : on_queue (queue_extends q).
Proof. unfold on_queue, queue_extends. intros st st' ->. auto. Qed.

Lemma extends_put q item :
  hoare (queue_extends q) (queue_put_nowait item) (queue_extends q).
Proof.
  unfold queue_put_nowait. apply hoare_modify. unfold queue_extends. intros st Hst.
  cbn. now apply prefix_app_r.
Qed.

Create HintDb adapter.

#[local] Hint Unfold method connection_made connection_lost eof_received
  data_received async_data_received handle_events handle_event pause_writing
  resume_writing shutdown on_task_complete handle_connect handle_no_connect
  handle_text handle_bytes handle_close handle_ping send_500_response run_asgi
  send_body flush_each log_trace logger_log print transport_write
  transport_close transport_pause_reading transport_resume_reading
  add_done_callback : adapter.

Ltac queue_step :=
  lazymatch goal with
  | |- forall _, _ => intro
  | |- hoare _ (match ?x with _ => _ end) _ => destruct x
  | |- hoare _ (let _ := _ in _) _ => cbv zeta
  | |- hoare _ ((fun _ => _) _) _ => cbv beta
  | |- hoare _ (mbind _ _) _ => apply hoare_seq
  | |- hoare _ (ret _) _ => apply hoare_ret
  | |- hoare _ (raise _) _ => apply hoare_raise
  | |- hoare _ (lift _) _ => apply hoare_lift
  | |- hoare _ (gets _) _ => apply hoare_gets
  | |- hoare _ (for_each _ _) _ => apply hoare_for_each
  | |- hoare _ (attempt _) _ => apply hoare_attempt
  | |- hoare _ (transport_attr _) _ => apply hoare_transport_attr
  | |- hoare _ (queue_put_nowait _) _ => apply extends_put
  | |- hoare _ (on_conn _) _ => apply queue_on_conn; apply on_queue_extends
  | |- hoare _ (on_conn_total _) _ =>
      apply queue_on_conn_total; apply on_queue_extends
  | |- hoare _ (on_transport _ _) _ =>
      apply queue_on_transport; apply on_queue_extends
  | |- hoare _ transport_is_closing _ =>
      apply queue_transport_is_closing; apply on_queue_extends
  | |- hoare _ read_scope _ => apply queue_read_scope; apply on_queue_extends
  | |- hoare _ loop_create_task _ =>
      apply queue_loop_create_task; apply on_queue_extends
  | |- hoare _ connections_remove_self _ =>
      apply queue_connections_remove_self; apply on_queue_extends
  | |- hoare _ (modify _) _ =>
      apply queue_modify; [apply on_queue_extends|reflexivity]
  end.

(** X22. Events are never taken back or reordered: whatever method is
    called, with whatever argument and outcome, [receive] apart, the
    events that were on the queue are still there, in the same order, at
    the head of the queue; a method can only add events behind them. *)
Theorem queue_only_grows (c : Call) (st : Proto) :
  c <> Call_receive -> queue st `prefix_of` queue (after c st).
Proof.
  intros Hc.
  assert (H : hoare (queue_extends (queue st)) (method c) (queue_extends (queue st))).
  { destruct c; try contradiction; repeat autounfold with adapter; repeat queue_step. }
  apply (H st). unfold queue_extends. reflexivity.
Qed.

(** ** [handle_connect] *)

Lemma partition_join sep s before found after_ :
  partition sep s = (before, found, after_) -> s = before +:+ found +:+ after_.
Proof.
  revert before found after_. induction s as [|c s IH]; intros a f b; cbn.
  - now intros [= <- <- <-].
  - destruct (Ascii.eqb c sep) eqn:Hc.
    + apply Ascii.eqb_eq in Hc as ->. now intros [= <- <- <-].
    + destruct (partition sep s) as [[a' f'] b']. intros [= <- <- <-].
      rewrite (IH a' f' b' eq_refl) at 1. reflexivity.
Qed.

Lemma partition_found sep s before found after_ :
  partition sep s = (before, found, after_) ->
  (found = EmptyString ∧ after_ = EmptyString ∧ before = s) ∨
  found = String sep EmptyString.
Proof.
  revert before found after_. induction s as [|c s IH]; intros a f b; cbn.
  - intros [= <- <- <-]. auto.
  - destruct (Ascii.eqb c sep) eqn:Hc.
    + intros [= <- <- <-]. auto.
    + destruct (partition sep s) as [[a' f'] b']. intros [= <- <- <-].
      destruct (IH a' f' b' eq_refl) as [(-> & -> & ->) | -> ]; auto.
Qed.

Lemma partition_before sep s before found after_ :
  partition sep s = (before, found, after_) -> ~ In sep (chars before).
Proof.
  revert before found after_. induction s as [|c s IH]; intros a f b; cbn.
  - intros [= <- <- <-]. cbn. tauto.
  - destruct (Ascii.eqb c sep) eqn:Hc.
    + intros [= <- <- <-]. cbn. tauto.
    + destruct (partition sep s) as [[a' f'] b']. intros [= <- <- <-].
      cbn. intros [->|Hin].
      * now rewrite Ascii.eqb_refl in Hc.
      * now apply (IH a' f' b' eq_refl).
Qed.

Lemma list_byte_of_string_app s1 s2 :
  list_byte_of_string (s1 +:+ s2) = list_byte_of_string s1 ++ list_byte_of_string s2.
Proof.
  unfold list_byte_of_string.
  induction s1 as [|c s1 IH]; [reflexivity|].
  change (String c s1 +:+ s2) with (String c (s1 +:+ s2)). cbn. f_equal. exact IH.
Qed.

Lemma encode_ascii_ok s bs : encode_ascii s = Ret bs -> bs = list_byte_of_string s.
Proof.
  unfold encode_ascii. destruct (forallb _ _); [|discriminate]. now intros [= <-].
Qed.

(** What a [handle_connect] that goes through leaves behind. *)
Lemma handle_connect_run
    (st : Proto) (r : Request) items raw_path sep query_string raw qs c1 c2 response :
  Headers_items (headers r) = Ret items ->
  partition "?" (path r) = (raw_path, sep, query_string) ->
  encode_ascii raw_path = Ret raw ->
  encode_ascii query_string = Ret qs ->
  accept r (conn st) = (c1, Ret response) ->
  send_response response c1 = (c2, Ret tt) ->
  exists st' sc,
    handle_connect r st = (st', Ret tt) ∧
    scope st' = Some sc ∧
    scope_path sc = unquote raw_path ∧
    scope_raw_path sc = raw ∧
    scope_query_string sc = qs ∧
    scope_headers sc = map (fun kv => (lower (fst kv), snd kv)) items ∧
    scope_subprotocols sc
    = flat_map (fun header => map strip (split "," header))
        (Headers_get_all (headers r) "Sec-WebSocket-Protocol") ∧
    connect_event st' = Some r ∧
    queue st' = queue st ++ [websocket_connect] ∧
    created st' = created st ++ [length (created st)] ∧
    done_callbacks st' = done_callbacks st ++ [length (created st)] ∧
    tasks st' = {[length (created st)]} ∪ tasks st ∧
    transport st' = transport st.
Proof.
  intros Hitems Hpart Hraw Hqs Hacc Hresp.
  unfold handle_connect, on_conn, queue_put_nowait, loop_create_task,
    add_done_callback. run.
  rewrite Hitems. cbn. rewrite Hpart. cbn. rewrite Hraw. cbn. rewrite Hqs. cbn.
  rewrite Hacc. cbn. rewrite Hresp. cbn.
  eexists _, _. do 2 (split; [reflexivity|]). cbn. auto 15.
Qed.

(** X23. The scope's [raw_path] and [query_string] are the request's path
    cut at its first ['?']: [raw_path] has no ['?'], a path without one
    gives an empty query string, and the three pieces put together are
    the path again; [path] is [raw_path] unquoted. *)
Theorem handle_connect_cuts_the_path
    (st : Proto) (r : Request) items path_bytes c1 c2 response :
  Headers_items (headers r) = Ret items ->
  encode_ascii (path r) = Ret path_bytes ->
  accept r (conn st) = (c1, Ret response) ->
  send_response response c1 = (c2, Ret tt) ->
  exists st' sc raw_path sep query_string,
    handle_connect r st = (st', Ret tt) ∧
    scope st' = Some sc ∧
    scope_raw_path sc = list_byte_of_string raw_path ∧
    scope_query_string sc = list_byte_of_string query_string ∧
    scope_path sc = unquote raw_path ∧
    path r = raw_path +:+ sep +:+ query_string ∧
    ~ In "?"%char (chars raw_path) ∧
    ((sep = EmptyString ∧ query_string = EmptyString) ∨ sep = "?").
Proof.
  intros Hitems Hpath Hacc Hresp.
  destruct (partition "?" (path r)) as [[raw_path sep] query_string] eqn:Hpart.
  pose proof (partition_join _ _ _ _ _ Hpart) as Hjoin.
  pose proof (partition_before _ _ _ _ _ Hpart) as Hbefore.
  pose proof (partition_found _ _ _ _ _ Hpart) as Hfound.
  assert (Hall : forallb is_ascii_byte (list_byte_of_string (path r)) = true).
  { unfold encode_ascii in Hpath. now destruct (forallb _ _). }
  rewrite Hjoin, !list_byte_of_string_app, !forallb_app in Hall.
  apply andb_true_iff in Hall as [Hraw Hrest].
  apply andb_true_iff in Hrest as [_ Hqs].
  destruct (handle_connect_run st r items raw_path sep query_string
              (list_byte_of_string raw_path) (list_byte_of_string query_string)
              c1 c2 response Hitems Hpart)
    as (st' & sc & Hrun & Hsc & Hp & Hr & Hq & _); auto.
  { unfold encode_ascii. now rewrite Hraw. }
  { unfold encode_ascii. now rewrite Hqs. }
  exists st', sc, raw_path, sep, query_string.
  repeat (split; [assumption|]).
  destruct Hfound as [(-> & -> & _)| ->]; auto.
Qed.

(** X24. A request whose path has a character outside ASCII stops
    [handle_connect] with UnicodeEncodeError once the event is recorded:
    no scope is set, the connection is not asked to accept, nothing is
    put on the queue and no task is created. *)
Theorem handle_connect_refuses_non_ascii_path (st : Proto) (r : Request) items :
  Headers_items (headers r) = Ret items ->
  forallb is_ascii_byte (list_byte_of_string (path r)) = false ->
  handle_connect r st
  = (set_connect_event (Some r) st, Raise (UnicodeEncodeError "ascii")).
Proof.
  intros Hitems Hbad.
  destruct (partition "?" (path r)) as [[raw_path sep] query_string] eqn:Hpart.
  pose proof (partition_join _ _ _ _ _ Hpart) as Hjoin.
  pose proof (partition_found _ _ _ _ _ Hpart) as Hfound.
  rewrite Hjoin, !list_byte_of_string_app, !forallb_app in Hbad.
  assert (Hsep : forallb is_ascii_byte (list_byte_of_string sep) = true)
    by (destruct Hfound as [(-> & _)| ->]; reflexivity).
  rewrite Hsep in Hbad. cbn in Hbad.
  unfold handle_connect. run. rewrite Hitems. cbn. rewrite Hpart. cbn.
  unfold encode_ascii.
  destruct (forallb is_ascii_byte (list_byte_of_string raw_path)); cbn in *;
    [|reflexivity].
  now rewrite Hbad.
Qed.

(** X25. The task [handle_connect] creates is the one it registers: it
    is added to the server's tasks and given [on_task_complete] as its
    done-callback, and running that callback takes it out again, so the
    tasks end as they started (when the task was not among them
    before). *)
Theorem handle_connect_task_is_deregistered
    (st : Proto) (r : Request) items raw_path sep query_string raw qs c1 c2 response :
  Headers_items (headers r) = Ret items ->
  partition "?" (path r) = (raw_path, sep, query_string) ->
  encode_ascii raw_path = Ret raw ->
  encode_ascii query_string = Ret qs ->
  accept r (conn st) = (c1, Ret response) ->
  send_response response c1 = (c2, Ret tt) ->
  let task := length (created st) in
  let st1 := fst (handle_connect r st) in
  task ∈ tasks st1 ∧
  done_callbacks st1 = done_callbacks st ++ [task] ∧
  tasks (fst (on_task_complete task st1)) = tasks st ∖ {[task]} ∧
  (task ∉ tasks st -> tasks (fst (on_task_complete task st1)) = tasks st).
Proof.
  intros Hitems Hpart Hraw Hqs Hacc Hresp task st1.
  destruct (handle_connect_run st r items raw_path sep query_string raw qs
              c1 c2 response Hitems Hpart Hraw Hqs Hacc Hresp)
    as (st' & sc & Hrun & _ & _ & _ & _ & _ & _ & _ & _ & _ & Hdone & Htasks & _).
  fold task in Hdone, Htasks.
  subst st1. rewrite Hrun. cbn [fst]. clearbody task.
  assert (Hafter : tasks (fst (on_task_complete task st')) = tasks st ∖ {[task]}).
  { cbn. rewrite Htasks. apply set_eq. intros x.
    rewrite !elem_of_difference, !elem_of_union, !elem_of_singleton. tauto. }
  rewrite Hafter, Hdone, Htasks.
  split; [apply elem_of_union_l, elem_of_singleton; reflexivity|].
  split; [reflexivity|]. split; [reflexivity|].
  intros Hfresh. apply set_eq. intros x.
  rewrite elem_of_difference, elem_of_singleton. split; [tauto|].
  intros Hx. split; [assumption|]. intros ->. contradiction.
Qed.

(** ** Header names and subprotocols *)











Lemma handle_connect_environment
    (s : Proto) (r : Request) items raw_path sep query_string raw qs c1 c2 response :
  Headers_items (headers r) = Ret items ->
  partition "?" (path r) = (raw_path, sep, query_string) ->
  encode_ascii raw_path = Ret raw ->
  encode_ascii query_string = Ret qs ->
  accept r (conn s) = (c1, Ret response) ->
  send_response response c1 = (c2, Ret tt) ->
  exists st' sc,
    handle_connect r s = (st', Ret tt) ∧
    scope st' = Some sc ∧
    scope_type sc = "websocket" ∧
    scope_scheme sc = scheme s ∧
    scope_server sc = server s ∧
    scope_client sc = client s ∧
    scope_root_path sc = root_path s ∧
    scope_asgi_version sc = asgi_version (config s).
Proof.
  intros Hitems Hpart Hraw Hqs Hacc Hresp.
  unfold handle_connect, on_conn, queue_put_nowait, loop_create_task,
    add_done_callback. run.
  rewrite Hitems. cbn. rewrite Hpart. cbn. rewrite Hraw. cbn. rewrite Hqs. cbn.
  rewrite Hacc. cbn. rewrite Hresp. cbn.
  eexists _, _. do 2 (split; [reflexivity|]). cbn. auto 10.
Qed.

(** X27. The scope describes the transport of [connection_made]: after
    [connection_made] on a transport, the scope that [handle_connect]
    builds has scheme ["wss"] when the transport is an SSL one and ["ws"]
    otherwise, the transport's local and remote addresses as server and
    client, and the configured root path and ASGI version. *)
Theorem scope_describes_the_transport
    (st : Proto) (tr : Transport) (r : Request)
    items raw_path sep query_string raw qs c1 c2 response :
  Headers_items (headers r) = Ret items ->
  partition "?" (path r) = (raw_path, sep, query_string) ->
  encode_ascii raw_path = Ret raw ->
  encode_ascii query_string = Ret qs ->
  accept r (conn st) = (c1, Ret response) ->
  send_response response c1 = (c2, Ret tt) ->
  exists st' sc,
    handle_connect r (after (Call_connection_made tr) st) = (st', Ret tt) ∧
    scope st' = Some sc ∧
    scope_type sc = "websocket" ∧
    scope_scheme sc = Some (if is_ssl tr then "wss" else "ws") ∧
    scope_server sc = get_local_addr tr ∧
    scope_client sc = get_remote_addr tr ∧
    scope_root_path sc = root_path st ∧
    scope_asgi_version sc = asgi_version (config st).
Proof.
  intros Hitems Hpart Hraw Hqs Hacc Hresp.
  set (st1 := after (Call_connection_made tr) st).
  assert (H1 : conn st1 = conn st ∧
               scheme st1 = Some (if is_ssl tr then "wss" else "ws") ∧
               server st1 = get_local_addr tr ∧
               client st1 = get_remote_addr tr ∧
               root_path st1 = root_path st ∧
               config st1 = config st).
  { subst st1. unfold after, method, connection_made, log_trace, logger_log. run.
    destruct (logger_level st <=? _); cbn; auto 10. }
  destruct H1 as (Hconn & Hscheme & Hserver & Hclient & Hroot & Hconfig).
  rewrite <- Hconn in Hacc.
  destruct (handle_connect_environment st1 r items raw_path sep query_string raw qs
              c1 c2 response Hitems Hpart Hraw Hqs Hacc Hresp)
    as (st' & sc & Hrun & Hsc & Hty & H2 & H3 & H4 & H5 & H6).
  exists st', sc. rewrite <- Hscheme, <- Hserver, <- Hclient, <- Hroot, <- Hconfig.
  auto 10.
Qed.

End Properties.

(** * The properties on the stand-in connection *)

Import Standin.

Lemma reachable_connected tr : reachable (connected tr).
Proof. apply reachable_call, reachable_init. Qed.

Lemma reachable_accepted tr : reachable (accepted tr).
Proof. do 2 apply reachable_call. apply reachable_connected. Qed.

Lemma reachable_closed tr : reachable (closed tr).
Proof. apply reachable_call, reachable_accepted. Qed.

Lemma runs_in_same (s : Proto) : runs_in s s.
Proof. intros _. reflexivity. Defined.

(** C1 at work: a ['websocket.send'] before the handshake is complete, and
    one after the application has closed. *)
Lemma send_refuses_out_of_state_witness :
  wake (send (send_message []) (requested asyncio_transport)) (requested asyncio_transport)
  = Some (requested asyncio_transport,
          Raise (RuntimeError
            "Expected ASGI message 'websocket.accept' or 'websocket.close', but got '%s'."
            (PyStr "websocket.send")))
  ∧
  wake (send (send_message []) (closed permissive_transport)) (closed permissive_transport)
  = Some (closed permissive_transport,
          Raise (RuntimeError
            "Unexpected ASGI message '%s', after sending 'websocket.close'."
            (PyStr "websocket.send"))).
Proof.
  split.
  - apply (proj1 (send_refuses_out_of_state
             (requested asyncio_transport) (requested asyncio_transport)
             (send_message []) (PyStr "websocket.send")
             (reachable_call _ _ (reachable_connected _))
             (runs_in_same _) eq_refl));
      vm_compute; reflexivity.
  - apply (proj2 (send_refuses_out_of_state
             (closed permissive_transport) (closed permissive_transport)
             (send_message []) (PyStr "websocket.send")
             (reachable_closed _) (runs_in_same _) eq_refl));
      vm_compute; reflexivity.
Defined.

(** C6 at work: [send({"type": "websocket.send"})] on the open connection. *)
Lemma send_without_payload_raises_TypeError_witness :
  wake (send (send_message []) (accepted asyncio_transport)) (accepted asyncio_transport)
  = Some (accepted asyncio_transport, Raise (TypeError "data is a dict-like object")).
Proof.
  apply (send_without_payload_raises_TypeError
           (accepted asyncio_transport) (accepted asyncio_transport)
           (send_message []) (runs_in_same _));
    vm_compute; reflexivity.
Defined.

(** C8 at work: a message that is a list, and a dict and a list as
    ["bytes"] payloads. *)
Lemma send_shape_checks_stop_at_mapping_witness :
  (exists e,
     getitem (PyList []) "type" = Raise (TypeError e) ∧
     wake (send (PyList []) (accepted asyncio_transport)) (accepted asyncio_transport)
     = Some (accepted asyncio_transport, Raise (TypeError e)))
  ∧
  wake (send (send_message [("bytes", PyDict [])]) (accepted asyncio_transport))
    (accepted asyncio_transport)
  = Some (accepted asyncio_transport, Raise (TypeError "data is a dict-like object"))
  ∧
  wake (send (send_message [("text", PyList [PyStr "a"; PyStr "b"])])
          (accepted asyncio_transport))
    (accepted asyncio_transport)
  = Some (accepted asyncio_transport, Raise (TypeError "data is a dict-like object")).
Proof.
  split; [|split].
  - apply (proj1 (send_shape_checks_stop_at_mapping
             (accepted asyncio_transport) (accepted asyncio_transport)
             (PyList []) (runs_in_same _))).
    reflexivity.
  - apply (proj2 (send_shape_checks_stop_at_mapping
             (accepted asyncio_transport) (accepted asyncio_transport)
             (send_message [("bytes", PyDict [])]) (runs_in_same _))
             (PyDict []) PyNone);
      vm_compute; reflexivity.
  - apply (proj2 (send_shape_checks_stop_at_mapping
             (accepted asyncio_transport) (accepted asyncio_transport)
             (send_message [("text", PyList [PyStr "a"; PyStr "b"])])
             (runs_in_same _))
             PyNone (PyList [PyStr "a"; PyStr "b"]));
      vm_compute; reflexivity.
Defined.

(** C9 at work, on a transport that was closing when the connection was
    made: a text message, a binary message, a text message that the
    connection refuses because it is closing, the flush that writes the
    text message after all, and a close with code 4000. *)
Lemma send_on_closing_transport_witness :
  let open := accepted closing_transport in
  let leaving := answering closing_transport in
  (exists r,
     wake (send (send_message [("text", PyList [])]) open) open = Some r ∧
     transport (fst r) = Some (the_transport open) ∧
     queue (fst r) = queue open)
  ∧
  wake (send (send_message [("text", PyStr "pong")]) open) open
  = Some (set_conn
            {| cstate := OPEN; events := []; writes := [list_byte_of_string "pong"] |}
            open,
          Ret tt)
  ∧
  wake (send (send_message [("bytes", PyBytes [Byte.x01; Byte.x02])]) open) open
  = Some (set_conn
            {| cstate := OPEN; events := []; writes := [[Byte.x01; Byte.x02]] |}
            open,
          Ret tt)
  ∧
  wake (send (send_message [("text", PyStr "late")]) leaving) leaving
  = Some (set_conn (conn leaving) leaving, Raise (LibraryError "InvalidState"))
  ∧
  (exists st' tr',
     flush_each
       (set_conn
          {| cstate := OPEN; events := []; writes := [list_byte_of_string "pong"] |}
          open)
     = (st', Ret tt) ∧
     conn st' = idle ∧
     transport st' = Some tr' ∧
     calls tr'
     = calls (the_transport open) ++ write_calls [list_byte_of_string "pong"])
  ∧
  wake (send (PyDict [("type", PyStr "websocket.close"); ("code", PyInt 4000)]) open) open
  = Some (set_conn
            {| cstate := CLOSING; events := [];
               writes := [close_payload (PyInt 4000)] |}
            (set_queue
               (queue open ++ [websocket_disconnect [("code", PyInt 4000)]])
               (set_close_sent true open)),
          Ret tt).
Proof.
  cbv zeta.
  assert (Htr : transport (accepted closing_transport)
                = Some (the_transport (accepted closing_transport)))
    by (vm_compute; reflexivity).
  assert (Htr' : transport (answering closing_transport)
                 = Some (the_transport (answering closing_transport)))
    by (vm_compute; reflexivity).
  pose proof (fun message =>
    send_on_closing_transport
      (accepted closing_transport) (accepted closing_transport)
      (the_transport (accepted closing_transport)) message
      (runs_in_same _) eq_refl eq_refl Htr eq_refl) as H.
  pose proof (fun message =>
    send_on_closing_transport
      (answering closing_transport) (answering closing_transport)
      (the_transport (answering closing_transport)) message
      (runs_in_same _) eq_refl eq_refl Htr' eq_refl) as H'.
  split; [|split; [|split; [|split; [|split]]]].
  - apply (proj1 (H (send_message [("text", PyList [])]))). reflexivity.
  - apply (proj1 (proj1 (proj2 (H (send_message [("text", PyStr "pong")])))
             PyNone (PyStr "pong") _ _ eq_refl eq_refl eq_refl));
      vm_compute; reflexivity.
  - apply (proj2 (proj1 (proj2
             (H (send_message [("bytes", PyBytes [Byte.x01; Byte.x02])])))
             (PyBytes [Byte.x01; Byte.x02]) PyNone _ _ eq_refl eq_refl eq_refl));
      vm_compute; reflexivity.
  - apply (proj1 (proj1 (proj2 (H' (send_message [("text", PyStr "late")])))
             PyNone (PyStr "late") _ _ eq_refl eq_refl eq_refl));
      vm_compute; reflexivity.
  - apply (proj1 (proj2 (proj2 (H (send_message [])))) _ idle).
    reflexivity.
  - apply (proj2 (proj2 (proj2
             (H (PyDict [("type", PyStr "websocket.close"); ("code", PyInt 4000)]))))
             (PyInt 4000) (PyStr EmptyString) _ (Ret tt) eq_refl eq_refl eq_refl);
      vm_compute; reflexivity.
Defined.

(** C9 refuted.  The client closes first: its close frame has been
    handled, so the transport is closing while the adapter is still in
    its open state, and a ['websocket.send'] raises the connection's
    InvalidState.  And on a connection that takes the message the frame
    is not dropped: the flush of the next text frame writes it. *)
Lemma send_on_closing_transport_raises_or_is_written_later :
  let hung_up := after (Call_handle_close close_frame) (answering asyncio_transport) in
  let open := accepted closing_transport in
  let sent := after (Call_send (send_message [("text", PyStr "pong")])) open in
  let later := after (Call_handle_text (text_frame "next")) sent in
  handshake_complete hung_up = true ∧
  close_sent hung_up = false ∧
  option_map is_closing (transport hung_up) = Some true ∧
  wake (send (send_message [("text", PyStr "late")]) hung_up) hung_up
  = Some (hung_up, Raise (LibraryError "InvalidState")) ∧
  option_map is_closing (transport open) = Some true ∧
  option_map calls (transport sent) = Some [TWrite (WBytes switching)] ∧
  option_map calls (transport later)
  = Some [TWrite (WBytes switching); TWrite (WBytes (list_byte_of_string "pong"))].
Proof.
  cbv zeta. do 6 (split; [vm_compute; reflexivity|]). vm_compute; reflexivity.
Qed.

(** C10 at work: a close frame arrives while the connection holds its
    answer to it. *)
Lemma handle_close_flushes_disconnects_closes_witness :
  (forall s, State_truthy (State_attr_CLOSING s) = true) ∧
  exists st' tr',
    handle_close close_frame (answering asyncio_transport) = (st', Ret tt) ∧
    conn st' = {| cstate := CLOSING; events := []; writes := [] |} ∧
    transport st' = Some tr' ∧
    calls tr'
    = calls (the_transport (answering asyncio_transport))
      ++ write_calls [close_ack] ++ [TClose] ∧
    closing tr' = true ∧
    queue st'
    = queue (answering asyncio_transport)
      ++ [websocket_disconnect [("code", PyInt 1005)]].
Proof.
  apply (handle_close_flushes_disconnects_closes
           (answering asyncio_transport)
           (the_transport (answering asyncio_transport)) close_frame
           {| cstate := CLOSING; events := []; writes := [] |} [close_ack]);
    vm_compute; reflexivity.
Defined.

(** The stand-in sends one close frame. *)
Lemma standin_sends_one_close : sends_one_close.
Proof.
  split; [|split].
  - intros code reason c c'. cbn. unfold guarded.
    destruct (State_eqb (cstate c) OPEN); [|discriminate].
    intros [= <-]. cbn. discriminate.
  - reflexivity.
  - intros code reason c Hc. cbn in *. unfold guarded.
    destruct (cstate c); cbn; eauto. now destruct Hc.
Qed.

(** C2 at work: two calls of [shutdown] on an open connection, on a
    transport that takes the list it is handed. *)
Lemma shutdown_twice_queues_twice_closes_once_witness :
  let open := accepted permissive_transport in
  let once := fst (shutdown open) in
  let twice := fst (shutdown once) in
  queue once = queue open ++ [disconnect_1012] ∧
  queue twice = queue open ++ [disconnect_1012; disconnect_1012] ∧
  (closes once <= S (closes open))%nat ∧
  (closes twice <= S (closes open))%nat ∧
  transport twice = transport once ∧
  exists e, snd (shutdown once) = Raise e.
Proof.
  cbv zeta.
  pose proof (shutdown_twice_queues_twice_closes_once (accepted permissive_transport))
    as H.
  cbv zeta in H.
  split; [exact (proj1 H)|]. split; [exact (proj1 (proj2 H))|].
  split; [exact (proj1 (proj2 (proj2 H)))|].
  split; [exact (proj1 (proj2 (proj2 (proj2 H)) standin_sends_one_close))|].
  apply (proj2 (proj2 (proj2 (proj2 H)) standin_sends_one_close)
           {| cstate := CLOSING; events := [];
              writes := [close_payload (PyInt 1012)] |}).
  vm_compute; reflexivity.
Defined.

(** C2 refuted: two calls of [shutdown] on an open connection leave two
    disconnect events on the queue, one call leaves one. *)
Lemma shutdown_twice_enqueues_twice :
  let open := accepted asyncio_transport in
  let once := fst (shutdown open) in
  let twice := fst (shutdown once) in
  queue once = [websocket_connect; disconnect_1012] ∧
  queue twice = [websocket_connect; disconnect_1012; disconnect_1012] ∧
  queue twice <> queue once.
Proof.
  cbv zeta. split; [vm_compute; reflexivity|].
  split; [vm_compute; reflexivity|].
  vm_compute. discriminate.
Qed.

(** C3 at work: a binary message in two frames. *)
Lemma handle_events_drops_binary_witness :
  let frames :=
    [{| opcode := OP_BINARY; data := [Byte.x01]; fin := false |};
     {| opcode := OP_CONT; data := [Byte.x02]; fin := true |}] in
  let open := holding (map EvFrame frames) asyncio_transport in
  handle_events open = (set_conn idle open, Ret tt)
  ∧
  exists st',
    data_received [] open = (st', Ret tt) ∧
    conn st' = idle ∧
    bytes st' = bytes open ∧
    queue st' = queue open ∧
    read_paused st' = read_paused open ∧
    transport st' = transport open.
Proof.
  cbv zeta.
  pose proof (handle_events_drops_binary
    (holding
       (map EvFrame
          [{| opcode := OP_BINARY; data := [Byte.x01]; fin := false |};
           {| opcode := OP_CONT; data := [Byte.x02]; fin := true |}])
       asyncio_transport)
    idle
    [{| opcode := OP_BINARY; data := [Byte.x01]; fin := false |};
     {| opcode := OP_CONT; data := [Byte.x02]; fin := true |}]
    ltac:(repeat constructor)) as H.
  split.
  - apply (proj1 H). reflexivity.
  - apply (proj2 H []
             {| cstate := OPEN;
                events :=
                  map EvFrame
                    [{| opcode := OP_BINARY; data := [Byte.x01]; fin := false |};
                     {| opcode := OP_CONT; data := [Byte.x02]; fin := true |}];
                writes := [] |});
      reflexivity.
Defined.

(** X28 at work: two fragments and the one that ends the message. *)
Lemma handle_bytes_reassembles_witness :
  let open := accepted asyncio_transport in
  let fragments := [fragment Byte.x01 false; fragment Byte.x02 false] in
  let final := fragment Byte.x03 true in
  (exists st1,
     for_each fragments handle_bytes open = (st1, Ret tt) ∧
     bytes st1 = bytes open ++ payloads fragments ∧
     queue st1 = queue open ∧
     transport st1 = Some (the_transport open) ∧
     read_paused st1 = read_paused open)
  ∧
  (exists st2 tr2,
     for_each (fragments ++ [final]) handle_bytes open = (st2, Ret tt) ∧
     queue st2
     = queue open
       ++ [receive_bytes (bytes open ++ payloads fragments ++ bm_data final)] ∧
     bytes st2 = [] ∧
     read_paused st2 = true ∧
     transport st2 = Some tr2 ∧
     calls tr2
     = calls (the_transport open)
       ++ (if read_paused open then [] else [TPauseReading])).
Proof.
  cbv zeta.
  apply (handle_bytes_reassembles
           (accepted asyncio_transport)
           (the_transport (accepted asyncio_transport))
           [fragment Byte.x01 false; fragment Byte.x02 false]
           (fragment Byte.x03 true)).
  - vm_compute; reflexivity.
  - repeat constructor.
  - reflexivity.
Defined.

(** C4 at work: the ping and its pong stay where they are. *)
Lemma handle_events_skips_ping_witness :
  handle_events (pinged asyncio_transport)
  = (set_conn
       {| cstate := OPEN; events := []; writes := [[Byte.x8a; Byte.x00]] |}
       (pinged asyncio_transport),
     Ret tt).
Proof.
  apply (handle_events_skips_ping (pinged asyncio_transport) _ ping_frame);
    reflexivity.
Defined.

(** C7 at work: the application raises right after the request. *)
Lemma run_asgi_failure_writes_nothing_witness :
  let waiting := requested asyncio_transport in
  exists st',
    run_asgi (Raise (TypeError "boom")) waiting = (st', Ret tt) ∧
    transport st' = Some (tr_close (the_transport waiting)) ∧
    calls (tr_close (the_transport waiting))
    = calls (the_transport waiting) ++ [TClose] ∧
    stdout st' = stdout waiting ++ ["500 Error"] ∧
    queue st' = queue waiting.
Proof.
  cbv zeta.
  destruct (scope (requested asyncio_transport)) as [sc|] eqn:Hsc;
    [|vm_compute in Hsc; discriminate].
  apply (run_asgi_failure_writes_nothing
           (requested asyncio_transport)
           (the_transport (requested asyncio_transport)) sc (TypeError "boom"));
    trivial; vm_compute; reflexivity.
Defined.

(** C5 at work: input after the end, no input, and a request that the
    connection hands over as it would any other. *)
Lemma data_received_never_answers_400_witness :
  data_received [Byte.x00] (ended asyncio_transport)
  = (set_conn (conn (ended asyncio_transport)) (ended asyncio_transport),
     Raise (LibraryError "EOFError"))
  ∧
  data_received [] (connected asyncio_transport)
  = (set_conn (conn (connected asyncio_transport)) (connected asyncio_transport),
     Ret tt)
  ∧
  exists st',
    data_received (list_byte_of_string "/ws?x=1") (connected asyncio_transport)
    = (st', Ret tt) ∧
    transport st' = transport (connected asyncio_transport) ∧
    queue st' = queue (connected asyncio_transport) ++ [websocket_connect] ∧
    created st'
    = created (connected asyncio_transport)
      ++ [length (created (connected asyncio_transport))] ∧
    tasks st'
    = {[length (created (connected asyncio_transport))]}
      ∪ tasks (connected asyncio_transport).
Proof.
  split; [|split].
  - apply (proj1 (data_received_never_answers_400
             (ended asyncio_transport) [Byte.x00]
             {| cstate := CLOSED; events := []; writes := [] |})).
    reflexivity.
  - apply (proj1 (proj2 (data_received_never_answers_400
             (connected asyncio_transport) []
             {| cstate := CONNECTING; events := []; writes := [] |}))
             {| cstate := CONNECTING; events := []; writes := [] |});
      reflexivity.
  - apply (proj2 (proj2 (data_received_never_answers_400
             (connected asyncio_transport) (list_byte_of_string "/ws?x=1")
             {| cstate := CONNECTING;
                events := [EvRequest {| path := "/ws?x=1"; headers := [] |}];
                writes := [] |}))
             {| cstate := CONNECTING; events := []; writes := [] |}
             {| cstate := CONNECTING; events := []; writes := [] |}
             {| cstate := OPEN; events := [];
                writes := [list_byte_of_string "Switching Protocols"] |}
             {| path := "/ws?x=1"; headers := [] |} []
             "/ws" "?" "x=1"
             (list_byte_of_string "/ws") (list_byte_of_string "x=1")
             {| status_code := 101; reason_phrase := "Switching Protocols";
                response_headers := []; body := [] |});
      vm_compute; reflexivity.
Defined.

(** * The further properties on the stand-in connection *)

(** X1 at work: the application accepts the request for [/ws]. *)
Lemma send_accept_completes_handshake_witness :
  let waiting := requested asyncio_transport in
  exists st' tr',
    wake (send accept_message waiting) waiting = Some (st', Ret tt) ∧
    handshake_complete st' = true ∧
    close_sent st' = close_sent waiting ∧
    queue st' = queue waiting ∧
    conn st' = idle ∧
    transport st' = Some tr' ∧
    calls tr' = calls (the_transport waiting) ++ write_calls [switching] ∧
    closing tr' = closing (the_transport waiting).
Proof.
  cbv zeta.
  destruct (scope (requested asyncio_transport)) as [sc|] eqn:Hsc;
    [|vm_compute in Hsc; discriminate].
  apply (send_accept_completes_handshake
           (requested asyncio_transport) (requested asyncio_transport)
           (the_transport (requested asyncio_transport)) sc accept_message
           idle [switching] (runs_in_same _));
    trivial; vm_compute; reflexivity.
Defined.

(** X2 at work: the application refuses the request for [/ws], on a
    transport that takes a list and on one that raises TypeError for it. *)
Lemma send_close_rejects_handshake_witness :
  let chunks := [switching; list_byte_of_string "ForbiddenReject"] in
  let refusal :=
    TypeError "data argument must be a bytes-like object, not 'list'" in
  (let waiting := requested permissive_transport in
   exists st' o,
     wake (send close_message waiting) waiting = Some (st', o) ∧
     handshake_complete st' = true ∧
     close_sent st' = true ∧
     queue st' = queue waiting ++ [websocket_disconnect [("code", PyNone)]] ∧
     conn st' = idle ∧
     o = Ret tt ∧
     exists tr',
       transport st' = Some tr' ∧
       calls tr' = calls (the_transport waiting) ++ [TWrite (WChunks chunks); TClose] ∧
       closing tr' = true)
  ∧
  (let waiting := requested asyncio_transport in
   exists st' o,
     wake (send close_message waiting) waiting = Some (st', o) ∧
     handshake_complete st' = true ∧
     close_sent st' = true ∧
     queue st' = queue waiting ++ [websocket_disconnect [("code", PyNone)]] ∧
     conn st' = idle ∧
     o = Raise refusal ∧
     transport st' = Some (the_transport waiting)).
Proof.
  cbv zeta. split.
  - destruct (scope (requested permissive_transport)) as [sc|] eqn:Hsc;
      [|vm_compute in Hsc; discriminate].
    pose proof (send_close_rejects_handshake
      (requested permissive_transport) (requested permissive_transport)
      (the_transport (requested permissive_transport)) sc close_message
      {| cstate := OPEN; events := []; writes := [switching] |}
      {| cstate := OPEN; events := [];
         writes := [switching; list_byte_of_string "ForbiddenReject"] |}
      idle
      {| status_code := 403; reason_phrase := "Forbidden";
         response_headers := []; body := encode_utf8 "Reject" |}
      [switching; list_byte_of_string "ForbiddenReject"]
      (runs_in_same _)
      ltac:(vm_compute; reflexivity) ltac:(vm_compute; reflexivity) Hsc
      ltac:(vm_compute; reflexivity) ltac:(vm_compute; reflexivity)
      ltac:(vm_compute; reflexivity) ltac:(vm_compute; reflexivity)) as H.
    assert (Hbad : bad_write (the_transport (requested permissive_transport))
                     [switching; list_byte_of_string "ForbiddenReject"] = None)
      by (vm_compute; reflexivity).
    rewrite Hbad in H. exact H.
  - destruct (scope (requested asyncio_transport)) as [sc|] eqn:Hsc;
      [|vm_compute in Hsc; discriminate].
    pose proof (send_close_rejects_handshake
      (requested asyncio_transport) (requested asyncio_transport)
      (the_transport (requested asyncio_transport)) sc close_message
      {| cstate := OPEN; events := []; writes := [switching] |}
      {| cstate := OPEN; events := [];
         writes := [switching; list_byte_of_string "ForbiddenReject"] |}
      idle
      {| status_code := 403; reason_phrase := "Forbidden";
         response_headers := []; body := encode_utf8 "Reject" |}
      [switching; list_byte_of_string "ForbiddenReject"]
      (runs_in_same _)
      ltac:(vm_compute; reflexivity) ltac:(vm_compute; reflexivity) Hsc
      ltac:(vm_compute; reflexivity) ltac:(vm_compute; reflexivity)
      ltac:(vm_compute; reflexivity) ltac:(vm_compute; reflexivity)) as H.
    assert (Hbad : bad_write (the_transport (requested asyncio_transport))
                     [switching; list_byte_of_string "ForbiddenReject"]
                   = Some (TypeError
                       "data argument must be a bytes-like object, not 'list'"))
      by (vm_compute; reflexivity).
    rewrite Hbad in H. exact H.
Defined.

(** X3 at work: a text message and a message the connection refuses
    (it is closing by then). *)
Lemma send_data_is_encoded_then_flushed_witness :
  let open := accepted permissive_transport in
  let closing_ := set_conn {| cstate := CLOSING; events := []; writes := [] |} open in
  (exists st' tr',
     wake (send (send_message [("text", PyStr "pong")]) open) open = Some (st', Ret tt) ∧
     conn st' = idle ∧
     transport st' = Some tr' ∧
     calls tr' = calls (the_transport open) ++ write_calls [list_byte_of_string "pong"] ∧
     queue st' = queue open ∧
     handshake_complete st' = true ∧
     close_sent st' = false)
  ∧
  wake (send (send_message [("text", PyStr "pong")]) closing_) closing_
  = Some (set_conn {| cstate := CLOSING; events := []; writes := [] |} closing_,
          Raise (LibraryError "InvalidState")).
Proof.
  cbv zeta. split.
  - refine (proj1 (send_data_is_encoded_then_flushed
             (accepted permissive_transport) (accepted permissive_transport)
             (the_transport (accepted permissive_transport))
             (send_message [("text", PyStr "pong")]) PyNone (PyStr "pong")
             (runs_in_same _) _ _ _ _ _ _ _ _)
             {| cstate := OPEN; events := []; writes := [list_byte_of_string "pong"] |}
             idle [list_byte_of_string "pong"] _ _);
      vm_compute; reflexivity.
  - refine (proj2 (send_data_is_encoded_then_flushed _ _
             (the_transport (accepted permissive_transport))
             (send_message [("text", PyStr "pong")]) PyNone (PyStr "pong")
             (runs_in_same _) _ _ _ _ _ _ _ _) _ _ _);
      vm_compute; reflexivity.
Defined.

(** X4 at work: the same bytes with and without a text beside them. *)
Lemma send_prefers_bytes_witness :
  wake (send (send_message [("bytes", PyBytes []); ("text", PyStr "hi")])
          (accepted permissive_transport)) (accepted permissive_transport)
  = wake (send (send_message [("bytes", PyBytes [])])
            (accepted permissive_transport)) (accepted permissive_transport).
Proof.
  apply (send_prefers_bytes _ _ _ _ (PyBytes [])); reflexivity.
Defined.

(** X5 at work: a close without a code, on a transport that takes a
    list and on one that raises TypeError for it. *)
Lemma send_close_closes_witness :
  let d := [("type", PyStr "websocket.close"); ("reason", PyNone)] in
  let refusal :=
    TypeError "data argument must be a bytes-like object, not 'list'" in
  (assoc "code" d = None -> close_code d = PyInt 1000) ∧
  (assoc "code" d = Some PyNone -> close_code d = PyNone) ∧
  (assoc "reason" d = Some PyNone -> close_reason d = PyStr EmptyString) ∧
  (let open := accepted permissive_transport in
   exists st' o,
     wake (send (PyDict d) open) open = Some (st', o) ∧
     close_sent st' = true ∧
     handshake_complete st' = true ∧
     queue st' = queue open ++ [websocket_disconnect [("code", close_code d)]] ∧
     conn st' = {| cstate := CLOSING; events := []; writes := [] |} ∧
     o = Ret tt ∧
     exists tr',
       transport st' = Some tr' ∧
       calls tr'
       = calls (the_transport open)
         ++ [TWrite (WChunks [close_payload (PyInt 1000)]); TClose] ∧
       closing tr' = true)
  ∧
  (let open := accepted asyncio_transport in
   exists st' o,
     wake (send (PyDict d) open) open = Some (st', o) ∧
     close_sent st' = true ∧
     handshake_complete st' = true ∧
     queue st' = queue open ++ [websocket_disconnect [("code", close_code d)]] ∧
     conn st' = {| cstate := CLOSING; events := []; writes := [] |} ∧
     o = Raise refusal ∧
     transport st' = Some (the_transport open)).
Proof.
  cbv zeta.
  pose proof (send_close_closes
    (accepted permissive_transport) (accepted permissive_transport)
    (the_transport (accepted permissive_transport))
    [("type", PyStr "websocket.close"); ("reason", PyNone)]
    {| cstate := CLOSING; events := []; writes := [close_payload (PyInt 1000)] |}
    {| cstate := CLOSING; events := []; writes := [] |}
    [close_payload (PyInt 1000)] (runs_in_same _)
    ltac:(vm_compute; reflexivity) ltac:(vm_compute; reflexivity)
    ltac:(vm_compute; reflexivity) ltac:(vm_compute; reflexivity)
    ltac:(vm_compute; reflexivity) ltac:(vm_compute; reflexivity)
    ltac:(vm_compute; reflexivity)) as H.
  pose proof (send_close_closes
    (accepted asyncio_transport) (accepted asyncio_transport)
    (the_transport (accepted asyncio_transport))
    [("type", PyStr "websocket.close"); ("reason", PyNone)]
    {| cstate := CLOSING; events := []; writes := [close_payload (PyInt 1000)] |}
    {| cstate := CLOSING; events := []; writes := [] |}
    [close_payload (PyInt 1000)] (runs_in_same _)
    ltac:(vm_compute; reflexivity) ltac:(vm_compute; reflexivity)
    ltac:(vm_compute; reflexivity) ltac:(vm_compute; reflexivity)
    ltac:(vm_compute; reflexivity) ltac:(vm_compute; reflexivity)
    ltac:(vm_compute; reflexivity)) as H'.
  assert (Hbad : bad_write (the_transport (accepted permissive_transport))
                   [close_payload (PyInt 1000)] = None)
    by (vm_compute; reflexivity).
  assert (Hbad' : bad_write (the_transport (accepted asyncio_transport))
                    [close_payload (PyInt 1000)]
                  = Some (TypeError
                      "data argument must be a bytes-like object, not 'list'"))
    by (vm_compute; reflexivity).
  rewrite Hbad in H. rewrite Hbad' in H'.
  split; [exact (proj1 H)|]. split; [exact (proj1 (proj2 H))|].
  split; [exact (proj1 (proj2 (proj2 H)))|].
  split; [exact (proj2 (proj2 (proj2 H)))|exact (proj2 (proj2 (proj2 H')))].
Defined.

(** X6 at work: a message without a type, and a second accept. *)
Lemma send_refuses_before_acting_witness :
  let open := accepted permissive_transport in
  wake (send (PyDict [("text", PyStr "hi")]) open) open
  = Some (open, Raise (KeyError "type"))
  ∧
  wake (send accept_message open) open
  = Some (open, Raise (RuntimeError
      "Expected ASGI message 'websocket.send' or 'websocket.close', but got '%s'."
      (PyStr "websocket.accept"))).
Proof.
  cbv zeta. split.
  - apply (proj1 (proj2 (send_refuses_before_acting _ _
             (PyDict [("text", PyStr "hi")]) (runs_in_same _)))
             [("text", PyStr "hi")]); reflexivity.
  - apply (proj2 (proj2 (send_refuses_before_acting _ _ accept_message
             (runs_in_same _))) (PyStr "websocket.accept"));
      vm_compute; reflexivity.
Defined.

(** X7 at work, on a transport that raises TypeError for a list. *)
Lemma refused_list_write_leaves_transport_open_witness :
  let open := accepted asyncio_transport in
  let refusal :=
    TypeError "data argument must be a bytes-like object, not 'list'" in
  (exists st',
     shutdown open = (st', Raise refusal) ∧
     transport st' = Some (the_transport open) ∧
     conn st' = {| cstate := CLOSING; events := []; writes := [] |} ∧
     queue st' = queue open ++ [disconnect_1012])
  ∧
  (exists st',
     wake (send close_message open) open = Some (st', Raise refusal) ∧
     transport st' = Some (the_transport open) ∧
     conn st' = {| cstate := CLOSING; events := []; writes := [] |} ∧
     close_sent st' = true ∧
     queue st'
     = queue open
       ++ [websocket_disconnect
             [("code", close_code [("type", PyStr "websocket.close")])]]).
Proof.
  cbv zeta. split.
  - apply (proj1 (refused_list_write_leaves_transport_open
             (accepted asyncio_transport) (the_transport (accepted asyncio_transport))
             (TypeError "data argument must be a bytes-like object, not 'list'")
             {| cstate := CLOSING; events := []; writes := [close_payload (PyInt 1012)] |}
             {| cstate := CLOSING; events := []; writes := [] |}
             [close_payload (PyInt 1012)]
             ltac:(vm_compute; reflexivity) eq_refl eq_refl));
      vm_compute; reflexivity.
  - apply (proj2 (refused_list_write_leaves_transport_open
             (accepted asyncio_transport) (the_transport (accepted asyncio_transport))
             (TypeError "data argument must be a bytes-like object, not 'list'")
             {| cstate := CLOSING; events := []; writes := [close_payload (PyInt 1000)] |}
             {| cstate := CLOSING; events := []; writes := [] |}
             [close_payload (PyInt 1000)]
             ltac:(vm_compute; reflexivity) eq_refl eq_refl)
             (accepted asyncio_transport) [("type", PyStr "websocket.close")]
             (runs_in_same _));
      vm_compute; reflexivity.
Defined.

(** X8 at work: the first event of two, and the last one while reading
    is paused. *)
Lemma receive_takes_the_oldest_witness :
  let two := set_queue [websocket_connect; disconnect_1005] (accepted asyncio_transport) in
  let last := paused asyncio_transport in
  receive two = Finished (set_queue [disconnect_1005] two, Ret websocket_connect)
  ∧
  exists st',
    receive last = Finished (st', Ret (receive_bytes [Byte.x01])) ∧
    queue st' = [] ∧
    read_paused st' = false ∧
    transport st' = Some (record_call TResumeReading (the_transport last)).
Proof.
  cbv zeta. split.
  - apply (proj1 (receive_takes_the_oldest
             (set_queue [websocket_connect; disconnect_1005] (accepted asyncio_transport))
             websocket_connect [disconnect_1005] eq_refl)).
    left. discriminate.
  - apply (proj2 (receive_takes_the_oldest (paused asyncio_transport)
             (receive_bytes [Byte.x01]) [] ltac:(vm_compute; reflexivity)));
      vm_compute; reflexivity.
Defined.

(** X9 at work: the transport fails under a waiting [receive]. *)
Lemma parked_receive_gets_the_disconnect_witness :
  let open := drained asyncio_transport in
  exists k st',
    receive open = Suspended k ∧
    (forall s, queue s = [] -> k s = None) ∧
    k (after (Call_connection_lost (Some (LibraryError "ConnectionResetError"))) open)
    = Some (st', Ret (websocket_disconnect [])) ∧
    queue st' = [].
Proof.
  cbv zeta.
  apply (parked_receive_gets_the_disconnect (drained asyncio_transport));
    reflexivity.
Defined.

(** X10 at work: one binary message in, one [receive]. *)
Lemma pause_is_undone_by_receive_witness :
  let open := drained asyncio_transport in
  exists st1 st2 tr2,
    handle_bytes (fragment Byte.x01 true) open = (st1, Ret tt) ∧
    read_paused st1 = true ∧
    receive st1
    = Finished (st2, Ret (receive_bytes (bytes open ++ bm_data (fragment Byte.x01 true)))) ∧
    queue st2 = [] ∧
    read_paused st2 = false ∧
    transport st2 = Some tr2 ∧
    calls tr2 = calls (the_transport open) ++ [TPauseReading; TResumeReading].
Proof.
  cbv zeta.
  apply (pause_is_undone_by_receive (drained asyncio_transport)
           (the_transport (drained asyncio_transport)) (fragment Byte.x01 true));
    vm_compute; reflexivity.
Defined.

(** X11 at work: a lost connection with and without an error, and a
    protocol that was never registered. *)
Lemma connection_lost_by_cause_witness :
  let open := accepted asyncio_transport in
  (exists st',
     connection_lost (Some (LibraryError "ConnectionResetError")) open = (st', Ret tt) ∧
     queue st' = queue open ++ [websocket_disconnect []] ∧
     connections st' = connections open ∖ {[self_id open]} ∧
     transport st' = transport open)
  ∧
  (exists st',
     connection_lost None open = (st', Ret tt) ∧
     queue st' = queue open ∧
     connections st' = connections open ∖ {[self_id open]} ∧
     transport st' = Some (tr_close (the_transport open)))
  ∧
  (exists st',
     connection_lost (Some (LibraryError "ConnectionResetError")) fresh
     = (st', Raise (KeyError "self")) ∧
     queue st' = queue fresh ++ [websocket_disconnect []] ∧
     connections st' = connections fresh ∧
     transport st' = transport fresh).
Proof.
  cbv zeta.
  assert (Hin : self_id (accepted asyncio_transport)
                ∈ connections (accepted asyncio_transport)).
  { change (0%nat ∈ ({[0%nat]} ∪ ∅ : gset ProtoId)).
    apply elem_of_union_l, elem_of_singleton. reflexivity. }
  split; [|split].
  - exact (proj1 (connection_lost_by_cause (accepted asyncio_transport)) _ Hin).
  - apply (proj1 (proj2 (connection_lost_by_cause (accepted asyncio_transport)))
             (the_transport (accepted asyncio_transport)) Hin).
    vm_compute; reflexivity.
  - apply (proj2 (proj2 (connection_lost_by_cause fresh))).
    change (0%nat ∉ (∅ : gset ProtoId)). apply not_elem_of_empty.
Defined.


(** X14 at work: a pong to send on the open connection, and nothing to
    send. *)
Lemma async_data_received_fails_after_writing_witness :
  let open := accepted asyncio_transport in
  async_data_received [Byte.x8a; Byte.x00] [EvFrame ping_frame] open
  = (set_transport
       (Some (record_call (TWrite (WBytes [Byte.x8a; Byte.x00])) (the_transport open)))
       open,
     Raise (TypeError "object NoneType can't be used in 'await' expression"))
  ∧
  async_data_received [] [] open = (open, Ret tt).
Proof.
  cbv zeta. split.
  - apply (proj1 (async_data_received_fails_after_writing
             (accepted asyncio_transport) [Byte.x8a; Byte.x00] [EvFrame ping_frame]));
      [reflexivity|discriminate|vm_compute; reflexivity].
  - apply (proj2 (async_data_received_fails_after_writing
             (accepted asyncio_transport) [] [])).
    right. reflexivity.
Defined.

(** X15 at work, on the connection that has a [send], and on the
    stand-in, which has none. *)
Lemma handle_no_connect_writes_once_then_closes_witness :
  (exists st' tr',
     handle_no_connect {| reason := "no upgrade" |} Replying.connected = (st', Ret tt) ∧
     conn st' = conn Replying.connected ∧
     queue st' = queue Replying.connected ∧
     transport st' = Some tr' ∧
     calls tr'
     = calls asyncio_transport
       ++ [TWrite (WBytes (encode_utf8 "Bad Request" ++ encode_utf8 "no upgrade" ++ []));
           TClose] ∧
     closing tr' = true)
  ∧
  handle_no_connect {| reason := "no upgrade" |} (connected asyncio_transport)
  = (set_conn (conn (connected asyncio_transport)) (connected asyncio_transport),
     Raise (AttributeError "send")).
Proof.
  split.
  - apply (proj1 (handle_no_connect_writes_once_then_closes
             (codec := Replying.codec) Replying.connected asyncio_transport
             {| reason := "no upgrade" |} ltac:(vm_compute; reflexivity))
             (conn Replying.connected) (conn Replying.connected)
             (conn Replying.connected));
      reflexivity.
  - apply (proj2 (handle_no_connect_writes_once_then_closes
             (connected asyncio_transport) (the_transport (connected asyncio_transport))
             {| reason := "no upgrade" |} ltac:(vm_compute; reflexivity))).
    reflexivity.
Defined.

(** X16 at work, on the same two connections. *)
Lemma handle_ping_writes_the_response_witness :
  handle_ping {| ping_payload := [Byte.x01] |} Replying.connected
  = (set_transport
       (Some (record_call (TWrite (WBytes [Byte.x8a; Byte.x01])) asyncio_transport))
       (set_conn (conn Replying.connected) Replying.connected),
     Ret tt)
  ∧
  handle_ping {| ping_payload := [Byte.x01] |} (connected asyncio_transport)
  = (set_conn (conn (connected asyncio_transport)) (connected asyncio_transport),
     Raise (AttributeError "send")).
Proof.
  split.
  - apply (proj1 (handle_ping_writes_the_response
             (codec := Replying.codec) Replying.connected asyncio_transport
             {| ping_payload := [Byte.x01] |} ltac:(vm_compute; reflexivity)));
      reflexivity.
  - apply (proj2 (handle_ping_writes_the_response
             (connected asyncio_transport) (the_transport (connected asyncio_transport))
             {| ping_payload := [Byte.x01] |} ltac:(vm_compute; reflexivity))).
    reflexivity.
Defined.

(** X17 at work: two text frames in one batch. *)
Lemma text_frames_are_queued_in_order_witness :
  let frames := [text_frame "one"; text_frame "two"] in
  let open := holding (map EvFrame frames) asyncio_transport in
  exists st',
    handle_events open = (st', Ret tt) ∧
    queue st'
    = queue open ++ map (fun f => receive_text (data f)) frames ∧
    handshake_complete st' = handshake_complete open ∧
    close_sent st' = close_sent open.
Proof.
  cbv zeta.
  apply (text_frames_are_queued_in_order
           (holding (map EvFrame [text_frame "one"; text_frame "two"]) asyncio_transport)
           (the_transport (accepted asyncio_transport)) idle
           [text_frame "one"; text_frame "two"]).
  - vm_compute; reflexivity.
  - reflexivity.
  - repeat constructor.
Defined.

(** X18 at work: a binary message and a ping. *)
Lemma unrouted_frames_are_dropped_witness :
  let frames := [binary_frame [Byte.x01; Byte.x02]; ping_frame] in
  let open := holding (map EvFrame frames) asyncio_transport in
  handle_events open = (set_conn idle open, Ret tt).
Proof.
  cbv zeta.
  apply (unrouted_frames_are_dropped
           (holding (map EvFrame [binary_frame [Byte.x01; Byte.x02]; ping_frame])
              asyncio_transport)
           idle [binary_frame [Byte.x01; Byte.x02]; ping_frame]).
  - reflexivity.
  - repeat constructor.
Defined.

(** X19 at work: a close frame with a text frame behind it. *)
Lemma events_after_close_are_still_queued_witness :
  let open := holding [EvFrame close_frame; EvFrame (text_frame "late")] asyncio_transport in
  exists st' tr',
    handle_events open = (st', Ret tt) ∧
    queue st'
    = queue open ++ [disconnect_1005; receive_text (data (text_frame "late"))] ∧
    transport st' = Some tr' ∧
    closing tr' = true.
Proof.
  cbv zeta.
  apply (events_after_close_are_still_queued
           (holding [EvFrame close_frame; EvFrame (text_frame "late")] asyncio_transport)
           (the_transport (accepted asyncio_transport)) idle
           close_frame (text_frame "late"));
    vm_compute; reflexivity.
Defined.

(** X20 at work: [shutdown] on a closed connection keeps both flags. *)
Lemma flags_never_fall_witness :
  handshake_complete (after Call_shutdown (closed permissive_transport)) = true ∧
  close_sent (after Call_shutdown (closed permissive_transport)) = true.
Proof.
  split.
  - apply (proj1 (flags_never_fall Call_shutdown (closed permissive_transport))).
    vm_compute; reflexivity.
  - apply (proj2 (flags_never_fall Call_shutdown (closed permissive_transport))).
    vm_compute; reflexivity.
Defined.

(** X21 at work: a close frame from the client does not mark close
    sent. *)
Lemma only_send_moves_the_flags_witness :
  let open := accepted asyncio_transport in
  handshake_complete (after (Call_handle_close close_frame) open)
  = handshake_complete open ∧
  close_sent (after (Call_handle_close close_frame) open) = close_sent open.
Proof.
  cbv zeta.
  apply (only_send_moves_the_flags (Call_handle_close close_frame)
           (accepted asyncio_transport)).
  intros message. discriminate.
Defined.

(** X22 at work: [shutdown] with an event still waiting. *)
Lemma queue_only_grows_witness :
  queue (accepted asyncio_transport)
  `prefix_of` queue (after Call_shutdown (accepted asyncio_transport)).
Proof.
  apply (queue_only_grows Call_shutdown (accepted asyncio_transport)).
  discriminate.
Defined.

(** X23 at work: a path with two question marks. *)
Lemma handle_connect_cuts_the_path_witness :
  exists st' sc raw_path sep query_string,
    handle_connect chat_request (connected asyncio_transport) = (st', Ret tt) ∧
    scope st' = Some sc ∧
    scope_raw_path sc = list_byte_of_string raw_path ∧
    scope_query_string sc = list_byte_of_string query_string ∧
    scope_path sc = unquote raw_path ∧
    path chat_request = raw_path +:+ sep +:+ query_string ∧
    ~ In "?"%char (chars raw_path) ∧
    ((sep = EmptyString ∧ query_string = EmptyString) ∨ sep = "?").
Proof.
  apply (handle_connect_cuts_the_path (connected asyncio_transport) chat_request
           (headers chat_request)
           (list_byte_of_string (path chat_request))
           {| cstate := CONNECTING; events := []; writes := [] |}
           {| cstate := OPEN; events := []; writes := [switching] |}
           switching_response);
    reflexivity.
Defined.

(** X24 at work: a path with a byte above 127. *)
Lemma handle_connect_refuses_non_ascii_path_witness :
  handle_connect odd_request (connected asyncio_transport)
  = (set_connect_event (Some odd_request) (connected asyncio_transport),
     Raise (UnicodeEncodeError "ascii")).
Proof.
  apply (handle_connect_refuses_non_ascii_path (connected asyncio_transport)
           odd_request []); reflexivity.
Defined.

(** X25 at work: the first task of a server with none. *)
Lemma handle_connect_task_is_deregistered_witness :
  let made := connected asyncio_transport in
  let task := length (created made) in
  let st1 := fst (handle_connect chat_request made) in
  task ∈ tasks st1 ∧
  done_callbacks st1 = done_callbacks made ++ [task] ∧
  tasks (fst (on_task_complete task st1)) = tasks made ∖ {[task]} ∧
  (task ∉ tasks made -> tasks (fst (on_task_complete task st1)) = tasks made).
Proof.
  cbv zeta.
  apply (handle_connect_task_is_deregistered (connected asyncio_transport) chat_request
           (headers chat_request) "/chat" "?" "room=1&q=a?b"
           (list_byte_of_string "/chat") (list_byte_of_string "room=1&q=a?b")
           {| cstate := CONNECTING; events := []; writes := [] |}
           {| cstate := OPEN; events := []; writes := [switching] |}
           switching_response);
    reflexivity.
Defined.


(** X27 at work: a request over an SSL transport. *)
Lemma scope_describes_the_transport_witness :
  exists st' sc,
    handle_connect chat_request (after (Call_connection_made ssl_transport) fresh)
    = (st', Ret tt) ∧
    scope st' = Some sc ∧
    scope_type sc = "websocket" ∧
    scope_scheme sc = Some (if is_ssl ssl_transport then "wss" else "ws") ∧
    scope_server sc = get_local_addr ssl_transport ∧
    scope_client sc = get_remote_addr ssl_transport ∧
    scope_root_path sc = root_path fresh ∧
    scope_asgi_version sc = asgi_version (config fresh).
Proof.
  apply (scope_describes_the_transport fresh ssl_transport chat_request
           (headers chat_request) "/chat" "?" "room=1&q=a?b"
           (list_byte_of_string "/chat") (list_byte_of_string "room=1&q=a?b")
           {| cstate := CONNECTING; events := []; writes := [] |}
           {| cstate := OPEN; events := []; writes := [switching] |}
           switching_response);
    reflexivity.
Defined.

